(** * ARQV30 Enhanced v2.0: validation engine and error recovery system

    A shallow embedding of [services/validation_engine.py] and
    [services/error_recovery_system.py], and the properties of their
    scoring, classification and repair logic.

    Conventions of the embedding.
    - A Python [str] is a [string] holding its UTF-8 bytes; [len] counts code
      points ([str_len]).
    - A Python [float] is an exact rational ([Q]); no rounding is modelled.
    - A Python [dict] is an association list in insertion order with unique
      keys; JSON-like records only have [str] keys.
    - An exception is a value of [exception]; fallible code lives in [result],
      code that also mutates a local or shared object in [M]. *)

From Stdlib Require Import ZArith QArith Qminmax Lia Lqa String Ascii List DecimalString.
From stdpp Require Import base option gmap strings list.

Local Open Scope Z_scope.
Set Warnings "-register-all".


(** ** A fragment of the Python runtime *)
Module Py.

(** *** Exceptions and fallible computations *)

Record exception := Exc { exc_type : string; exc_msg : string }.

Inductive result (A : Type) :=
| Ok (a : A)
| Raise (e : exception).
Arguments Ok {A} a.
Arguments Raise {A} e.

#[global] Instance result_ret : MRet result := fun A a => Ok a.
#[global] Instance result_bind : MBind result := fun A B f r =>
  match r with
  | Ok a => f a
  | Raise e => Raise e
  end.

(** [try: r  except Exception as e: h e] *)
Definition try_except {A} (r : result A) (h : exception → result A) : result A :=
  match r with
  | Ok a => Ok a
  | Raise e => h e
  end.

Definition AttributeError (msg : string) : exception := Exc "AttributeError" msg.
Definition TypeError (msg : string) : exception := Exc "TypeError" msg.
Definition ValueError (msg : string) : exception := Exc "ValueError" msg.
Definition KeyError (msg : string) : exception := Exc "KeyError" msg.

(** State threaded through a body that may raise: the mutations made before
    the exception survive it, as they do on a Python object. *)
Record M (S A : Type) := mkM { runM : S → S * result A }.
Arguments mkM {S A} _.
Arguments runM {S A} _ _.

#[global] Instance M_ret {S} : MRet (M S) := fun A a => mkM (fun s => (s, Ok a)).
#[global] Instance M_bind {S} : MBind (M S) := fun A B f m =>
  mkM (fun s =>
    match runM m s with
    | (s', Ok a) => runM (f a) s'
    | (s', Raise e) => (s', Raise e)
    end).

Definition lift {S A} (r : result A) : M S A := mkM (fun s => (s, r)).
Definition raise {S A} (e : exception) : M S A := mkM (fun s => (s, Raise e)).
Definition get_state {S} : M S S := mkM (fun s => (s, Ok s)).
Definition modify {S} (f : S → S) : M S unit := mkM (fun s => (f s, Ok tt)).
Definition try_exceptM {S A} (m : M S A) (h : exception → M S A) : M S A :=
  mkM (fun s =>
    match runM m s with
    | (s', Ok a) => (s', Ok a)
    | (s', Raise e) => runM (h e) s'
    end).
Definition when {S} (b : bool) (m : M S unit) : M S unit :=
  if b then m else mret tt.

(** *** Strings *)

Definition dquote : string := String (ascii_of_nat 34) EmptyString.
Definition newline : string := String (ascii_of_nat 10) EmptyString.

(** [s.startswith(p)] *)
Fixpoint starts_with (p s : string) : bool :=
  match p, s with
  | EmptyString, _ => true
  | String a p', String b s' => Ascii.eqb a b && starts_with p' s'
  | String _ _, EmptyString => false
  end.

(** [needle in hay] *)
Fixpoint contains (needle hay : string) : bool :=
  if starts_with needle hay then true
  else match hay with
       | EmptyString => false
       | String _ hay' => contains needle hay'
       end.

Definition is_upper (c : ascii) : bool :=
  let n := nat_of_ascii c in (65 <=? n)%nat && (n <=? 90)%nat.
Definition is_lower (c : ascii) : bool :=
  let n := nat_of_ascii c in (97 <=? n)%nat && (n <=? 122)%nat.
Definition is_digit (c : ascii) : bool :=
  let n := nat_of_ascii c in (48 <=? n)%nat && (n <=? 57)%nat.

Fixpoint map_string (f : ascii → ascii) (s : string) : string :=
  match s with
  | EmptyString => EmptyString
  | String c s' => String (f c) (map_string f s')
  end.

(** [s.lower()] and [s.upper()], on the ASCII letters; other bytes are kept. *)
Definition lower : string → string :=
  map_string (fun c => if is_upper c then ascii_of_nat (nat_of_ascii c + 32) else c).
Definition upper : string → string :=
  map_string (fun c => if is_lower c then ascii_of_nat (nat_of_ascii c - 32) else c).

(** A byte [10xxxxxx] continues the code point started before it. *)
Definition is_continuation (c : ascii) : bool :=
  let n := nat_of_ascii c in (128 <=? n)%nat && (n <? 192)%nat.

(** [len(s)]: the number of code points. *)
Fixpoint str_len (s : string) : Z :=
  match s with
  | EmptyString => 0
  | String c s' => (if is_continuation c then 0 else 1) + str_len s'
  end.

(** [list(s)]: the code points of [s], each as a one-character string. *)
Fixpoint str_chars (s : string) : list string :=
  match s with
  | EmptyString => []
  | String c s' =>
      match str_chars s' with
      | [] => [String c EmptyString]
      | ch :: chs =>
          match ch with
          | String d _ =>
              if is_continuation d then String c ch :: chs
              else String c EmptyString :: ch :: chs
          | EmptyString => String c EmptyString :: chs
          end
      end
  end.

Definition concat_strings (l : list string) : string :=
  fold_right String.append EmptyString l.

(** [s[:n]] *)
Definition str_take (n : nat) (s : string) : string :=
  concat_strings (take n (str_chars s)).

(** [sep.join(l)] *)
Fixpoint join (sep : string) (l : list string) : string :=
  match l with
  | [] => EmptyString
  | [x] => x
  | x :: l' => x +:+ sep +:+ join sep l'
  end.

(** [s.split(c)[0]] for a one-character separator. *)
Fixpoint before_char (c : ascii) (s : string) : string :=
  match s with
  | EmptyString => EmptyString
  | String d s' => if Ascii.eqb c d then EmptyString else String d (before_char c s')
  end.

Definition str_of_Z (n : Z) : string := NilZero.string_of_int (Z.to_int n).

Definition is_space (c : ascii) : bool :=
  let n := nat_of_ascii c in ((9 <=? n)%nat && (n <=? 13)%nat) || (n =? 32)%nat.

Fixpoint lstrip (s : string) : string :=
  match s with
  | String c s' => if is_space c then lstrip s' else s
  | EmptyString => EmptyString
  end.

Fixpoint rev_string (s : string) (acc : string) : string :=
  match s with
  | EmptyString => acc
  | String c s' => rev_string s' (String c acc)
  end.

Definition strip (s : string) : string :=
  rev_string (lstrip (rev_string (lstrip s) EmptyString)) EmptyString.

(** Decimal digits with single underscores between them, as [int()] reads
    them; [seen] tells that a digit came just before. *)
Fixpoint parse_digits (s : string) (seen : bool) (acc : Z) : option Z :=
  match s with
  | EmptyString => if seen then Some acc else None
  | String c s' =>
      if is_digit c then parse_digits s' true (10 * acc + Z.of_nat (nat_of_ascii c - 48))
      else if Ascii.eqb c "_" && seen then
        match s' with
        | String d _ => if is_digit d then parse_digits s' false acc else None
        | EmptyString => None
        end
      else None
  end.

(** [int(s)] for a string, base 10, ASCII digits and blanks. *)
Definition int_of_str (s : string) : result Z :=
  let t := strip s in
  let parsed :=
    match t with
    | String "-" t' => Z.opp <$> parse_digits t' false 0
    | String "+" t' => parse_digits t' false 0
    | _ => parse_digits t false 0
    end in
  match parsed with
  | Some n => Ok n
  | None => Raise (ValueError ("invalid literal for int() with base 10: '" +:+ s +:+ "'"))
  end.

(** *** Values

    The JSON-like values an analysis record is made of. *)

Inductive value :=
| VNone
| VBool (b : bool)
| VInt (n : Z)
| VFloat (q : Q)
| VStr (s : string)
| VList (items : list value)
| VDict (entries : list (string * value)).

Definition type_name (v : value) : string :=
  match v with
  | VNone => "NoneType"
  | VBool _ => "bool"
  | VInt _ => "int"
  | VFloat _ => "float"
  | VStr _ => "str"
  | VList _ => "list"
  | VDict _ => "dict"
  end.

Definition Qltb (x y : Q) : bool := negb (Qle_bool y x).

(** [bool(v)] *)
Definition truthy (v : value) : bool :=
  match v with
  | VNone => false
  | VBool b => b
  | VInt n => negb (n =? 0)
  | VFloat q => negb (Qeq_bool q 0)
  | VStr s => negb (String.eqb s "")
  | VList l => match l with [] => false | _ => true end
  | VDict d => match d with [] => false | _ => true end
  end.

(** [a or b] *)
Definition py_or (a b : value) : value := if truthy a then a else b.

Definition is_dict (v : value) : bool :=
  match v with VDict _ => true | _ => false end.
Definition is_list (v : value) : bool :=
  match v with VList _ => true | _ => false end.

(** Dictionaries as association lists. *)
Fixpoint dict_lookup {A} (k : string) (d : list (string * A)) : option A :=
  match d with
  | [] => None
  | (k', v) :: d' => if String.eqb k k' then Some v else dict_lookup k d'
  end.

Definition dict_has {A} (k : string) (d : list (string * A)) : bool :=
  match dict_lookup k d with Some _ => true | None => false end.

(** [d[k] = v]: in place for a known key, at the end for a new one. *)
Fixpoint dict_set {A} (k : string) (v : A) (d : list (string * A)) : list (string * A) :=
  match d with
  | [] => [(k, v)]
  | (k', v') :: d' =>
      if String.eqb k k' then (k', v) :: d' else (k', v') :: dict_set k v d'
  end.

Definition no_attribute {A} (v : value) (attr : string) : result A :=
  Raise (AttributeError
    ("'" +:+ type_name v +:+ "' object has no attribute '" +:+ attr +:+ "'")).

(** [v.get(k, dflt)] *)
Definition py_get (v : value) (k : string) (dflt : value) : result value :=
  match v with
  | VDict d => Ok (default dflt (dict_lookup k d))
  | _ => no_attribute v "get"
  end.

(** [len(v)] *)
Definition py_len (v : value) : result Z :=
  match v with
  | VStr s => Ok (str_len s)
  | VList l => Ok (Z.of_nat (length l))
  | VDict d => Ok (Z.of_nat (length d))
  | _ => Raise (TypeError ("object of type '" +:+ type_name v +:+ "' has no len()"))
  end.

(** [v == s] for a string [s] *)
Definition py_eq_str (v : value) (s : string) : bool :=
  match v with VStr t => String.eqb t s | _ => false end.

(** [k in v] for a string [k] *)
Definition py_in (k : string) (v : value) : result bool :=
  match v with
  | VDict d => Ok (dict_has k d)
  | VList l => Ok (existsb (fun x => py_eq_str x k) l)
  | VStr s => Ok (contains k s)
  | _ => Raise (TypeError ("argument of type '" +:+ type_name v +:+ "' is not iterable"))
  end.

(** [iter(v)]: a list gives its items, a dict its keys, a string its
    characters. *)
Definition py_iter (v : value) : result (list value) :=
  match v with
  | VList l => Ok l
  | VDict d => Ok (map (fun kv => VStr kv.1) d)
  | VStr s => Ok (map VStr (str_chars s))
  | _ => Raise (TypeError ("'" +:+ type_name v +:+ "' object is not iterable"))
  end.

(** [v.values()] and [v.items()] *)
Definition py_values (v : value) : result (list value) :=
  match v with
  | VDict d => Ok (map snd d)
  | _ => no_attribute v "values"
  end.
Definition py_items (v : value) : result (list (string * value)) :=
  match v with
  | VDict d => Ok d
  | _ => no_attribute v "items"
  end.

(** The number a value stands for in arithmetic; [bool] is a subtype of
    [int]. *)
Definition py_num (v : value) : option Q :=
  match v with
  | VBool b => Some (if b then 1%Q else 0%Q)
  | VInt n => Some (inject_Z n)
  | VFloat q => Some q
  | _ => None
  end.

Definition unsupported {A} (op : string) (v : value) : result A :=
  Raise (TypeError ("'" +:+ op +:+ "' not supported between instances of '"
                    +:+ type_name v +:+ "' and 'int'")).

(** [v < n], [v > n] and [v / n] against an integer literal [n]. *)
Definition py_lt (v : value) (n : Z) : result bool :=
  match py_num v with
  | Some x => Ok (Qltb x (inject_Z n))
  | None => unsupported "<" v
  end.
Definition py_gt (v : value) (n : Z) : result bool :=
  match py_num v with
  | Some x => Ok (Qltb (inject_Z n) x)
  | None => unsupported ">" v
  end.
Definition py_truediv (v : value) (n : Z) : result Q :=
  match py_num v with
  | Some x => Ok (x / inject_Z n)%Q
  | None =>
      Raise (TypeError ("unsupported operand type(s) for /: '" +:+ type_name v +:+ "' and 'int'"))
  end.

(** [int(v)]: a float is truncated towards zero, a string is parsed. *)
Definition py_int (v : value) : result Z :=
  match v with
  | VBool b => Ok (if b then 1 else 0)
  | VInt n => Ok n
  | VFloat q => Ok (Z.quot (Qnum q) (Z.pos (Qden q)))
  | VStr s => int_of_str s
  | _ => Raise (TypeError
           ("int() argument must be a string, a bytes-like object or a real number, not '"
            +:+ type_name v +:+ "'"))
  end.

(** [repr(s)] of a string: quotes are chosen as Python does, and the
    backslash, the quote and the usual control characters are escaped. *)
Fixpoint escape (q : ascii) (s : string) : string :=
  match s with
  | EmptyString => EmptyString
  | String c s' =>
      (if Ascii.eqb c "\" then "\\"
       else if Ascii.eqb c q then String "\" (String q EmptyString)
       else if (nat_of_ascii c =? 10)%nat then "\n"
       else if (nat_of_ascii c =? 13)%nat then "\r"
       else if (nat_of_ascii c =? 9)%nat then "\t"
       else String c EmptyString) +:+ escape q s'
  end.

Definition repr_str (s : string) : string :=
  if contains "'" s && negb (contains dquote s)
  then dquote +:+ escape (ascii_of_nat 34) s +:+ dquote
  else "'" +:+ escape "'" s +:+ "'".

(** The digits [repr] prints for a float are not modelled: they are a
    parameter of the development. *)
Class FloatRepr := float_repr : Q → string.

Section Repr.
Context `{FloatRepr}.

(** [repr(v)] *)
Fixpoint py_repr (v : value) : string :=
  match v with
  | VNone => "None"
  | VBool b => if b then "True" else "False"
  | VInt n => str_of_Z n
  | VFloat q => float_repr q
  | VStr s => repr_str s
  | VList l => "[" +:+ join ", " (map py_repr l) +:+ "]"
  | VDict d =>
      "{" +:+ join ", " (map (fun '(k, v) => repr_str k +:+ ": " +:+ py_repr v) d) +:+ "}"
  end.

(** [str(v)] *)
Definition py_str (v : value) : string :=
  match v with
  | VStr s => s
  | _ => py_repr v
  end.

End Repr.

(** [v[:n]] *)
Definition py_slice_to (n : nat) (v : value) : result value :=
  match v with
  | VStr s => Ok (VStr (str_take n s))
  | VList l => Ok (VList (take n l))
  | _ => Raise (TypeError ("'" +:+ type_name v +:+ "' object is not subscriptable"))
  end.

(** [datetime.now().isoformat()] *)
Class Clock := now_isoformat : string.

(** [json.dumps(v, ensure_ascii=False)]: the escapes of a string are those
    of the [json] module, and a control character without a short escape
    is written [\u00XX]. *)
Definition hex_digit (n : nat) : ascii :=
  ascii_of_nat (if (n <? 10)%nat then 48 + n else 87 + n).

Fixpoint json_escape (s : string) : string :=
  match s with
  | EmptyString => EmptyString
  | String c s' =>
      let n := nat_of_ascii c in
      (if (n =? 92)%nat then "\\"
       else if (n =? 34)%nat then String "\" dquote
       else if (n =? 8)%nat then "\b"
       else if (n =? 12)%nat then "\f"
       else if (n =? 10)%nat then "\n"
       else if (n =? 13)%nat then "\r"
       else if (n =? 9)%nat then "\t"
       else if (n <? 32)%nat then
         "\u00" +:+ String (hex_digit (n / 16)) (String (hex_digit (n mod 16)) EmptyString)
       else String c EmptyString) +:+ json_escape s'
  end.

Definition json_str (s : string) : string := dquote +:+ json_escape s +:+ dquote.

Section Json.
Context `{FloatRepr}.

Fixpoint json_dumps (v : value) : string :=
  match v with
  | VNone => "null"
  | VBool b => if b then "true" else "false"
  | VInt n => str_of_Z n
  | VFloat q => float_repr q
  | VStr s => json_str s
  | VList l => "[" +:+ join ", " (map json_dumps l) +:+ "]"
  | VDict d =>
      "{" +:+ join ", " (map (fun '(k, v) => json_str k +:+ ": " +:+ json_dumps v) d) +:+ "}"
  end.

End Json.

End Py.

(** ** [services/validation_engine.py] *)
Module ValidationEngine.
Import Py.

(** The dictionary every validator fills and returns. *)
Record ComponentValidation := mkValidation {
  valid : bool;
  score : Q;
  critical_issues : list string;
  warnings : list string;
  metrics : list (string * value)
}.

Definition new_validation : ComponentValidation :=
  {| valid := false; score := 0; critical_issues := []; warnings := []; metrics := [] |}.

Definition add_critical (msg : string) : M ComponentValidation unit :=
  modify (fun v => mkValidation (valid v) (score v) (critical_issues v ++ [msg])
                                (warnings v) (metrics v)).
Definition add_warning (msg : string) : M ComponentValidation unit :=
  modify (fun v => mkValidation (valid v) (score v) (critical_issues v)
                                (warnings v ++ [msg]) (metrics v)).
Definition set_metric (k : string) (x : value) : M ComponentValidation unit :=
  modify (fun v => mkValidation (valid v) (score v) (critical_issues v)
                                (warnings v) (dict_set k x (metrics v))).
Definition set_score (q : Q) : M ComponentValidation unit :=
  modify (fun v => mkValidation (valid v) q (critical_issues v) (warnings v) (metrics v)).

(** [validation['valid'] = validation['score'] >= t and
    len(validation['critical_issues']) == 0] *)
Definition set_valid (threshold : Q) : M ComponentValidation unit :=
  modify (fun v => mkValidation
                     (Qle_bool threshold (score v) && (length (critical_issues v) =? 0)%nat)
                     (score v) (critical_issues v) (warnings v) (metrics v)).

(** A validator: its body runs on a fresh dictionary, and whatever it raises
    becomes one more critical issue of the dictionary as it stands. *)
Definition run_validator (body : M ComponentValidation unit) (label : string)
  : ComponentValidation :=
  (runM (try_exceptM body (fun e => add_critical (label +:+ exc_msg e))) new_validation).1.

(** [for x in l: acc = f x acc], stopping at the first exception. *)
Fixpoint for_each {A B} (f : A → B → result B) (l : list A) (acc : B) : result B :=
  match l with
  | [] => Ok acc
  | x :: l' => acc' ← f x acc; for_each f l' acc'
  end.

(** [min(count / target * 100, 100)] *)
Definition ratio_score (count : Q) (target : Z) : Q :=
  Qmin (count / inject_Z target * 100) 100.

Section Validators.
Context `{FloatRepr}.

(** *** Mental drivers *)

Definition generic_phrases : list string :=
  ["em desenvolvimento"; "customizado para"; "driver mental"].

(** [nome and definicao and len(definicao) > 50] *)
Definition driver_is_valid (driver : value) : result bool :=
  nome ← py_get driver "nome" (VStr "");
  definicao ← py_get driver "definicao_visceral" (VStr "");
  if truthy nome && truthy definicao
  then n ← py_len definicao; mret (50 <? n)
  else mret false.

Definition driver_is_generic (driver : value) : bool :=
  existsb (fun generic => contains generic (lower (py_str driver))) generic_phrases.

(** One turn of [for driver in drivers_list], on the pair
    [(valid_drivers, generic_drivers)]. *)
Definition check_driver (driver : value) (counts : Z * Z) : result (Z * Z) :=
  if is_dict driver then
    ok ← driver_is_valid driver;
    mret ((if ok : bool then counts.1 + 1 else counts.1),
          (if driver_is_generic driver then counts.2 + 1 else counts.2))
  else mret counts.

Definition mental_drivers_body (drivers_data : value) : M ComponentValidation unit :=
  drivers_list ← lift (py_get drivers_data "drivers_customizados" (VList []));
  if negb (truthy drivers_list) then
    add_critical "Nenhum driver mental encontrado"
  else
    driver_count ← lift (py_len drivers_list);
    set_metric "driver_count" (VInt driver_count);;
    (if driver_count <? 5 then
       add_critical ("Drivers insuficientes: " +:+ str_of_Z driver_count +:+ " < 5 mínimo")
     else if driver_count <? 19 then
       add_warning ("Drivers abaixo do ideal: " +:+ str_of_Z driver_count
                    +:+ " < 19 recomendado")
     else mret tt);;
    items ← lift (py_iter drivers_list);
    counts ← lift (for_each check_driver items (0, 0));
    let valid_drivers := counts.1 in
    let generic_drivers := counts.2 in
    set_metric "valid_drivers" (VInt valid_drivers);;
    set_metric "generic_drivers" (VInt generic_drivers);;
    let quality_ratio :=
      (if 0 <? driver_count then inject_Z valid_drivers / inject_Z driver_count else 0)%Q in
    let quantity_score := Qmin (inject_Z driver_count / 19 * 100) 100 in
    let quality_score := (quality_ratio * 100)%Q in
    set_score ((quantity_score + quality_score) / 2)%Q;;
    set_valid 60.

Definition _validate_mental_drivers (drivers_data full_analysis : value)
  : ComponentValidation :=
  run_validator (mental_drivers_body drivers_data) "Erro na validação de drivers: ".

(** *** Visual proofs (PROVIs) *)

(** One turn of [for provi in provis_list], on the pair
    [(valid_provis, complete_provis)]. *)
Definition check_provi (provi : value) (counts : Z * Z) : result (Z * Z) :=
  if is_dict provi then
    nome ← py_get provi "nome" (VStr "");
    e1 ← py_get provi "experimento" (VStr "");
    e2 ← py_get provi "experimento_escolhido" (VStr "");
    let experimento := py_or e1 e2 in
    if truthy nome && truthy experimento then
      roteiro ← py_get provi "roteiro_completo" VNone;
      materiais ← py_get provi "materiais" VNone;
      mret (counts.1 + 1,
            if truthy roteiro && truthy materiais then counts.2 + 1 else counts.2)
    else mret counts
  else mret counts.

Definition find_provis (proofs_data : value) : result value :=
  if is_list proofs_data then mret proofs_data
  else if is_dict proofs_data then
    a ← py_get proofs_data "arsenal_provis_completo" (VList []);
    b ← py_get proofs_data "provas_visuais" (VList []);
    c ← py_get proofs_data "visual_proofs" (VList []);
    mret (py_or (py_or a b) c)
  else mret (VList []).

Definition visual_proofs_body (proofs_data : value) : M ComponentValidation unit :=
  provis_list ← lift (find_provis proofs_data);
  provis_count ← lift (py_len provis_list);
  set_metric "provis_count" (VInt provis_count);;
  if negb (truthy provis_list) then
    add_critical "Nenhuma PROVI encontrada"
  else
    items ← lift (py_iter provis_list);
    counts ← lift (for_each check_provi items (0, 0));
    let valid_provis := counts.1 in
    let complete_provis := counts.2 in
    set_metric "valid_provis" (VInt valid_provis);;
    set_metric "complete_provis" (VInt complete_provis);;
    let quantity_score :=
      if 5 <=? provis_count then 100%Q
      else if 3 <=? provis_count then 80%Q
      else inject_Z (provis_count * 20) in
    let quality_score :=
      (if truthy provis_list
       then inject_Z valid_provis / inject_Z provis_count * 100 else 0)%Q in
    let completeness_score :=
      (if truthy provis_list
       then inject_Z complete_provis / inject_Z provis_count * 100 else 0)%Q in
    set_score ((quantity_score + quality_score + completeness_score) / 3)%Q;;
    set_valid 70.

Definition _validate_visual_proofs (proofs_data full_analysis : value)
  : ComponentValidation :=
  run_validator (visual_proofs_body proofs_data) "Erro na validação de PROVIs: ".

(** *** Anti-objection system *)

Definition required_universals : list string := ["tempo"; "dinheiro"; "confianca"].

(** [[req for req in required_universals if req not in universais]] *)
Definition missing_in (universais : value) (req : string) (acc : list string)
  : result (list string) :=
  present ← py_in req universais;
  mret (if present : bool then acc else acc ++ [req]).

Definition anti_objection_body (anti_obj_data : value) : M ComponentValidation unit :=
  universais ← lift (py_get anti_obj_data "objecoes_universais" (VDict []));
  universais_count ← lift (py_len universais);
  set_metric "universais_count" (VInt universais_count);;
  missing_universals ← lift (for_each (missing_in universais) required_universals []);
  when (match missing_universals with [] => false | _ => true end)
    (add_critical ("Objeções universais ausentes: "
                   +:+ py_repr (VList (map VStr missing_universals))));;
  scripts ← lift (py_get anti_obj_data "scripts_personalizados" (VDict []));
  scripts_count ← lift (py_len scripts);
  set_metric "scripts_count" (VInt scripts_count);;
  when (negb (truthy scripts)) (add_critical "Scripts personalizados ausentes");;
  arsenal ← lift (py_get anti_obj_data "arsenal_emergencia" (VList []));
  arsenal_count ← lift (py_len arsenal);
  set_metric "arsenal_count" (VInt arsenal_count);;
  when (arsenal_count <? 5)
    (add_warning ("Arsenal de emergência limitado: " +:+ str_of_Z arsenal_count +:+ " < 5"));;
  let coverage_score :=
    (if universais_count <=? 3 then inject_Z universais_count / 3 * 100 else 100)%Q in
  let scripts_score := Qmin (inject_Z scripts_count / 3 * 100) 100 in
  let arsenal_score := Qmin (inject_Z arsenal_count / 8 * 100) 100 in
  set_score ((coverage_score + scripts_score + arsenal_score) / 3)%Q;;
  set_valid 70.

Definition _validate_anti_objection (anti_obj_data full_analysis : value)
  : ComponentValidation :=
  run_validator (anti_objection_body anti_obj_data) "Erro na validação anti-objeção: ".

(** *** Avatar *)

Definition avatar_body (avatar_data : value) : M ComponentValidation unit :=
  d1 ← lift (py_get avatar_data "dores_viscerais" (VList []));
  d2 ← lift (py_get avatar_data "feridas_abertas_inconfessaveis" (VList []));
  let dores := py_or d1 d2 in
  dores_count ← lift (py_len dores);
  set_metric "dores_count" (VInt dores_count);;
  when (dores_count <? 5)
    (add_critical ("Dores insuficientes: " +:+ str_of_Z dores_count +:+ " < 5"));;
  s1 ← lift (py_get avatar_data "desejos_secretos" (VList []));
  s2 ← lift (py_get avatar_data "sonhos_proibidos_ardentes" (VList []));
  let desejos := py_or s1 s2 in
  desejos_count ← lift (py_len desejos);
  set_metric "desejos_count" (VInt desejos_count);;
  when (desejos_count <? 5)
    (add_critical ("Desejos insuficientes: " +:+ str_of_Z desejos_count +:+ " < 5"));;
  demografico ← lift (py_get avatar_data "perfil_demografico" (VDict []));
  demografico_fields ← lift (py_len demografico);
  set_metric "demografico_fields" (VInt demografico_fields);;
  when (demografico_fields <? 3) (add_warning "Perfil demográfico limitado");;
  psicografico ← lift (py_get avatar_data "perfil_psicografico" (VDict []));
  psicografico_fields ← lift (py_len psicografico);
  set_metric "psicografico_fields" (VInt psicografico_fields);;
  when (psicografico_fields <? 3) (add_warning "Perfil psicográfico limitado");;
  let dores_score := Qmin (inject_Z dores_count / 15 * 100) 100 in
  let desejos_score := Qmin (inject_Z desejos_count / 15 * 100) 100 in
  let demografico_score := Qmin (inject_Z demografico_fields / 7 * 100) 100 in
  let psicografico_score := Qmin (inject_Z psicografico_fields / 8 * 100) 100 in
  set_score ((dores_score + desejos_score + demografico_score + psicografico_score) / 4)%Q;;
  set_valid 70.

Definition _validate_avatar (avatar_data full_analysis : value) : ComponentValidation :=
  run_validator (avatar_body avatar_data) "Erro na validação do avatar: ".

(** *** Forensic metrics *)

(** [sum(1 for count in cialdini.values() if count > 0)], one value at a
    time. *)
Definition count_activated (count : value) (acc : Z) : result Z :=
  positive ← py_gt count 0;
  mret (if positive : bool then acc + 1 else acc).

(** The integer an emotional intensity stands for: [N] or ["N/10"]. *)
Definition emotion_value (valor : value) : result Z :=
  if contains "/" (py_str valor)
  then int_of_str (before_char "/" (py_str valor))
  else py_int valor.

(** One turn of [for emocao, valor in intensidade.items()]; a value that
    cannot be read is skipped by the bare [except]. *)
Definition count_intense (item : string * value) (emocoes_validas : Z) : result Z :=
  try_except
    (num_valor ← emotion_value item.2;
     mret (if 7 <=? num_valor then emocoes_validas + 1 else emocoes_validas))
    (fun _ => mret emocoes_validas).

Definition forensic_metrics_body (metrics_data : value) : M ComponentValidation unit :=
  densidade ← lift (py_get metrics_data "densidade_persuasiva" (VDict []));
  if negb (truthy densidade) then
    add_critical "Densidade persuasiva ausente"
  else
    argumentos_totais ← lift (py_get densidade "argumentos_totais" (VInt 0));
    set_metric "argumentos_totais" argumentos_totais;;
    few ← lift (py_lt argumentos_totais 10);
    when few
      (add_critical ("Argumentos insuficientes: " +:+ py_str argumentos_totais +:+ " < 10"));;
    cialdini ← lift (py_get densidade "gatilhos_cialdini" (VDict []));
    counts ← lift (py_values cialdini);
    cialdini_ativados ← lift (for_each count_activated counts 0);
    set_metric "cialdini_ativados" (VInt cialdini_ativados);;
    when (cialdini_ativados <? 3)
      (add_critical ("Gatilhos de Cialdini insuficientes: "
                     +:+ str_of_Z cialdini_ativados +:+ " < 3"));;
    intensidade ← lift (py_get metrics_data "intensidade_emocional" (VDict []));
    (if truthy intensidade then
       items ← lift (py_items intensidade);
       emocoes_validas ← lift (for_each count_intense items 0);
       set_metric "emocoes_intensas" (VInt emocoes_validas);;
       when (emocoes_validas <? 2)
         (add_warning ("Intensidade emocional baixa: " +:+ str_of_Z emocoes_validas
                       +:+ " emoções >= 7/10"))
     else mret tt);;
    a ← lift (py_truediv argumentos_totais 20);
    let argumentos_score := Qmin (a * 100) 100 in
    let cialdini_score := Qmin (inject_Z cialdini_ativados / 6 * 100) 100 in
    v ← get_state;
    e ← lift (py_truediv (default (VInt 0) (dict_lookup "emocoes_intensas" (metrics v))) 4);
    let intensidade_score := Qmin (e * 100) 100 in
    set_score ((argumentos_score + cialdini_score + intensidade_score) / 3)%Q;;
    set_valid 60.

Definition _validate_forensic_metrics (metrics_data full_analysis : value)
  : ComponentValidation :=
  run_validator (forensic_metrics_body metrics_data) "Erro na validação de métricas: ".

End Validators.

(** *** The aggregator *)

Record ValidationResult := mkResult {
  overall_valid : bool;
  quality_score : Q;
  component_validations : list (string * ComponentValidation);
  all_critical_issues : list string;
  all_warnings : list string;
  recommendations : list string;
  scientific_compliance : bool;
  validated_at : string
}.

(** The locals of [validate_complete_analysis] during its loop. *)
Record Aggregation := mkAgg {
  component_results : list (string * ComponentValidation);
  collected_issues : list string;
  collected_warnings : list string;
  total_score : Q;
  max_score : Q
}.

Definition new_aggregation : Aggregation :=
  {| component_results := []; collected_issues := []; collected_warnings := [];
     total_score := 0; max_score := 0 |}.

Definition validator := value → value → result ComponentValidation.

Definition _get_component_weight (component_name : string) : Q :=
  default (1 # 10)%Q
    (dict_lookup component_name
       [("drivers_mentais", (1 # 4)%Q); ("provas_visuais", (1 # 5)%Q);
        ("sistema_anti_objecao", (1 # 5)%Q); ("avatar_ultra_detalhado", (1 # 5)%Q);
        ("metricas_forenses", (3 # 20)%Q)]).

(** What the [try] block of the loop does with a component's validation. *)
Definition record_component (component_name : string) (cv : ComponentValidation)
  : M Aggregation unit :=
  let weight := _get_component_weight component_name in
  modify (fun a =>
    mkAgg (dict_set component_name cv (component_results a))
          (match critical_issues cv with
           | [] => collected_issues a
           | _ => collected_issues a ++ critical_issues cv
           end)
          (match warnings cv with
           | [] => collected_warnings a
           | _ => collected_warnings a ++ warnings cv
           end)
          (total_score a + score cv * weight)%Q
          (max_score a + 100 * weight)%Q).

Definition validation_failed (component_name : string) (e : exception)
  : M Aggregation unit :=
  modify (fun a =>
    mkAgg (component_results a)
          (collected_issues a
             ++ ["Falha na validação de " +:+ component_name +:+ ": " +:+ exc_msg e])
          (collected_warnings a) (total_score a) (max_score a)).

(** One turn of [for component_name, validator in self.validation_rules.items()]. *)
Definition validate_component (analysis_data : value) (rule : string * validator)
  : M Aggregation unit :=
  try_exceptM
    (component_data ← lift (py_get analysis_data rule.1 (VDict []));
     component_validation ← lift (rule.2 component_data analysis_data);
     record_component rule.1 component_validation)
    (validation_failed rule.1).

Fixpoint validate_components (analysis_data : value) (rules : list (string * validator))
  : M Aggregation unit :=
  match rules with
  | [] => mret tt
  | rule :: rules' =>
      validate_component analysis_data rule;;
      validate_components analysis_data rules'
  end.

Definition _check_scientific_compliance (analysis_data : value) : result bool :=
  pesquisa_data ← py_get analysis_data "pesquisa_web_massiva" (VDict []);
  no_sources ←
    (if negb (truthy pesquisa_data) then mret true
     else search_results ← py_get pesquisa_data "search_results" VNone;
          mret (negb (truthy search_results)));
  if no_sources : bool then mret false
  else
    detalhadas ← py_get analysis_data "metricas_forenses_detalhadas" VNone;
    let has_metrics := truthy detalhadas in
    metadata ← py_get analysis_data "metadata" (VDict []);
    quality ← py_get metadata "quality_score" VNone;
    let has_validation := truthy quality in
    mret (has_metrics && has_validation).

Definition _generate_recommendations (validation_result : ValidationResult) : list string :=
  (if Qltb (quality_score validation_result) 80
   then ["Melhore a qualidade geral da análise configurando mais APIs"] else [])
  ++ (match all_critical_issues validation_result with
      | [] => []
      | _ => ["Resolva os issues críticos identificados antes de usar a análise"]
      end)
  ++ (if negb (scientific_compliance validation_result)
      then ["Adicione mais fontes científicas e dados quantitativos"] else [])
  ++ flat_map
       (fun '(component, validation) =>
          if Qltb (score validation) 70
          then ["Melhore a qualidade do componente " +:+ component] else [])
       (component_validations validation_result).

Section Aggregator.
Context `{FloatRepr} `{Clock}.

(** The aggregator over any table of validators. *)
Definition validate_with (rules : list (string * validator)) (analysis_data : value)
  : result ValidationResult :=
  let validated_at := now_isoformat in
  let '(agg, looped) := runM (validate_components analysis_data rules) new_aggregation in
  looped;;
  let quality_score :=
    (if Qltb 0 (max_score agg) then total_score agg / max_score agg * 100 else 0)%Q in
  let overall_valid :=
    Qle_bool 80 quality_score && (length (collected_issues agg) =? 0)%nat in
  compliance ← _check_scientific_compliance analysis_data;
  let validation_result :=
    mkResult overall_valid quality_score (component_results agg) (collected_issues agg)
             (collected_warnings agg) [] compliance validated_at in
  mret (mkResult overall_valid quality_score (component_results agg)
                 (collected_issues agg) (collected_warnings agg)
                 (_generate_recommendations validation_result) compliance validated_at).

(** [self.validation_rules] *)
Definition validation_rules : list (string * validator) :=
  [("drivers_mentais", fun d a => Ok (_validate_mental_drivers d a));
   ("provas_visuais", fun d a => Ok (_validate_visual_proofs d a));
   ("sistema_anti_objecao", fun d a => Ok (_validate_anti_objection d a));
   ("avatar_ultra_detalhado", fun d a => Ok (_validate_avatar d a));
   ("metricas_forenses", fun d a => Ok (_validate_forensic_metrics d a))].

Definition validate_complete_analysis (analysis_data : value) : result ValidationResult :=
  validate_with validation_rules analysis_data.

End Aggregator.

(** *** Data sources *)

(** The dictionary [validate_data_sources] fills and returns. *)
Record SourceValidation := mkSources {
  real_data_percentage : Q;
  verified_sources : Z;
  total_sources : Z;
  source_quality : string;
  has_fallback_content : bool
}.

Definition new_sources : SourceValidation :=
  {| real_data_percentage := 0; verified_sources := 0; total_sources := 0;
     source_quality := "unknown"; has_fallback_content := false |}.

Definition verified_domains : list string :=
  ["g1.globo.com"; "exame.com"; "valor.globo.com"; "estadao.com.br";
   "folha.uol.com.br"; "ibge.gov.br"; "sebrae.com.br"].

Definition fallback_indicators : list string :=
  ["fallback"; "simulado"; "em desenvolvimento"; "modo emergência"].

(** [any(domain in url for domain in domains)] *)
Fixpoint any_domain_in (domains : list string) (url : value) : result bool :=
  match domains with
  | [] => Ok false
  | domain :: domains' =>
      found ← py_in domain url;
      if found : bool then mret true else any_domain_in domains' url
  end.

(** One turn of [for result in search_results]. *)
Definition check_source (result : value) : M SourceValidation unit :=
  url ← lift (py_get result "url" (VStr ""));
  trusted ← lift (any_domain_in verified_domains url);
  when trusted
    (modify (fun v =>
       mkSources (real_data_percentage v) (verified_sources v + 1) (total_sources v)
                 (source_quality v) (has_fallback_content v))).

Fixpoint check_sources (results : list value) : M SourceValidation unit :=
  match results with
  | [] => mret tt
  | result :: results' => check_source result;; check_sources results'
  end.

Section DataSources.
Context `{FloatRepr}.

(** The [try] block of [validate_data_sources]. *)
Definition data_sources_body (analysis_data : value) : M SourceValidation unit :=
  pesquisa ← lift (py_get analysis_data "pesquisa_web_massiva" (VDict []));
  (if truthy pesquisa then
     search_results ← lift (py_get pesquisa "search_results" (VList []));
     total ← lift (py_len search_results);
     modify (fun v =>
       mkSources (real_data_percentage v) (verified_sources v) total
                 (source_quality v) (has_fallback_content v));;
     results ← lift (py_iter search_results);
     check_sources results;;
     v ← get_state;
     when (0 <? total_sources v)
       (modify (fun v =>
          mkSources (inject_Z (verified_sources v) / inject_Z (total_sources v) * 100)%Q
                    (verified_sources v) (total_sources v)
                    (source_quality v) (has_fallback_content v)))
   else mret tt);;
  let analysis_str := lower (json_dumps analysis_data) in
  modify (fun v =>
    mkSources (real_data_percentage v) (verified_sources v) (total_sources v)
              (source_quality v)
              (existsb (fun indicator => contains indicator analysis_str)
                       fallback_indicators));;
  modify (fun v =>
    mkSources (real_data_percentage v) (verified_sources v) (total_sources v)
              (if Qle_bool 80 (real_data_percentage v) then "excellent"
               else if Qle_bool 60 (real_data_percentage v) then "good"
               else if Qle_bool 40 (real_data_percentage v) then "fair"
               else "poor")
              (has_fallback_content v)).

(** An exception is logged and the dictionary is returned as it stands. *)
Definition validate_data_sources (analysis_data : value) : SourceValidation :=
  (runM (try_exceptM (data_sources_body analysis_data) (fun _ => mret tt)) new_sources).1.

End DataSources.

End ValidationEngine.

(** ** [services/error_recovery_system.py] *)
Module ErrorRecoverySystem.
Import Py.

(** The collaborators of the recovery system: the audit sink of
    [services.auto_save_manager] and the provider gateway of
    [services.ai_manager].  Each call may raise. *)
Class Collaborators := {
  salvar_erro : string → exception → value → result unit;
  salvar_etapa : string → value → string → result unit;
  import_ai_manager : result unit;
  reset_provider_errors : result unit;
  get_provider_status : result value;
  generate_analysis : string → Z → result value
}.

(** [any(comp in component_name for comp in comps)] *)
Fixpoint any_in (comps : list string) (component_name : value) : result bool :=
  match comps with
  | [] => Ok false
  | comp :: comps' =>
      found ← py_in comp component_name;
      if found : bool then mret true else any_in comps' component_name
  end.

Definition _identify_recovery_strategy (error_str error_type : string)
    (component_name : value) : result (option string) :=
  if contains "'AIManager' object has no attribute" error_str then
    mret (Some "ai_manager_fallback")
  else if contains "object has no attribute" error_str then
    mret (Some "missing_method")
  else if contains "list indices must be integers" error_str then
    mret (Some "invalid_data_structure")
  else if contains "takes" error_str && contains "positional arguments" error_str then
    mret (Some "invalid_data_structure")
  else
    fragile ←
      (if truthy component_name
       then any_in ["driver"; "visual"; "anti_objection"] component_name
       else mret false);
    if fragile : bool then mret (Some "component_failure")
    else if contains "validation" (lower error_str) || contains "invalid" (lower error_str)
    then mret (Some "validation_failure")
    else mret None.

(** The regular expression ['(\w+)' object has no attribute '(\w+)'], with
    [\w] on the ASCII letters, digits and underscore. *)
Definition is_word (c : ascii) : bool :=
  is_upper c || is_lower c || is_digit c || Ascii.eqb c "_".

Fixpoint span_word (s : string) : string * string :=
  match s with
  | String c s' =>
      if is_word c then let '(w, r) := span_word s' in (String c w, r)
      else (EmptyString, s)
  | EmptyString => (EmptyString, EmptyString)
  end.

Fixpoint strip_prefix (p s : string) : option string :=
  match p, s with
  | EmptyString, _ => Some s
  | String a p', String b s' => if Ascii.eqb a b then strip_prefix p' s' else None
  | String _ _, EmptyString => None
  end.

Definition match_no_attribute (s : string) : option (string * string) :=
  match s with
  | String "'" r =>
      let '(w1, r1) := span_word r in
      if String.eqb w1 "" then None
      else match strip_prefix "' object has no attribute '" r1 with
           | Some r2 =>
               let '(w2, r3) := span_word r2 in
               if String.eqb w2 "" then None
               else match r3 with
                    | String "'" _ => Some (w1, w2)
                    | _ => None
                    end
           | None => None
           end
  | _ => None
  end.

(** [re.search]: the leftmost match. *)
Fixpoint search_no_attribute (s : string) : option (string * string) :=
  match match_no_attribute s with
  | Some m => Some m
  | None => match s with
            | String _ s' => search_no_attribute s'
            | EmptyString => None
            end
  end.


Section Recovery.
Context `{FloatRepr} `{Clock} `{Collaborators}.

Definition _emergency_recovery (error : exception) (context component_name : value)
  : value :=
  VDict
    [("recovery_successful", VBool false);
     ("method", VStr "emergency_recovery");
     ("error_type", VStr (exc_type error));
     ("error_message", VStr (exc_msg error));
     ("context_preserved", VBool true);
     ("emergency_data",
      VDict
        [("status", VStr "emergency_mode");
         ("message", VStr "Sistema em modo de emergência - dados preservados");
         ("context", context);
         ("component", component_name);
         ("next_steps",
          VList [VStr "Verifique logs de erro detalhados";
                 VStr "Configure APIs ausentes";
                 VStr "Execute análise novamente";
                 VStr "Contate suporte se problema persistir"])]);
     ("timestamp", VStr now_isoformat)].

Definition _generic_recovery (error : exception) (context component_name : value)
  : value :=
  VDict
    [("recovery_successful", VBool true);
     ("method", VStr "generic_recovery");
     ("error_type", VStr (exc_type error));
     ("error_message", VStr (exc_msg error));
     ("context_preserved", context);
     ("component_name", component_name);
     ("fallback_data",
      VDict
        [("status", VStr "recovered_with_basic_data");
         ("content",
          VStr ("Dados básicos para " +:+ py_str (py_or component_name (VStr "componente"))));
         ("recommendation", VStr "Verifique configuração e execute novamente")]);
     ("timestamp", VStr now_isoformat)].

Definition _generate_ai_fallback_content (context : value) : result value :=
  segmento ← py_get context "segmento" (VStr "negócios");
  upper_segmento ←
    match segmento with
    | VStr s => Ok (upper s)
    | _ => no_attribute segmento "upper"
    end;
  mret (VStr (join newline
    [""; "ANÁLISE BÁSICA DE RECUPERAÇÃO - " +:+ upper_segmento;
     "";
     "AVATAR BÁSICO:";
     "- Profissional de " +:+ py_str segmento +:+ " em busca de crescimento";
     "- Principais dores: Estagnação, competição, falta de método";
     "- Principais desejos: Crescimento, reconhecimento, liberdade";
     "";
     "DRIVERS MENTAIS BÁSICOS:";
     "1. Urgência Temporal - Tempo limitado para agir";
     "2. Autoridade Técnica - Expertise comprovada";
     "3. Método vs Sorte - Diferença entre sistema e tentativa";
     "";
     "SISTEMA ANTI-OBJEÇÃO BÁSICO:";
     "- Tempo: Cada dia sem ação é oportunidade perdida";
     "- Dinheiro: ROI comprovado em 3-6 meses";
     "- Confiança: Metodologia testada e aprovada";
     "";
     "RECOMENDAÇÃO: Configure APIs completas para análise avançada";
     ""])).

(** The first provider whose status is ['available'], or [None]. *)
Fixpoint find_available (provider_status : list (string * value)) : value :=
  match provider_status with
  | [] => VNone
  | (provider, status) :: rest =>
      if py_eq_str status "available" then VStr provider else find_available rest
  end.

Definition _recover_ai_manager (error : exception) (context component_name : value)
  : result value :=
  try_except
    (import_ai_manager;;
     reset_provider_errors;;
     provider_status ← get_provider_status;
     items ← py_items provider_status;
     let available_provider := find_available items in
     recovered ←
       (if truthy available_provider then
          segmento ← py_get context "segmento" (VStr "negócios");
          let test_prompt := "Gere análise básica para " +:+ py_str segmento in
          test_response ← generate_analysis test_prompt 500;
          if truthy test_response then
            preview ← py_slice_to 200 test_response;
            mret (Some (VDict
              [("recovery_successful", VBool true);
               ("method", VStr "ai_manager_reset");
               ("available_provider", available_provider);
               ("test_response", preview);
               ("recommendation", VStr "AI Manager recuperado - continue análise")]))
          else mret None
        else mret None);
     match recovered with
     | Some outcome => mret outcome
     | None =>
         fallback_content ← _generate_ai_fallback_content context;
         mret (VDict
           [("recovery_successful", VBool false);
            ("method", VStr "ai_manager_fallback");
            ("fallback_content", fallback_content);
            ("recommendation", VStr "Configure APIs de IA para funcionalidade completa")])
     end)
    (fun _ => mret (_emergency_recovery error context component_name)).

Definition _recover_missing_method (error : exception) (context component_name : value)
  : result value :=
  let error_str := exc_msg error in
  let fallback :=
    VDict
      [("recovery_successful", VBool false);
       ("method", VStr "missing_method_fallback");
       ("error_details", VStr error_str);
       ("recommendation", VStr "Verifique implementação do método ausente")] in
  match search_no_attribute error_str with
  | Some (object_name, method_name) =>
      if String.eqb method_name "_try_fallback" then
        mret (VDict
          [("recovery_successful", VBool true);
           ("method", VStr "add_missing_method");
           ("missing_method", VStr method_name);
           ("object", VStr object_name);
           ("recommendation", VStr "Método _try_fallback foi adicionado ao AI Manager")])
      else if String.eqb method_name "chat" then
        mret (VDict
          [("recovery_successful", VBool true);
           ("method", VStr "add_chat_interface");
           ("missing_method", VStr method_name);
           ("object", VStr object_name);
           ("recommendation", VStr "Interface de chat foi adicionada ao cliente")])
      else mret fallback
  | None => mret fallback
  end.

Definition _normalize_data_structure (data : value) : result value :=
  match data with
  | VDict _ => mret data
  | VList l => mret (VDict [("items", data); ("count", VInt (Z.of_nat (length l)))])
  | VStr _ => mret (VDict [("content", data); ("type", VStr "string")])
  | _ => mret (VDict [("value", VStr (py_str data)); ("type", VStr (type_name data))])
  end.

Definition _recover_data_structure (error : exception) (context component_name : value)
  : result value :=
  try_except
    (normalized_context ← _normalize_data_structure context;
     mret (VDict
       [("recovery_successful", VBool true);
        ("method", VStr "data_structure_normalization");
        ("original_context", context);
        ("normalized_context", normalized_context);
        ("recommendation", VStr "Use contexto normalizado para continuar análise")]))
    (fun _ => mret (_emergency_recovery error context component_name)).

Definition _generate_basic_drivers (context : value) : result value :=
  segmento ← py_get context "segmento" (VStr "negócios");
  let seg := py_str segmento in
  mret (VDict
    [("drivers_customizados",
      VList
        [VDict [("nome", VStr ("Urgência " +:+ seg));
                ("gatilho_central", VStr ("Tempo limitado para dominar " +:+ seg));
                ("definicao_visceral",
                 VStr ("Cada dia sem otimizar " +:+ seg +:+ " é oportunidade perdida"));
                ("recovery_mode", VBool true)];
         VDict [("nome", VStr ("Autoridade " +:+ seg));
                ("gatilho_central", VStr ("Expertise comprovada em " +:+ seg));
                ("definicao_visceral",
                 VStr ("Ser reconhecido como autoridade em " +:+ seg));
                ("recovery_mode", VBool true)];
         VDict [("nome", VStr "Método vs Sorte");
                ("gatilho_central", VStr "Diferença entre método e tentativa");
                ("definicao_visceral",
                 VStr ("Parar de tentar e começar a aplicar método em " +:+ seg));
                ("recovery_mode", VBool true)]]);
     ("recovery_applied", VBool true);
     ("original_count_target", VInt 19);
     ("recovered_count", VInt 3)]).

Definition _generate_basic_visual_proofs (context : value) : result value :=
  segmento ← py_get context "segmento" (VStr "negócios");
  let seg := py_str segmento in
  mret (VDict
    [("arsenal_provis_completo",
      VList
        [VDict [("nome", VStr ("PROVI 1: Transformação " +:+ seg));
                ("conceito_alvo", VStr "Eficácia da metodologia");
                ("experimento_escolhido",
                 VStr ("Comparação visual de resultados antes e depois em " +:+ seg));
                ("recovery_mode", VBool true)];
         VDict [("nome", VStr "PROVI 2: Método vs Caos");
                ("conceito_alvo", VStr "Superioridade do método");
                ("experimento_escolhido",
                 VStr "Demonstração de organização vs desorganização");
                ("recovery_mode", VBool true)]]);
     ("recovery_applied", VBool true);
     ("original_count_target", VInt 8);
     ("recovered_count", VInt 2)]).

Definition _generate_basic_anti_objection (context : value) : result value :=
  segmento ← py_get context "segmento" (VStr "negócios");
  let seg := py_str segmento in
  mret (VDict
    [("objecoes_universais",
      VDict
        [("tempo",
          VDict [("objecao", VStr "Não tenho tempo para implementar isso agora");
                 ("contra_ataque",
                  VStr ("Cada mês sem otimizar " +:+ seg +:+ " custa oportunidades"));
                 ("recovery_mode", VBool true)]);
         ("dinheiro",
          VDict [("objecao", VStr "Não tenho orçamento disponível");
                 ("contra_ataque",
                  VStr ("O custo de não investir em " +:+ seg +:+ " é maior"));
                 ("recovery_mode", VBool true)]);
         ("confianca",
          VDict [("objecao", VStr "Preciso de mais garantias");
                 ("contra_ataque",
                  VStr ("Metodologia testada com profissionais de " +:+ seg));
                 ("recovery_mode", VBool true)])]);
     ("recovery_applied", VBool true);
     ("coverage_percentage", VInt 60)]).

Definition _generate_generic_component_data (context component_name : value)
  : result value :=
  segmento ← py_get context "segmento" (VStr "negócios");
  mret (VDict
    [("component_name", component_name);
     ("status", VStr "recovered");
     ("data", VStr ("Dados básicos para " +:+ py_str component_name));
     ("context", segmento);
     ("recovery_applied", VBool true);
     ("timestamp", VStr now_isoformat)]).

Definition _recover_component_failure (error : exception)
    (context component_name : value) : result value :=
  try_except
    (is_driver ← py_in "driver" component_name;
     fallback_data ←
       (if is_driver : bool then _generate_basic_drivers context
        else
          is_visual ← py_in "visual" component_name;
          if is_visual : bool then _generate_basic_visual_proofs context
          else
            is_anti ← py_in "anti_objection" component_name;
            if is_anti : bool then _generate_basic_anti_objection context
            else _generate_generic_component_data context component_name);
     mret (VDict
       [("recovery_successful", VBool true);
        ("method", VStr "component_fallback");
        ("component_name", component_name);
        ("fallback_data", fallback_data);
        ("recommendation",
         VStr ("Componente " +:+ py_str component_name +:+ " recuperado com dados básicos"))]))
    (fun _ => mret (_emergency_recovery error context component_name)).

Definition _recover_validation_failure (error : exception)
    (context component_name : value) : result value :=
  mret (VDict
    [("recovery_successful", VBool true);
     ("method", VStr "validation_bypass");
     ("validation_relaxed", VBool true);
     ("original_error", VStr (exc_msg error));
     ("recommendation", VStr "Validação relaxada aplicada - continue com cautela")]).

Definition strategy := exception → value → value → result value.

(** [self.recovery_strategies] *)
Definition recovery_strategies : list (string * strategy) :=
  [("ai_manager_fallback", _recover_ai_manager);
   ("missing_method", _recover_missing_method);
   ("invalid_data_structure", _recover_data_structure);
   ("component_failure", _recover_component_failure);
   ("validation_failure", _recover_validation_failure)].

(** [self.recovery_strategies[name]] *)
Definition strategy_named (name : string) : result strategy :=
  match dict_lookup name recovery_strategies with
  | Some f => Ok f
  | None => Raise (KeyError (repr_str name))
  end.

(** The [try] block of [recover_from_error]. *)
Definition recover_attempt (error : exception) (context component_name : value)
  : result value :=
  let error_str := exc_msg error in
  let error_type := exc_type error in
  let label := py_str (py_or component_name (VStr "unknown")) in
  salvar_erro ("recovery_" +:+ label) error context;;
  recovery_strategy ← _identify_recovery_strategy error_str error_type component_name;
  match recovery_strategy with
  | Some name =>
      recover ← strategy_named name;
      recovery_result ← recover error context component_name;
      salvar_etapa ("recovery_result_" +:+ label) recovery_result "erros";;
      mret recovery_result
  | None => mret (_generic_recovery error context component_name)
  end.

Definition recover_from_error (error : exception) (context component_name : value)
  : result value :=
  try_except (recover_attempt error context component_name)
    (fun _ => mret (_emergency_recovery error context component_name)).


End Recovery.

(** *** The auto-fixer

    [auto_fix_common_errors] mutates lists and dictionaries it reaches
    through its argument, so the record lives in a store of objects and its
    fields hold references. *)

Definition loc := positive.

Inductive hval :=
| HNone
| HBool (b : bool)
| HInt (n : Z)
| HFloat (q : Q)
| HStr (s : string)
| HRef (l : loc).

Inductive obj :=
| OList (items : list hval)
| ODict (entries : list (string * hval)).

Abbreviation heap := (gmap loc obj).

Definition dangling {A} (l : loc) : result A :=
  Raise (Exc "SystemError" "reference to an object that was never allocated").

Definition deref (h : heap) (l : loc) : result obj :=
  match h !! l with
  | Some o => Ok o
  | None => dangling l
  end.

Definition h_type_name (h : heap) (v : hval) : string :=
  match v with
  | HNone => "NoneType"
  | HBool _ => "bool"
  | HInt _ => "int"
  | HFloat _ => "float"
  | HStr _ => "str"
  | HRef l => match h !! l with
              | Some (ODict _) => "dict"
              | _ => "list"
              end
  end.

Definition h_no_attribute {A} (h : heap) (v : hval) (attr : string) : result A :=
  Raise (AttributeError
    ("'" +:+ h_type_name h v +:+ "' object has no attribute '" +:+ attr +:+ "'")).

(** A new object, at a location the store does not use yet. *)
Definition alloc (o : obj) : M heap hval :=
  mkM (fun h => let l := fresh (dom h) in (<[l := o]> h, Ok (HRef l))).

(** An operation that reads the store. *)
Definition reading {A} (f : heap → result A) : M heap A :=
  mkM (fun h => (h, f h)).

(** [isinstance(v, dict)] *)
Definition h_is_dict (v : hval) : M heap bool :=
  reading (fun h =>
    match v with
    | HRef l => o ← deref h l; mret (match o with ODict _ => true | OList _ => false end)
    | _ => mret false
    end).

Definition h_eq_str (v : hval) (s : string) : bool :=
  match v with HStr t => String.eqb t s | _ => false end.

(** [k in v] for a string [k] *)
Definition h_in (k : string) (v : hval) : M heap bool :=
  reading (fun h =>
    match v with
    | HRef l =>
        o ← deref h l;
        mret (match o with
              | ODict d => dict_has k d
              | OList xs => existsb (fun x => h_eq_str x k) xs
              end)
    | HStr s => mret (contains k s)
    | _ => Raise (TypeError ("argument of type '" +:+ h_type_name h v +:+ "' is not iterable"))
    end).

(** [v[k]] for a string [k] *)
Definition h_getitem (v : hval) (k : string) : M heap hval :=
  reading (fun h =>
    match v with
    | HRef l =>
        o ← deref h l;
        match o with
        | ODict d => match dict_lookup k d with
                     | Some x => Ok x
                     | None => Raise (KeyError (repr_str k))
                     end
        | OList _ => Raise (TypeError "list indices must be integers or slices, not str")
        end
    | HStr _ => Raise (TypeError "string indices must be integers, not 'str'")
    | _ => Raise (TypeError ("'" +:+ h_type_name h v +:+ "' object is not subscriptable"))
    end).

(** [v.get(k, dflt)] *)
Definition h_get (v : hval) (k : string) (dflt : hval) : M heap hval :=
  reading (fun h =>
    match v with
    | HRef l =>
        o ← deref h l;
        match o with
        | ODict d => Ok (default dflt (dict_lookup k d))
        | OList _ => h_no_attribute h v "get"
        end
    | _ => h_no_attribute h v "get"
    end).

(** [len(v)] *)
Definition h_len (v : hval) : M heap Z :=
  reading (fun h =>
    match v with
    | HRef l =>
        o ← deref h l;
        mret (match o with
              | ODict d => Z.of_nat (length d)
              | OList xs => Z.of_nat (length xs)
              end)
    | HStr s => mret (str_len s)
    | _ => Raise (TypeError ("object of type '" +:+ h_type_name h v +:+ "' has no len()"))
    end).

(** [v.values()] *)
Definition h_values (v : hval) : M heap (list hval) :=
  reading (fun h =>
    match v with
    | HRef l =>
        o ← deref h l;
        match o with
        | ODict d => Ok (map snd d)
        | OList _ => h_no_attribute h v "values"
        end
    | _ => h_no_attribute h v "values"
    end).

(** An operation that replaces the object a reference leads to. *)
Definition updating (v : hval) (attr : string) (f : obj → option obj) : M heap unit :=
  mkM (fun h =>
    match v with
    | HRef l =>
        match h !! l with
        | Some o => match f o with
                    | Some o' => (<[l := o']> h, Ok tt)
                    | None => (h, h_no_attribute h v attr)
                    end
        | None => (h, dangling l)
        end
    | _ => (h, h_no_attribute h v attr)
    end).

(** [v.append(x)] *)
Definition h_append (v : hval) (x : hval) : M heap unit :=
  updating v "append"
    (fun o => match o with
              | OList xs => Some (OList (xs ++ [x]))
              | ODict _ => None
              end).

(** [v.update(entries)] *)
Definition h_update (v : hval) (entries : list (string * hval)) : M heap unit :=
  updating v "update"
    (fun o => match o with
              | ODict d => Some (ODict (fold_left (fun d' kv => dict_set kv.1 kv.2 d') entries d))
              | OList _ => None
              end).

(** [v[k] = x] for a string [k] *)
Definition h_setitem (v : hval) (k : string) (x : hval) : M heap unit :=
  mkM (fun h =>
    match v with
    | HRef l =>
        match h !! l with
        | Some (ODict d) => (<[l := ODict (dict_set k x d)]> h, Ok tt)
        | Some (OList _) =>
            (h, Raise (TypeError "list indices must be integers or slices, not str"))
        | None => (h, dangling l)
        end
    | _ => (h, Raise (TypeError ("'" +:+ h_type_name h v
                                  +:+ "' object does not support item assignment")))
    end).

(** [v.copy()]: a new object with the same fields, one level deep. *)
Definition h_copy (v : hval) : M heap hval :=
  h ← get_state;
  match v with
  | HRef l => o ← lift (deref h l); alloc o
  | _ => lift (h_no_attribute h v "copy")
  end.

(** [count == 0] *)
Definition h_is_zero (v : hval) : bool :=
  match v with
  | HInt n => n =? 0
  | HFloat q => Qeq_bool q 0
  | HBool b => negb b
  | _ => false
  end.

Definition basic_driver (n : Z) : obj :=
  ODict [("nome", HStr ("Driver Básico " +:+ str_of_Z (n + 1)));
         ("gatilho_central", HStr "Gatilho psicológico");
         ("definicao_visceral", HStr "Definição básica");
         ("auto_fixed", HBool true)].

Definition basic_provi (n : Z) : obj :=
  ODict [("nome", HStr ("PROVI " +:+ str_of_Z (n + 1) +:+ ": Prova Básica"));
         ("conceito_alvo", HStr "Conceito fundamental");
         ("experimento_escolhido", HStr "Demonstração visual básica");
         ("auto_fixed", HBool true)].

Definition basic_cialdini : list (string * hval) :=
  [("reciprocidade", HInt 2); ("autoridade", HInt 3); ("prova_social", HInt 4);
   ("escassez", HInt 1); ("compromisso", HInt 2); ("afinidade", HInt 3)].

(** [while len(lst) < minimum: lst.append(item(len(lst)))], for at most
    [fuel] tests of the condition. *)
Fixpoint pad_loop (fuel : nat) (lst : hval) (item : Z → obj) (minimum : Z) : M heap unit :=
  match fuel with
  | O => mret tt
  | S fuel' =>
      n ← h_len lst;
      if n <? minimum then
        x ← alloc (item n);
        h_append lst x;;
        pad_loop fuel' lst item minimum
      else mret tt
  end.

(** The loop adds one item a turn: [minimum + 1] tests are enough. *)
Definition pad (lst : hval) (item : Z → obj) (minimum : Z) : M heap unit :=
  pad_loop (S (Z.to_nat minimum)) lst item minimum.

Section AutoFix.
Context `{Clock}.

(** Fix 1 *)
Definition fix_drivers (fixed_data fixes_applied : hval) : M heap unit :=
  present ← h_in "drivers_mentais_customizados" fixed_data;
  when present
    (drivers ← h_getitem fixed_data "drivers_mentais_customizados";
     is_mapping ← h_is_dict drivers;
     has_list ← (if is_mapping : bool then h_in "drivers_customizados" drivers
                 else mret false);
     when has_list
       (drivers_list ← h_getitem drivers "drivers_customizados";
        n ← h_len drivers_list;
        when (n <? 3)
          (pad drivers_list basic_driver 3;;
           h_append fixes_applied (HStr "drivers_mentais_minimum")))).

(** Fix 2 *)
Definition fix_provis (fixed_data fixes_applied : hval) : M heap unit :=
  present ← h_in "provas_visuais_arsenal" fixed_data;
  when present
    (provas ← h_getitem fixed_data "provas_visuais_arsenal";
     is_mapping ← h_is_dict provas;
     when is_mapping
       (empty ← alloc (OList []);
        provas_list ← h_get provas "arsenal_provis_completo" empty;
        n ← h_len provas_list;
        when (n <? 2)
          (pad provas_list basic_provi 2;;
           h_setitem provas "arsenal_provis_completo" provas_list;;
           h_append fixes_applied (HStr "provas_visuais_minimum")))).

(** Fix 3 *)
Definition fix_cialdini (fixed_data fixes_applied : hval) : M heap unit :=
  present ← h_in "metricas_forenses_detalhadas" fixed_data;
  when present
    (metricas ← h_getitem fixed_data "metricas_forenses_detalhadas";
     is_mapping ← h_is_dict metricas;
     when is_mapping
       (empty1 ← alloc (ODict []);
        densidade ← h_get metricas "densidade_persuasiva" empty1;
        empty2 ← alloc (ODict []);
        cialdini ← h_get densidade "gatilhos_cialdini" empty2;
        counts ← h_values cialdini;
        when (forallb h_is_zero counts)
          (h_update cialdini basic_cialdini;;
           h_append fixes_applied (HStr "cialdini_triggers_basic")))).

(** Fix 4 *)
Definition fix_metadata (fixed_data fixes_applied : hval) : M heap unit :=
  present ← h_in "metadata" fixed_data;
  when (negb present)
    (metadata ← alloc (ODict
       [("auto_fixed", HBool true);
        ("fixes_applied", fixes_applied);
        ("fixed_at", HStr now_isoformat);
        ("quality_score", HFloat 75);
        ("validation_status", HStr "auto_fixed")]);
     h_setitem fixed_data "metadata" metadata;;
     h_append fixes_applied (HStr "metadata_added")).

(** The [try] block. *)
Definition apply_fixes (fixed_data fixes_applied : hval) : M heap (list (string * hval)) :=
  fix_drivers fixed_data fixes_applied;;
  fix_provis fixed_data fixes_applied;;
  fix_cialdini fixed_data fixes_applied;;
  fix_metadata fixed_data fixes_applied;;
  n ← h_len fixes_applied;
  mret [("auto_fix_successful", HBool true);
        ("fixes_applied", fixes_applied);
        ("fixed_data", fixed_data);
        ("original_issues", HInt n);
        ("recommendation",
         HStr "Dados corrigidos automaticamente - qualidade básica garantida")].

Definition auto_fix_failed (analysis_data : hval) (e : exception)
  : M heap (list (string * hval)) :=
  mret [("auto_fix_successful", HBool false);
        ("error", HStr (exc_msg e));
        ("original_data", analysis_data);
        ("recommendation", HStr "Auto-fix falhou - use dados originais")].

Definition auto_fix_common_errors (analysis_data : hval) : M heap (list (string * hval)) :=
  fixed_data ← h_copy analysis_data;
  fixes_applied ← alloc (OList []);
  try_exceptM (apply_fixes fixed_data fixes_applied) (auto_fix_failed analysis_data).

End AutoFix.

(** The store holding a JSON-like value, every list and dictionary of it an
    object of its own, and the value a reference stands for in a store. *)
Fixpoint store (v : value) : M heap hval :=
  match v with
  | VNone => mret HNone
  | VBool b => mret (HBool b)
  | VInt n => mret (HInt n)
  | VFloat q => mret (HFloat q)
  | VStr s => mret (HStr s)
  | VList l =>
      xs ← (fix store_items (l : list value) : M heap (list hval) :=
              match l with
              | [] => mret []
              | x :: l' => x' ← store x; xs ← store_items l'; mret (x' :: xs)
              end) l;
      alloc (OList xs)
  | VDict d =>
      kvs ← (fix store_entries (d : list (string * value)) : M heap (list (string * hval)) :=
               match d with
               | [] => mret []
               | (k, x) :: d' => x' ← store x; kvs ← store_entries d'; mret ((k, x') :: kvs)
               end) d;
      alloc (ODict kvs)
  end.

Fixpoint view (depth : nat) (h : heap) (v : hval) : option value :=
  match v with
  | HNone => Some VNone
  | HBool b => Some (VBool b)
  | HInt n => Some (VInt n)
  | HFloat q => Some (VFloat q)
  | HStr s => Some (VStr s)
  | HRef l =>
      match depth with
      | O => None
      | S depth' =>
          match h !! l with
          | Some (OList xs) => VList <$> mapM (view depth' h) xs
          | Some (ODict d) =>
              VDict <$> mapM (fun kv => pair kv.1 <$> view depth' h kv.2) d
          | None => None
          end
      end
  end.

End ErrorRecoverySystem.

(** ** Notions used to state the properties *)
Module Notions.
Import Py ValidationEngine ErrorRecoverySystem.



(** The forensic sub-record holds no floating-point [argumentos_totais]:
    the number is the only value of the record that enters a score by
    arithmetic, and a float may be a NaN, which no comparison bounds. *)
Definition is_float (v : value) : bool :=
  match v with VFloat _ => true | _ => false end.

Definition arguments_not_float (metrics_data : value) : Prop :=
  ∀ densidade x,
    py_get metrics_data "densidade_persuasiva" (VDict []) = Ok densidade →
    py_get densidade "argumentos_totais" (VInt 0) = Ok x →
    is_float x = false.

(** A field of a mapping and the size of a container, with a default when
    there is none. *)
Definition field_or (v : value) (k : string) (dflt : value) : value :=
  match py_get v k dflt with Ok x => x | Raise _ => dflt end.

Definition size_or_zero (v : value) : Z :=
  match py_len v with Ok n => n | Raise _ => 0 end.

(** The number of required universals among the keys of [universais]. *)
Definition count_present (universais : value) : Z :=
  Z.of_nat (length (List.filter
    (fun req => match py_in req universais with Ok true => true | _ => false end)
    required_universals)).

(** The anti-objection score as the specification words it: the coverage
    counts the required universals that are present in
    [objecoes_universais]; the scripts and the arsenal count their items. *)
Definition specified_anti_objection_score (anti_obj_data : value) : Q :=
  let universais := field_or anti_obj_data "objecoes_universais" (VDict []) in
  let scripts := field_or anti_obj_data "scripts_personalizados" (VDict []) in
  let arsenal := field_or anti_obj_data "arsenal_emergencia" (VList []) in
  let coverage_score := Qmin (inject_Z (count_present universais) / 3 * 100) 100 in
  let scripts_score := Qmin (inject_Z (size_or_zero scripts) / 3 * 100) 100 in
  let arsenal_score := Qmin (inject_Z (size_or_zero arsenal) / 8 * 100) 100 in
  ((coverage_score + scripts_score + arsenal_score) / 3)%Q.

(** A property of the state that a computation keeps, whether it ends
    normally or raises. *)
Definition keeps {St A} (P : St → Prop) (m : M St A) : Prop :=
  ∀ s, P s → P (runM m s).1.

(** A property of the score alone. *)
Definition on_score (R : Q → Prop) (v : ComponentValidation) : Prop := R (score v).

Definition in_range (q : Q) : Prop := (0 <= q <= 100)%Q.
Definition score_in_range : ComponentValidation → Prop := on_score in_range.

(** The metric [emocoes_intensas], when it is set, is a count. *)
Definition emotions_counted (v : ComponentValidation) : Prop :=
  ∀ x, dict_lookup "emocoes_intensas" (metrics v) = Some x → ∃ n, x = VInt n ∧ 0 <= n.

Definition forensic_sound (v : ComponentValidation) : Prop :=
  (0 <= score v)%Q ∧ emotions_counted v.

(** The value reached from [v] through [keys], dictionary after dictionary. *)
Fixpoint h_path (h : heap) (v : hval) (keys : list string) : option hval :=
  match keys with
  | [] => Some v
  | k :: keys' =>
      match v with
      | HRef l =>
          match h !! l with
          | Some (ODict d) =>
              match dict_lookup k d with
              | Some x => h_path h x keys'
              | None => None
              end
          | _ => None
          end
      | _ => None
      end
  end.

Definition cialdini_path : list string :=
  ["metricas_forenses_detalhadas"; "densidade_persuasiva"; "gatilhos_cialdini"].

(** The Cialdini trigger counters a record holds. *)
Definition trigger_values (h : heap) (record : hval) : list (string * hval) :=
  match h_path h record cialdini_path with
  | Some (HRef l) => match h !! l with
                     | Some (ODict d) => d
                     | _ => []
                     end
  | _ => []
  end.

(** The list of fixes holds the identifier [name]. *)
Definition fix_recorded (h : heap) (fixes : hval) (name : string) : Prop :=
  ∃ l xs, fixes = HRef l ∧ h !! l = Some (OList xs) ∧ HStr name ∈ xs.

(** A property of the store that allocating, appending to a list and
    setting one of the keys written by the fixes 2 and 4 respect. *)
Record stable (P : heap → Prop) : Prop := {
  stable_alloc : ∀ h l o, h !! l = None → P h → P (<[l := o]> h);
  stable_append : ∀ h l xs x,
    h !! l = Some (OList xs) → P h → P (<[l := OList (xs ++ [x])]> h);
  stable_setitem : ∀ h l d k x,
    h !! l = Some (ODict d) → k = "arsenal_provis_completo" ∨ k = "metadata" →
    P h → P (<[l := ODict (dict_set k x d)]> h)
}.

(** The record holds a dictionary [densidade_persuasiva], at [dl], that has
    no key [gatilhos_cialdini]. *)
Definition triggers_missing (record : hval) (dl : loc) (h : heap) : Prop :=
  h_path h record ["metricas_forenses_detalhadas"; "densidade_persuasiva"] = Some (HRef dl)
  ∧ ∃ dens, h !! dl = Some (ODict dens) ∧ dict_lookup "gatilhos_cialdini" dens = None.

(** The object at [a] is a dictionary whose key [k] holds [v], or nothing. *)
Definition has_field (a : loc) (k : string) (v : option hval) (h : heap) : Prop :=
  ∃ d, h !! a = Some (ODict d) ∧ dict_lookup k d = v.

(** The object at [a] is a list. *)
Definition is_list_at (a : loc) (h : heap) : Prop :=
  ∃ xs, h !! a = Some (OList xs).

(** The chain of dictionaries from the record at [f] to its
    [densidade_persuasiva] at [dl], which has no key [gatilhos_cialdini]. *)
Definition triggers_chain (f m dl : loc) (h : heap) : Prop :=
  has_field f "metricas_forenses_detalhadas" (Some (HRef m)) h
  ∧ has_field m "densidade_persuasiva" (Some (HRef dl)) h
  ∧ has_field dl "gatilhos_cialdini" None h.

(** The number of items a list still lacks. *)
Definition padding_left (lst : hval) (minimum : Z) (h : heap) : nat :=
  match (runM (h_len lst) h).2 with
  | Ok n => Z.to_nat (minimum - n)
  | Raise _ => O
  end.

(** The score a component needs to be valid, as each validator compares it. *)
Definition pass_mark (component_name : string) : Q :=
  if String.eqb component_name "drivers_mentais"
     || String.eqb component_name "metricas_forenses"
  then 60%Q else 70%Q.

(** A validation that says [valid] exactly when it has no critical issue
    and a score of at least [threshold]. *)
Definition valid_is_earned (threshold : Q) (v : ComponentValidation) : Prop :=
  valid v = true ↔ critical_issues v = [] ∧ (threshold <= score v)%Q.

(** A validation whose flag [valid] and whose score are still unset. *)
Definition not_yet_valid (v : ComponentValidation) : Prop :=
  valid v = false ∧ (score v == 0)%Q.

(** A computation that ends normally in [Q] and raises only in [P]. *)
Definition finishes {St A} (P Q : St → Prop) (m : M St A) : Prop :=
  ∀ s, P s → match runM m s with
             | (s', Ok _) => Q s'
             | (s', Raise _) => P s'
             end.

End Notions.

(** ** Sample environments and inputs *)
Module Samples.
Import Py ValidationEngine ErrorRecoverySystem.

(** Floats printed as fractions. *)
Definition plain_floats : FloatRepr :=
  fun q => str_of_Z (Qnum q) +:+ "/" +:+ str_of_Z (Z.pos (Qden q)).
Definition fixed_clock : Clock := "2025-01-01T00:00:00".

(** Collaborators that never fail and report one available provider. *)
Definition quiet_collaborators : Collaborators :=
  {| salvar_erro := fun _ _ _ => Ok tt;
     salvar_etapa := fun _ _ _ => Ok tt;
     import_ai_manager := Ok tt;
     reset_provider_errors := Ok tt;
     get_provider_status := Ok (VDict [("gemini", VStr "available")]);
     generate_analysis := fun _ _ => Ok (VStr "ok") |}.



(** Forensic metrics with a whole number of arguments. *)
Definition fifteen_arguments : value :=
  VDict [("densidade_persuasiva", VDict [("argumentos_totais", VInt 15)])].

(** An anti-objection sub-record with three objections, none of them one of
    the required universals. *)
Definition other_objections : value :=
  VDict [("objecoes_universais",
          VDict [("preco", VStr "caro"); ("concorrencia", VStr "ja uso outro");
                 ("prioridade", VStr "agora nao")])].

(** Forensic metrics that report a negative number of arguments. *)
Definition negative_arguments : value :=
  VDict [("densidade_persuasiva", VDict [("argumentos_totais", VInt (-5))])].

(** The store that holds a value and nothing else, and the reference to the
    value in it. *)
Definition stored (v : value) : heap * hval :=
  match runM (store v) ∅ with
  | (h, Ok a) => (h, a)
  | (h, Raise _) => (h, HNone)
  end.

(** A record whose list of drivers is empty. *)
Definition no_drivers : value :=
  VDict [("drivers_mentais_customizados", VDict [("drivers_customizados", VList [])])].

Definition filler_driver (n : string) : value :=
  VDict [("nome", VStr ("Driver Básico " +:+ n));
         ("gatilho_central", VStr "Gatilho psicológico");
         ("definicao_visceral", VStr "Definição básica");
         ("auto_fixed", VBool true)].

(** The same record once its list of drivers is padded. *)
Definition padded_drivers : value :=
  VDict [("drivers_mentais_customizados",
          VDict [("drivers_customizados",
                  VList [filler_driver "1"; filler_driver "2"; filler_driver "3"])])].

(** A record whose list of drivers is empty and whose list of visual proofs
    is [None]. *)
Definition no_drivers_null_provis : value :=
  VDict [("drivers_mentais_customizados", VDict [("drivers_customizados", VList [])]);
         ("provas_visuais_arsenal", VDict [("arsenal_provis_completo", VNone)])].

Definition padded_drivers_null_provis : value :=
  VDict [("drivers_mentais_customizados",
          VDict [("drivers_customizados",
                  VList [filler_driver "1"; filler_driver "2"; filler_driver "3"])]);
         ("provas_visuais_arsenal", VDict [("arsenal_provis_completo", VNone)])].

(** Forensic metrics with an empty mapping of triggers, and with none. *)
Definition empty_triggers : value :=
  VDict [("metricas_forenses_detalhadas",
          VDict [("densidade_persuasiva", VDict [("gatilhos_cialdini", VDict [])])])].

Definition missing_triggers : value :=
  VDict [("metricas_forenses_detalhadas",
          VDict [("densidade_persuasiva", VDict [("argumentos_totais", VInt 12)])])].

(** A driver that passes the quality check: a name and a definition of 60
    characters. *)
Definition good_driver : value :=
  VDict [("nome", VStr "Urgencia");
         ("definicao_visceral",
          VStr "012345678901234567890123456789012345678901234567890123456789")].

(** An anti-objection sub-record with the three required universals, three
    scripts and an arsenal of five. *)
Definition covered_objections : value :=
  VDict [("objecoes_universais",
          VDict [("tempo", VStr "agora nao"); ("dinheiro", VStr "caro");
                 ("confianca", VStr "sera que funciona")]);
         ("scripts_personalizados",
          VDict [("tempo", VStr "script 1"); ("dinheiro", VStr "script 2");
                 ("confianca", VStr "script 3")]);
         ("arsenal_emergencia",
          VList [VStr "a"; VStr "b"; VStr "c"; VStr "d"; VStr "e"])].

(** A record whose second search result is a bare URL, not a mapping. *)
Definition one_bad_result : value :=
  VDict [("pesquisa_web_massiva",
          VDict [("search_results",
                  VList [VDict [("url", VStr "https://g1.globo.com/economia")];
                         VStr "https://exame.com"])])].

End Samples.

(** ** Properties *)
Import Py ValidationEngine ErrorRecoverySystem Notions.

(** Case analysis on the next fallible step of a computation in [result]. *)
Ltac descend r :=
  lazymatch r with
  | match ?r' with Ok _ => _ | Raise _ => _ end => descend r'
  | match ?o with Some _ => _ | None => _ end => descend o
  | if ?b then _ else _ => descend b
  | _ => destruct r; simpl
  end.

Ltac step_result :=
  unfold mbind, result_bind, mret, result_ret;
  match goal with
  | |- context [match ?r with Ok _ => _ | Raise _ => _ end] => descend r
  | |- context [match ?o with Some _ => _ | None => _ end] => descend o
  | |- context [if ?b then _ else _] => descend b
  end.

(** *** Strings *)

Lemma append_cons (c : ascii) (a b : string) : String c a +:+ b = String c (a +:+ b).
Proof. reflexivity. Qed.

Lemma append_nil (b : string) : "" +:+ b = b.
Proof. reflexivity. Qed.

Lemma starts_with_app (p s : string) :
  starts_with p s = true ↔ ∃ r, s = p +:+ r.
Proof.
  revert s. induction p as [|a p IH]; intros s; simpl.
  - split; [intros _; by exists s | done].
  - destruct s as [|b s].
    + split; [done | intros [r Hr]; discriminate].
    + rewrite andb_true_iff, IH, Ascii.eqb_eq.
      split.
      * intros [-> [r ->]]. by exists r.
      * intros [r Hr]. rewrite append_cons in Hr. injection Hr as -> ->. eauto.
Qed.

Lemma append_assoc (a b c : string) : (a +:+ b) +:+ c = a +:+ (b +:+ c).
Proof. induction a as [|x a IH]; [done | by rewrite !append_cons, IH]. Qed.

Lemma contains_app (needle hay : string) :
  contains needle hay = true ↔ ∃ a b, hay = a +:+ needle +:+ b.
Proof.
  split.
  - induction hay as [|c hay IH]; simpl.
    + destruct (starts_with needle "") eqn:E; [|done].
      intros _. apply starts_with_app in E as [r Hr]. by exists "", r.
    + destruct (starts_with needle (String c hay)) eqn:E.
      * intros _. apply starts_with_app in E as [r Hr]. by exists "", r.
      * intros Hc. destruct (IH Hc) as (a & b & ->). by exists (String c a), b.
  - intros (a & b & ->). induction a as [|c a IH].
    + rewrite append_nil.
      assert (Hp : starts_with needle (needle +:+ b) = true)
        by (apply starts_with_app; eauto).
      destruct (needle +:+ b); simpl; by rewrite Hp.
    + rewrite append_cons. simpl. rewrite IH. by destruct (starts_with needle _).
Qed.

Lemma contains_longer (p needle hay : string) :
  contains (p +:+ needle) hay = true → contains needle hay = true.
Proof.
  rewrite !contains_app. intros (a & b & ->).
  exists (a +:+ p), b. by rewrite !append_assoc.
Qed.

(** *** The error classifier *)

(** C7 — an error message that carries the AI-manager signature
    ['AIManager' object has no attribute] is classified [ai_manager_fallback],
    never [missing_method], although it also contains the generic signature
    [object has no attribute]: the rules are tried in order and the first
    match wins. *)
Theorem ai_manager_rule_first (error_str error_type : string) (component_name : value) :
  contains "'AIManager' object has no attribute" error_str = true →
  contains "object has no attribute" error_str = true
  ∧ _identify_recovery_strategy error_str error_type component_name
    = Ok (Some "ai_manager_fallback")
  ∧ _identify_recovery_strategy error_str error_type component_name
    ≠ Ok (Some "missing_method").
Proof.
  intros Hai. split.
  - by apply (contains_longer "'AIManager' ").
  - unfold _identify_recovery_strategy. rewrite Hai. split; [done | discriminate].
Qed.

Lemma ai_manager_rule_first_witness :
  contains "'AIManager' object has no attribute"
           "'AIManager' object has no attribute 'foo'" = true
  ∧ _identify_recovery_strategy "'AIManager' object has no attribute 'foo'"
      "AttributeError" VNone = Ok (Some "ai_manager_fallback").
Proof.
  split; [reflexivity |].
  apply (ai_manager_rule_first "'AIManager' object has no attribute 'foo'"
           "AttributeError" VNone).
  reflexivity.
Defined.

(** The strategy run for [ai_manager_fallback] is [_recover_ai_manager]. *)
Lemma ai_manager_strategy `{FloatRepr} `{Clock} `{Collaborators} :
  strategy_named "ai_manager_fallback" = Ok _recover_ai_manager.
Proof. reflexivity. Qed.

(** With collaborators in order and a provider available, the recovery of
    an AI-manager error resets the manager. *)
Example recover_ai_manager_error :
  (outcome ← @recover_from_error Samples.plain_floats Samples.fixed_clock
                Samples.quiet_collaborators
                (Exc "AttributeError" "'AIManager' object has no attribute 'foo'")
                (VDict [("segmento", VStr "saude")]) VNone;
   py_get outcome "method" VNone)
  = Ok (VStr "ai_manager_reset").
Proof. reflexivity. Qed.

(** *** Running stateful computations *)

Lemma run_bind {S A B} (m : M S A) (f : A → M S B) (s : S) :
  runM (m ≫= f) s
  = match runM m s with
    | (s', Ok a) => runM (f a) s'
    | (s', Raise e) => (s', Raise e)
    end.
Proof. reflexivity. Qed.

Lemma run_try {S A} (m : M S A) (h : exception → M S A) (s : S) :
  runM (try_exceptM m h) s
  = match runM m s with
    | (s', Ok a) => (s', Ok a)
    | (s', Raise e) => runM (h e) s'
    end.
Proof. reflexivity. Qed.

Lemma run_lift {S A} (r : result A) (s : S) : runM (lift r) s = (s, r).
Proof. reflexivity. Qed.

Lemma run_ret {S A} (a : A) (s : S) : runM (mret a) s = (s, Ok a).
Proof. reflexivity. Qed.

Lemma run_modify {S} (f : S → S) (s : S) : runM (modify f) s = (f s, Ok tt).
Proof. reflexivity. Qed.

(** *** The aggregator *)

Lemma validate_component_ok (analysis_data : value) (rule : string * validator)
    (agg : Aggregation) :
  (runM (validate_component analysis_data rule) agg).2 = Ok tt.
Proof.
  unfold validate_component, try_exceptM. simpl.
  destruct (py_get analysis_data rule.1 (VDict [])) as [component_data|e]; simpl; [|done].
  by destruct (rule.2 component_data analysis_data).
Qed.

Lemma validate_components_ok (analysis_data : value) (rules : list (string * validator))
    (agg : Aggregation) :
  (runM (validate_components analysis_data rules) agg).2 = Ok tt.
Proof.
  revert agg. induction rules as [|rule rules IH]; intros agg; [done|].
  change (validate_components analysis_data (rule :: rules))
    with (validate_component analysis_data rule;; validate_components analysis_data rules).
  rewrite run_bind.
  pose proof (validate_component_ok analysis_data rule agg) as Hc.
  destruct (runM (validate_component analysis_data rule) agg) as [agg' r].
  simpl in Hc. subst r. apply IH.
Qed.

Lemma validate_with_cases `{FloatRepr} `{Clock} (rules : list (string * validator))
    (analysis_data : value) :
  match validate_with rules analysis_data with
  | Ok r => overall_valid r = true
            ↔ (80 <= quality_score r)%Q ∧ all_critical_issues r = []
  | Raise e => _check_scientific_compliance analysis_data = Raise e
  end.
Proof.
  unfold validate_with.
  pose proof (validate_components_ok analysis_data rules new_aggregation) as Hloop.
  destruct (runM (validate_components analysis_data rules) new_aggregation) as [agg looped].
  simpl in Hloop. subst looped. simpl.
  destruct (_check_scientific_compliance analysis_data) as [compliance|e]; simpl; [|done].
  rewrite andb_true_iff, Qle_bool_iff, Nat.eqb_eq, length_zero_iff_nil. done.
Qed.

(** C1 — whenever [validate_complete_analysis] returns a result, its
    [overall_valid] is true exactly when its [quality_score] is at least 80
    and its collected list of critical issues is empty; the only way it
    returns no result is an exception of the compliance check. *)
Theorem overall_valid_iff `{FloatRepr} `{Clock} (analysis_data : value) :
  match validate_complete_analysis analysis_data with
  | Ok r => overall_valid r = true
            ↔ (80 <= quality_score r)%Q ∧ all_critical_issues r = []
  | Raise e => _check_scientific_compliance analysis_data = Raise e
  end.
Proof. apply validate_with_cases. Qed.

(** C9 — the empty record is rejected: [overall_valid] is false, there are
    critical issues, and the quality score is 0. *)
Theorem empty_record_rejected `{FloatRepr} `{Clock} :
  ∃ r, validate_complete_analysis (VDict []) = Ok r
       ∧ overall_valid r = false
       ∧ all_critical_issues r ≠ []
       ∧ (quality_score r == 0)%Q.
Proof.
  eexists. split; [vm_compute; reflexivity |].
  split; [reflexivity |]. split; [discriminate | reflexivity].
Qed.

(** A validator that raises leaves one critical issue and no score. *)
Lemma validator_exception_recorded (analysis_data component_data : value)
    (name : string) (v : validator) (e : exception) (agg : Aggregation) :
  py_get analysis_data name (VDict []) = Ok component_data →
  v component_data analysis_data = Raise e →
  runM (validate_component analysis_data (name, v)) agg
  = (mkAgg (component_results agg)
           (collected_issues agg
              ++ ["Falha na validação de " +:+ name +:+ ": " +:+ exc_msg e])
           (collected_warnings agg) (total_score agg) (max_score agg),
     Ok tt).
Proof.
  intros Hget Hv. unfold validate_component, try_exceptM. simpl.
  rewrite Hget. simpl. by rewrite Hv.
Qed.

(** *** The issues the aggregator collects *)

Lemma dict_set_fresh {A} (k : string) (v : A) (d : list (string * A)) :
  dict_lookup k d = None → dict_set k v d = d ++ [(k, v)].
Proof.
  induction d as [|[k' v'] d IH]; simpl; [done|].
  destruct (String.eqb k k'); [done|]. intros Hk. by rewrite IH.
Qed.

Lemma dict_lookup_app_fresh {A} (k k' : string) (v : A) (d : list (string * A)) :
  k ≠ k' → dict_lookup k d = None → dict_lookup k (d ++ [(k', v)]) = None.
Proof.
  intros Hne. induction d as [|[k0 v0] d IH]; simpl.
  - destruct (String.eqb k k') eqn:E; [|done]. apply String.eqb_eq in E. congruence.
  - destruct (String.eqb k k0); [done | apply IH].
Qed.

(** The issues of all the components validated so far. *)
Lemma validate_components_collects (analysis_data : list (string * value))
    (rules : list (string * validator)) (agg : Aggregation) :
  (∀ rule d, rule ∈ rules → ∃ cv, rule.2 d (VDict analysis_data) = Ok cv) →
  NoDup (map fst rules) →
  (∀ rule, rule ∈ rules → dict_lookup rule.1 (component_results agg) = None) →
  collected_issues agg
  = flat_map (fun kv => critical_issues kv.2) (component_results agg) →
  let agg' := (runM (validate_components (VDict analysis_data) rules) agg).1 in
  collected_issues agg' = flat_map (fun kv => critical_issues kv.2) (component_results agg').
Proof.
  revert agg. induction rules as [|[name v] rules IH]; intros agg Htotal Hnames Hfresh Hagg;
    [done|].
  cbn zeta.
  change (validate_components (VDict analysis_data) ((name, v) :: rules))
    with (validate_component (VDict analysis_data) (name, v);;
          validate_components (VDict analysis_data) rules).
  rewrite run_bind.
  destruct (Htotal (name, v) (default (VDict []) (dict_lookup name analysis_data))
              ltac:(left)) as [cv Hcv].
  assert (runM (validate_component (VDict analysis_data) (name, v)) agg
          = (mkAgg (component_results agg ++ [(name, cv)])
                   (collected_issues agg ++ critical_issues cv)
                   (match warnings cv with
                    | [] => collected_warnings agg
                    | _ => collected_warnings agg ++ warnings cv
                    end)
                   (total_score agg + score cv * _get_component_weight name)%Q
                   (max_score agg + 100 * _get_component_weight name)%Q,
             Ok tt)) as ->.
  { unfold validate_component, try_exceptM, record_component. simpl in *. rewrite Hcv. simpl.
    rewrite (dict_set_fresh name cv) by (apply (Hfresh (name, v)); left).
    by destruct (critical_issues cv); rewrite ?app_nil_r. }
  apply NoDup_cons in Hnames as [Hname Hnames].
  apply IH; [| done | |].
  - intros rule d Hrule. apply Htotal. by right.
  - intros rule Hrule. simpl. apply dict_lookup_app_fresh.
    + intros Heq. apply Hname. rewrite <- Heq. apply list_elem_of_fmap. by exists rule.
    + apply Hfresh. by right.
  - simpl. rewrite flat_map_app. simpl. by rewrite app_nil_r, Hagg.
Qed.

(** On a record that is a mapping, the critical issues of the result are
    those of the component validations, in the order of the validators. *)
Lemma critical_issues_of_components `{FloatRepr} `{Clock}
    (analysis_data : list (string * value)) (r : ValidationResult) :
  validate_complete_analysis (VDict analysis_data) = Ok r →
  all_critical_issues r
  = flat_map (fun kv => critical_issues kv.2) (component_validations r).
Proof.
  unfold validate_complete_analysis, validate_with.
  pose proof (validate_components_collects analysis_data validation_rules new_aggregation)
    as Hcollect.
  destruct (runM (validate_components (VDict analysis_data) validation_rules)
              new_aggregation) as [agg looped].
  destruct looped as [[]|e]; simpl; [|done].
  destruct (_check_scientific_compliance (VDict analysis_data)); simpl; [|done].
  intros [= <-]. simpl. apply Hcollect; [| |done..].
  - intros rule d Hrule. unfold validation_rules in Hrule.
    repeat (apply elem_of_cons in Hrule as [->|Hrule]; [by eexists|]).
    by apply elem_of_nil in Hrule.
  - unfold validation_rules. simpl. apply (bool_decide_unpack _). by vm_compute.
Qed.

(** *** Recovery outcomes *)

Section RecoveryOutcomes.
Context `{FloatRepr} `{Clock} `{Collaborators}.

Ltac outcome := by repeat eexists.









End RecoveryOutcomes.





(** *** Mental drivers *)

Lemma for_each_app {A B} (f : A → B → result B) (l : list A) (x : A) (acc : B) :
  for_each f (l ++ [x]) acc = (acc' ← for_each f l acc; f x acc').
Proof.
  revert acc. induction l as [|y l IH]; intros acc; simpl.
  - by destruct (f x acc).
  - destruct (f y acc) as [acc'|e]; simpl; [apply IH | done].
Qed.

Section MentalDrivers.
Context `{FloatRepr}.

Lemma check_driver_counts (driver : value) (a b v g : Z) :
  check_driver driver (a, b) = Ok (v, g) → a <= v <= a + 1.
Proof.
  unfold check_driver. destruct (is_dict driver); simpl; [|intros [= <- <-]; lia].
  destruct (driver_is_valid driver) as [[]|]; simpl; intros [= <- <-]; lia.
Qed.

Lemma for_each_driver_counts (l : list value) (a b v g : Z) :
  for_each check_driver l (a, b) = Ok (v, g) → a <= v <= a + Z.of_nat (length l).
Proof.
  revert a b. induction l as [|x l IH]; intros a b; simpl.
  - intros [= <- <-]. lia.
  - destruct (check_driver x (a, b)) as [[a' b']|] eqn:Hx; simpl; [|done].
    intros Hl. apply check_driver_counts in Hx. apply IH in Hl. lia.
Qed.

(** The score of a sub-record whose [drivers_customizados] is a list. *)
Lemma mental_drivers_score (d : list (string * value)) (l : list value) (full : value) :
  dict_lookup "drivers_customizados" d = Some (VList l) →
  score (_validate_mental_drivers (VDict d) full)
  = match l with
    | [] => 0%Q
    | _ => match for_each check_driver l (0, 0) with
           | Ok counts =>
               ((Qmin (inject_Z (Z.of_nat (length l)) / 19 * 100) 100
                 + inject_Z counts.1 / inject_Z (Z.of_nat (length l)) * 100) / 2)%Q
           | Raise _ => 0%Q
           end
    end.
Proof.
  intros Hl. unfold _validate_mental_drivers, run_validator, mental_drivers_body, try_exceptM.
  simpl. rewrite Hl. simpl. destruct l as [|x l]; [done|]. simpl.
  destruct (Z.of_nat (S (length l)) <? 5); [|destruct (Z.of_nat (S (length l)) <? 19)];
    simpl; by destruct (check_driver x (0, 0) ≫= _).
Qed.

Lemma mental_drivers_score_nonempty (d : list (string * value)) (l : list value)
    (full : value) :
  dict_lookup "drivers_customizados" d = Some (VList l) →
  l ≠ [] →
  score (_validate_mental_drivers (VDict d) full)
  = match for_each check_driver l (0, 0) with
    | Ok counts =>
        ((Qmin (inject_Z (Z.of_nat (length l)) / 19 * 100) 100
          + inject_Z counts.1 / inject_Z (Z.of_nat (length l)) * 100) / 2)%Q
    | Raise _ => 0%Q
    end.
Proof.
  intros Hl Hne. rewrite (mental_drivers_score d l full Hl). by destruct l.
Qed.

End MentalDrivers.

(** *** Arithmetic of the ratio scores *)

(** Linear arithmetic on rationals, with the divisions by 2, 3 and 4 of the
    averages turned into products. *)
Ltac qlin :=
  unfold Qdiv;
  change (/ 2)%Q with (1 # 2)%Q; change (/ 3)%Q with (1 # 3)%Q;
  change (/ 4)%Q with (1 # 4)%Q; lra.

Lemma Qdiv_pos_le (a b c d : Z) :
  0 < b → 0 < d → a * d <= c * b →
  (inject_Z a / inject_Z b <= inject_Z c / inject_Z d)%Q.
Proof.
  intros Hb Hd Hle.
  destruct b as [|b|b]; try lia. destruct d as [|d|d]; try lia.
  unfold Qle, Qdiv, Qmult, Qinv, inject_Z; simpl. nia.
Qed.

Lemma Qdiv_nonneg (a b : Z) : 0 <= a → 0 < b → (0 <= inject_Z a / inject_Z b)%Q.
Proof.
  intros Ha Hb. destruct b as [|b|b]; try lia.
  unfold Qle, Qdiv, Qmult, Qinv, inject_Z; simpl. nia.
Qed.

Lemma Qdiv_le_1 (a b : Z) : a <= b → 0 < b → (inject_Z a / inject_Z b <= 1)%Q.
Proof.
  intros Ha Hb. destruct b as [|b|b]; try lia.
  unfold Qle, Qdiv, Qmult, Qinv, inject_Z; simpl. nia.
Qed.

Lemma ratio_bounds (n t : Z) :
  0 <= n → 0 < t → (0 <= Qmin (inject_Z n / inject_Z t * 100) 100 <= 100)%Q.
Proof.
  intros Hn Ht. split; [|apply Q.le_min_r].
  apply Q.min_glb; [|done]. pose proof (Qdiv_nonneg n t Hn Ht) as Hq.
  set (q := (inject_Z n / inject_Z t)%Q) in *. lra.
Qed.

Lemma quantity_score_mono (n : Z) :
  (Qmin (inject_Z n / 19 * 100) 100 <= Qmin (inject_Z (n + 1) / 19 * 100) 100)%Q.
Proof.
  apply Q.min_le_compat_r. unfold Qle, Qdiv, Qmult, Qinv, inject_Z; simpl. lia.
Qed.

Lemma average2_nonneg (a b : Q) : (0 <= a → 0 <= b → 0 <= (a + b * 100) / 2)%Q.
Proof. intros. qlin. Qed.

Lemma average2_le (a b a' b' : Q) :
  (a <= a' → b <= b' → (a + b * 100) / 2 <= (a' + b' * 100) / 2)%Q.
Proof. intros. qlin. Qed.

Lemma dict_lookup_set_eq {A} (k : string) (v : A) (d : list (string * A)) :
  dict_lookup k (dict_set k v d) = Some v.
Proof.
  induction d as [|[k' v'] d IH]; simpl.
  - by rewrite String.eqb_refl.
  - destruct (String.eqb k k') eqn:E; simpl; by rewrite E.
Qed.

Lemma dict_lookup_set_ne {A} (k k' : string) (v : A) (d : list (string * A)) :
  k ≠ k' → dict_lookup k' (dict_set k v d) = dict_lookup k' d.
Proof.
  intros Hne. induction d as [|[k0 v0] d IH]; simpl.
  - destruct (String.eqb k' k) eqn:E; [|done]. apply String.eqb_eq in E. congruence.
  - destruct (String.eqb k k0) eqn:E; simpl.
    + apply String.eqb_eq in E as ->.
      destruct (String.eqb k' k0) eqn:E'; [|done]. apply String.eqb_eq in E'. congruence.
    + by rewrite IH.
Qed.

(** *** Monotonicity of the mental-drivers score *)

(** C8 (as amended) — appending to [drivers_customizados] one more driver
    that passes the quality check (a dictionary with a [nome] and a
    [definicao_visceral] of more than 50 characters), the rest of the
    sub-record unchanged, never lowers the score of the mental-drivers
    validator, below and above the target of 19. *)
Theorem valid_driver_never_lowers_score `{FloatRepr} (d : list (string * value))
    (drivers : list value) (extra full : value) :
  dict_lookup "drivers_customizados" d = Some (VList drivers) →
  is_dict extra = true →
  driver_is_valid extra = Ok true →
  (score (_validate_mental_drivers (VDict d) full)
   <= score (_validate_mental_drivers
               (VDict (dict_set "drivers_customizados" (VList (drivers ++ [extra])) d))
               full))%Q.
Proof.
  intros Hl Hdict Hvalid.
  assert (Hextra : ∀ v g, ∃ g', check_driver extra (v, g) = Ok (v + 1, g')).
  { intros v g. unfold check_driver. rewrite Hdict, Hvalid. simpl. eauto. }
  rewrite (mental_drivers_score_nonempty _ (drivers ++ [extra]) full
             (dict_lookup_set_eq _ _ _)) by (by destruct drivers).
  rewrite for_each_app, length_app, Nat2Z.inj_add. simpl length.
  rewrite (mental_drivers_score d drivers full Hl).
  destruct drivers as [|x l].
  - simpl. destruct (Hextra 0 0) as [g' ->]. simpl.
    change (Z.of_nat 0 + Z.of_nat 1) with 1. change (0 + 1) with 1.
    apply average2_nonneg; [apply (ratio_bounds 1 19); lia | apply Qdiv_nonneg; lia].
  - set (drivers := x :: l) in *.
    destruct (for_each check_driver drivers (0, 0)) as [[v g]|e] eqn:Hloop; simpl; [|apply Qle_refl].
    destruct (Hextra v g) as [g' ->]. simpl.
    apply for_each_driver_counts in Hloop.
    subst drivers. simpl length in *.
    assert (0 < Z.of_nat (S (length l))) by lia.
    change (Z.of_nat 1) with 1.
    generalize dependent (Z.of_nat (S (length l))). intros n Hv Hn.
    apply average2_le; [apply quantity_score_mono | apply Qdiv_pos_le; nia].
Qed.

Lemma valid_driver_never_lowers_score_witness :
  dict_lookup "drivers_customizados" [("drivers_customizados", VList [Samples.good_driver])]
  = Some (VList [Samples.good_driver])
  ∧ (score (@_validate_mental_drivers Samples.plain_floats
              (VDict [("drivers_customizados", VList [Samples.good_driver])]) VNone)
     <= score (@_validate_mental_drivers Samples.plain_floats
                 (VDict (dict_set "drivers_customizados"
                           (VList ([Samples.good_driver] ++ [Samples.good_driver]))
                           [("drivers_customizados", VList [Samples.good_driver])]))
                 VNone))%Q.
Proof.
  split; [reflexivity |].
  apply (@valid_driver_never_lowers_score Samples.plain_floats
           [("drivers_customizados", VList [Samples.good_driver])]
           [Samples.good_driver] Samples.good_driver VNone);
    reflexivity.
Defined.

(** C8 (as stated) fails: a second driver without name and definition
    halves the quality ratio, and the score falls from 1000/19 to 575/19. *)
Lemma extra_driver_lowers_score :
  ¬ (score (@_validate_mental_drivers Samples.plain_floats
              (VDict [("drivers_customizados", VList [Samples.good_driver])]) VNone)
     <= score (@_validate_mental_drivers Samples.plain_floats
                 (VDict [("drivers_customizados",
                          VList ([Samples.good_driver] ++ [VDict []]))]) VNone))%Q.
Proof. apply Qlt_not_le. reflexivity. Qed.

(** *** The anti-objection score *)

Lemma py_in_of_len (k : string) (v : value) (n : Z) :
  py_len v = Ok n → ∃ b, py_in k v = Ok b.
Proof. destruct v; simpl; intros Hn; try discriminate; eauto. Qed.

Lemma coverage_is_capped_ratio (n : Z) :
  ((if n <=? 3 then inject_Z n / 3 * 100 else 100) == Qmin (inject_Z n / 3 * 100) 100)%Q.
Proof.
  destruct (Z.leb_spec n 3).
  - symmetry. apply Q.min_l. unfold Qle, Qdiv, Qmult, Qinv, inject_Z; simpl. lia.
  - symmetry. apply Q.min_r. unfold Qle, Qdiv, Qmult, Qinv, inject_Z; simpl. lia.
Qed.

(** C5 (as amended) — when the three fields of an anti-objection sub-record
    can be measured, the score is the unweighted average of three
    sub-scores: the number of entries of [objecoes_universais], whatever
    their keys, over 3, the number of scripts over 3 and the size of the
    arsenal over 8, each times 100 and capped at 100. *)
Theorem anti_objection_score_average `{FloatRepr} (d : list (string * value))
    (full : value) (nu ns na : Z) :
  py_len (default (VDict []) (dict_lookup "objecoes_universais" d)) = Ok nu →
  py_len (default (VDict []) (dict_lookup "scripts_personalizados" d)) = Ok ns →
  py_len (default (VList []) (dict_lookup "arsenal_emergencia" d)) = Ok na →
  (score (_validate_anti_objection (VDict d) full)
   == (Qmin (inject_Z nu / 3 * 100) 100 + Qmin (inject_Z ns / 3 * 100) 100
       + Qmin (inject_Z na / 8 * 100) 100) / 3)%Q.
Proof.
  intros Hu Hs Ha.
  unfold _validate_anti_objection, run_validator, anti_objection_body, try_exceptM.
  simpl. rewrite Hu. simpl.
  destruct (py_in_of_len "tempo" _ _ Hu) as [b1 Hb1].
  destruct (py_in_of_len "dinheiro" _ _ Hu) as [b2 Hb2].
  destruct (py_in_of_len "confianca" _ _ Hu) as [b3 Hb3].
  unfold missing_in. rewrite Hb1. simpl. rewrite Hb2. simpl. rewrite Hb3. simpl.
  rewrite Hs, Ha. simpl.
  destruct b1, b2, b3; simpl;
    destruct (truthy (default (VDict []) (dict_lookup "scripts_personalizados" d))); simpl;
    destruct (na <? 5); simpl; by rewrite coverage_is_capped_ratio.
Qed.

Lemma anti_objection_score_average_witness :
  py_len (default (VDict []) (dict_lookup "objecoes_universais"
            [("objecoes_universais",
              VDict [("tempo", VStr "sem tempo"); ("dinheiro", VStr "sem verba")])]))
  = Ok 2
  ∧ (score (@_validate_anti_objection Samples.plain_floats
              (VDict [("objecoes_universais",
                       VDict [("tempo", VStr "sem tempo"); ("dinheiro", VStr "sem verba")])])
              VNone)
     == (Qmin (inject_Z 2 / 3 * 100) 100 + Qmin (inject_Z 0 / 3 * 100) 100
         + Qmin (inject_Z 0 / 8 * 100) 100) / 3)%Q.
Proof.
  split; [reflexivity |].
  apply (@anti_objection_score_average Samples.plain_floats
           [("objecoes_universais",
             VDict [("tempo", VStr "sem tempo"); ("dinheiro", VStr "sem verba")])]
           VNone 2 0 0);
    reflexivity.
Defined.

(** C5 (as stated) fails: with three objections that are not the required
    ones, the validator scores the coverage 100 and the whole 100/3, where
    the count of required universals present gives 0. *)
Lemma coverage_counts_every_entry :
  ¬ (score (@_validate_anti_objection Samples.plain_floats Samples.other_objections VNone)
     == specified_anti_objection_score Samples.other_objections)%Q.
Proof. vm_compute. discriminate. Qed.

(** *** Bounds of the component scores *)

Section Keeps.
Context {St : Type} (P : St → Prop).

Lemma keeps_ret {A} (a : A) : keeps P (mret a).
Proof. by intros s. Qed.

Lemma keeps_lift {A} (r : result A) : keeps P (lift r).
Proof. by intros s. Qed.

Lemma keeps_modify (f : St → St) : (∀ s, P s → P (f s)) → keeps P (modify f).
Proof. intros Hf s. apply Hf. Qed.

Lemma keeps_bind {A B} (m : M St A) (f : A → M St B) :
  keeps P m → (∀ a, keeps P (f a)) → keeps P (m ≫= f).
Proof.
  intros Hm Hf s Hs. rewrite run_bind. specialize (Hm s Hs).
  destruct (runM m s) as [s' [a|e]]; simpl in *; [by apply Hf | done].
Qed.

Lemma keeps_bind_lift {A B} (r : result A) (f : A → M St B) :
  (∀ a, r = Ok a → keeps P (f a)) → keeps P (lift r ≫= f).
Proof.
  intros Hf s Hs. rewrite run_bind, run_lift.
  destruct r as [a|e]; [by apply Hf | done].
Qed.

Lemma keeps_bind_state {B} (f : St → M St B) :
  (∀ s, P s → P (runM (f s) s).1) → keeps P (get_state ≫= f).
Proof. intros Hf s Hs. by apply Hf. Qed.

Lemma keeps_get_state : keeps P get_state.
Proof. by intros s. Qed.

Lemma keeps_try {A} (m : M St A) (h : exception → M St A) :
  keeps P m → (∀ e, keeps P (h e)) → keeps P (try_exceptM m h).
Proof.
  intros Hm Hh s Hs. rewrite run_try. specialize (Hm s Hs).
  destruct (runM m s) as [s' [a|e]]; simpl in *; [done | by apply Hh].
Qed.

Lemma keeps_when (b : bool) (m : M St unit) : keeps P m → keeps P (when b m).
Proof. destruct b; [done | intros _; apply keeps_ret]. Qed.

End Keeps.

Section ScoreKept.
Context (R : Q → Prop).

Lemma keeps_add_critical (msg : string) : keeps (on_score R) (add_critical msg).
Proof. by apply keeps_modify. Qed.

Lemma keeps_add_warning (msg : string) : keeps (on_score R) (add_warning msg).
Proof. by apply keeps_modify. Qed.

Lemma keeps_set_metric (k : string) (x : value) : keeps (on_score R) (set_metric k x).
Proof. by apply keeps_modify. Qed.

Lemma keeps_set_valid (threshold : Q) : keeps (on_score R) (set_valid threshold).
Proof. by apply keeps_modify. Qed.

Lemma keeps_set_score (q : Q) : R q → keeps (on_score R) (set_score q).
Proof. intros Hq. by apply keeps_modify. Qed.

Lemma run_validator_score (body : M ComponentValidation unit) (label : string) :
  R 0%Q → keeps (on_score R) body → on_score R (run_validator body label).
Proof.
  intros H0 Hbody. unfold run_validator.
  apply (keeps_try (on_score R) body _ Hbody); [intros e; apply keeps_add_critical | done].
Qed.

End ScoreKept.

(** One step in the proof that a validator body keeps a property of the
    score: everything but [set_score] keeps it. *)
Ltac keeps_step :=
  first
    [ apply keeps_ret | apply keeps_lift | apply keeps_get_state
    | apply keeps_add_critical | apply keeps_add_warning
    | apply keeps_set_metric | apply keeps_set_valid
    | apply keeps_when
    | apply keeps_bind_lift; intros ? ?
    | apply keeps_bind; [|intros ?]
    | match goal with
      | |- keeps _ (if ?b then _ else _) => destruct b eqn:?
      end ].

Lemma py_len_nonneg (v : value) (n : Z) : py_len v = Ok n → 0 <= n.
Proof.
  destruct v; simpl; intros [= <-]; try lia.
  induction s as [|c s IH]; simpl; [lia | destruct (is_continuation c); lia].
Qed.

Lemma Qdiv_unit (a b : Z) : 0 <= a <= b → (0 <= inject_Z a / inject_Z b <= 1)%Q.
Proof.
  intros Hab. destruct b as [|b|b]; try lia.
  - assert (a = 0) as -> by lia. by vm_compute.
  - unfold Qle, Qdiv, Qmult, Qinv, inject_Z; simpl. nia.
Qed.

Lemma average2_range (a b : Q) :
  (0 <= a <= 100 → 0 <= b <= 1 → 0 <= (a + b * 100) / 2 <= 100)%Q.
Proof. intros. qlin. Qed.

Lemma average3_range (a b c : Q) :
  (0 <= a <= 100 → 0 <= b <= 100 → 0 <= c <= 100 → 0 <= (a + b + c) / 3 <= 100)%Q.
Proof. intros. qlin. Qed.

Lemma average4_range (a b c d : Q) :
  (0 <= a <= 100 → 0 <= b <= 100 → 0 <= c <= 100 → 0 <= d <= 100 →
   0 <= (a + b + c + d) / 4 <= 100)%Q.
Proof. intros. qlin. Qed.

Section Bounds.
Context `{FloatRepr}.

Lemma anti_objection_in_range (anti_obj_data full : value) :
  score_in_range (_validate_anti_objection anti_obj_data full).
Proof.
  apply run_validator_score; [done|].
  unfold anti_objection_body. repeat keeps_step.
  apply keeps_set_score.
  repeat match goal with Hl : py_len _ = Ok _ |- _ => apply py_len_nonneg in Hl end.
  apply average3_range; try (apply ratio_bounds; lia).
  match goal with |- context [?n <=? 3] => destruct (Z.leb_spec n 3) end; [|done].
  pose proof (Qdiv_unit a0 3 ltac:(lia)) as Hq.
  change (inject_Z 3) with 3%Q in Hq. set (q := (inject_Z a0 / 3)%Q) in *. lra.
Qed.

Lemma avatar_in_range (avatar_data full : value) :
  score_in_range (_validate_avatar avatar_data full).
Proof.
  apply run_validator_score; [done|].
  unfold avatar_body. repeat keeps_step.
  apply keeps_set_score.
  repeat match goal with Hl : py_len _ = Ok _ |- _ => apply py_len_nonneg in Hl end.
  apply average4_range; apply ratio_bounds; lia.
Qed.

(** What is iterated has the length measured, unless it is a string, whose
    characters are no dictionaries. *)
Lemma py_iter_cases (v : value) (n : Z) (items : list value) :
  py_len v = Ok n → py_iter v = Ok items →
  n = Z.of_nat (length items)
  ∨ (0 <= n ∧ Forall (fun x => is_dict x = false) items).
Proof.
  intros Hlen Hiter. pose proof (py_len_nonneg v n Hlen) as Hn.
  destruct v; simpl in *; try discriminate.
  - right. injection Hiter as <-. split; [done|].
    generalize (str_chars s). intros l. induction l; simpl; by constructor.
  - left. injection Hlen as <-. injection Hiter as <-. done.
  - left. injection Hlen as <-. injection Hiter as <-. by rewrite length_map.
Qed.

Lemma for_each_skip {B} (f : value → B → result B) (items : list value) (acc : B) :
  (∀ x acc', is_dict x = false → f x acc' = Ok acc') →
  Forall (fun x => is_dict x = false) items →
  for_each f items acc = Ok acc.
Proof.
  intros Hf Hitems. induction Hitems as [|x items Hx _ IH]; simpl; [done|].
  by rewrite (Hf x acc Hx).
Qed.

Lemma drivers_counted (v : value) (n : Z) (items : list value) (counts : Z * Z) :
  py_len v = Ok n → py_iter v = Ok items →
  for_each check_driver items (0, 0) = Ok counts →
  0 <= counts.1 <= n.
Proof.
  intros Hlen Hiter Hloop. destruct counts as [a b].
  destruct (py_iter_cases v n items Hlen Hiter) as [-> | [Hn Hskip]].
  - apply for_each_driver_counts in Hloop. simpl. lia.
  - rewrite (for_each_skip check_driver items (0, 0)) in Hloop; [|..|done].
    + injection Hloop as <- <-. simpl. lia.
    + intros x acc' Hx. unfold check_driver. by rewrite Hx.
Qed.

Lemma mental_drivers_in_range (drivers_data full : value) :
  score_in_range (_validate_mental_drivers drivers_data full).
Proof.
  apply run_validator_score; [done|].
  unfold mental_drivers_body. repeat keeps_step.
  all: apply keeps_set_score.
  all: match goal with
       | Hlen : py_len _ = Ok ?n, Hiter : py_iter _ = Ok _,
         Hloop : for_each check_driver _ _ = Ok ?c |- _ =>
           pose proof (drivers_counted _ _ _ _ Hlen Hiter Hloop) as Hc;
           pose proof (py_len_nonneg _ _ Hlen) as Hn;
           apply average2_range; [apply (ratio_bounds n 19); lia |];
           destruct (0 <? n); [by apply Qdiv_unit | done]
       end.
Qed.

Lemma check_provi_counts (provi : value) (a b v c : Z) :
  check_provi provi (a, b) = Ok (v, c) →
  a <= v <= a + 1 ∧ b <= c ∧ c - b <= v - a.
Proof.
  unfold check_provi. destruct (is_dict provi); simpl; [|intros [= <- <-]; lia].
  repeat step_result; intros [= <- <-]; lia.
Qed.

Lemma for_each_provi_counts (l : list value) (a b v c : Z) :
  for_each check_provi l (a, b) = Ok (v, c) →
  a <= v <= a + Z.of_nat (length l) ∧ b <= c ∧ c - b <= v - a.
Proof.
  revert a b. induction l as [|x l IH]; intros a b; simpl.
  - intros [= <- <-]. lia.
  - destruct (check_provi x (a, b)) as [[a' b']|] eqn:Hx; simpl; [|done].
    intros Hl. apply check_provi_counts in Hx. apply IH in Hl. lia.
Qed.

Lemma provis_counted (v : value) (n : Z) (items : list value) (counts : Z * Z) :
  py_len v = Ok n → py_iter v = Ok items →
  for_each check_provi items (0, 0) = Ok counts →
  0 <= counts.2 <= counts.1 ∧ counts.1 <= n.
Proof.
  intros Hlen Hiter Hloop. destruct counts as [a b].
  destruct (py_iter_cases v n items Hlen Hiter) as [-> | [Hn Hskip]].
  - apply for_each_provi_counts in Hloop. simpl. lia.
  - rewrite (for_each_skip check_provi items (0, 0)) in Hloop; [|..|done].
    + injection Hloop as <- <-. simpl. lia.
    + intros x acc' Hx. unfold check_provi. by rewrite Hx.
Qed.

Lemma percent_range (a b : Z) :
  0 <= a <= b → (0 <= inject_Z a / inject_Z b * 100 <= 100)%Q.
Proof.
  intros Hab. pose proof (Qdiv_unit a b Hab) as Hq.
  set (q := (inject_Z a / inject_Z b)%Q) in *. lra.
Qed.

Lemma quantity_range (n : Z) :
  0 <= n →
  in_range (if 5 <=? n then 100%Q else if 3 <=? n then 80%Q else inject_Z (n * 20)).
Proof.
  intros Hn. unfold in_range.
  destruct (Z.leb_spec 5 n); [done|]. destruct (Z.leb_spec 3 n); [done|].
  unfold Qle, inject_Z; simpl. lia.
Qed.

Lemma visual_proofs_in_range (proofs_data full : value) :
  score_in_range (_validate_visual_proofs proofs_data full).
Proof.
  apply run_validator_score; [done|].
  unfold visual_proofs_body. repeat keeps_step.
  apply keeps_set_score.
  match goal with
  | Hlen : py_len ?l = Ok ?n, Hiter : py_iter _ = Ok _,
    Hloop : for_each check_provi _ _ = Ok ?c |- _ =>
      pose proof (provis_counted _ _ _ _ Hlen Hiter Hloop) as Hc;
      pose proof (py_len_nonneg _ _ Hlen) as Hn;
      apply average3_range; [by apply quantity_range | |];
      (destruct (truthy l); [apply percent_range; lia | done])
  end.
Qed.

Lemma forensic_at_most_100 (metrics_data full : value) :
  (score (_validate_forensic_metrics metrics_data full) <= 100)%Q.
Proof.
  apply (run_validator_score (fun q => q <= 100)%Q); [done|].
  unfold forensic_metrics_body. repeat keeps_step.
  all: apply keeps_set_score.
  all: match goal with
       | |- ((Qmin ?a 100 + Qmin ?b 100 + Qmin ?c 100) / 3 <= 100)%Q =>
           pose proof (Q.le_min_r a 100); pose proof (Q.le_min_r b 100);
           pose proof (Q.le_min_r c 100);
           generalize dependent (Qmin a 100); generalize dependent (Qmin b 100);
           generalize dependent (Qmin c 100); intros; qlin
       end.
Qed.

Lemma for_each_grows {A} (f : A → Z → result Z) (l : list A) (acc n : Z) :
  (∀ x a a', f x a = Ok a' → a <= a') →
  for_each f l acc = Ok n → acc <= n.
Proof.
  intros Hf. revert acc. induction l as [|x l IH]; intros acc; simpl.
  - intros [= <-]. lia.
  - destruct (f x acc) as [acc'|] eqn:Hx; simpl; [|done].
    intros Hn. apply Hf in Hx. apply IH in Hn. lia.
Qed.

Lemma count_activated_grows (l : list value) (acc n : Z) :
  for_each count_activated l acc = Ok n → acc <= n.
Proof.
  apply for_each_grows. intros x a a'. unfold count_activated.
  destruct (py_gt x 0) as [[]|]; simpl; intros [= <-]; lia.
Qed.

Lemma count_intense_grows (l : list (string * value)) (acc n : Z) :
  for_each count_intense l acc = Ok n → acc <= n.
Proof.
  apply for_each_grows. intros x a a'. unfold count_intense, try_except.
  destruct (emotion_value x.2) as [num_valor|]; simpl; [destruct (7 <=? num_valor)|];
    intros [= <-]; lia.
Qed.

Lemma sound_add_critical (msg : string) : keeps forensic_sound (add_critical msg).
Proof. by apply keeps_modify. Qed.

Lemma sound_add_warning (msg : string) : keeps forensic_sound (add_warning msg).
Proof. by apply keeps_modify. Qed.

Lemma sound_set_valid (threshold : Q) : keeps forensic_sound (set_valid threshold).
Proof. by apply keeps_modify. Qed.

Lemma sound_set_score (q : Q) : (0 <= q)%Q → keeps forensic_sound (set_score q).
Proof. intros Hq. apply keeps_modify. intros s [_ Hs]. by split. Qed.

Lemma sound_set_metric (k : string) (x : value) :
  k ≠ "emocoes_intensas" → keeps forensic_sound (set_metric k x).
Proof.
  intros Hk. apply keeps_modify. intros s [Hscore Hs]. split; [done|].
  intros y. simpl. rewrite dict_lookup_set_ne by done. apply Hs.
Qed.

Lemma sound_set_emotions (n : Z) :
  0 <= n → keeps forensic_sound (set_metric "emocoes_intensas" (VInt n)).
Proof.
  intros Hn. apply keeps_modify. intros s [Hscore Hs]. split; [done|].
  intros y. simpl. rewrite dict_lookup_set_eq. intros [= <-]. eauto.
Qed.

Ltac sound_step :=
  first
    [ apply keeps_ret | apply keeps_lift
    | apply sound_add_critical | apply sound_add_warning | apply sound_set_valid
    | apply sound_set_metric; discriminate
    | apply keeps_when
    | apply keeps_bind_lift; intros ? ?
    | match goal with
      | |- keeps _ (if ?b then _ else _) => destruct b eqn:?
      | |- keeps _ (get_state ≫= _) => fail 1
      end
    | apply keeps_bind; [|intros ?] ].

(** The forensic score is not negative when [argumentos_totais] is not. *)
Lemma forensic_nonneg (metrics_data full : value) :
  (∀ densidade x q,
     py_get metrics_data "densidade_persuasiva" (VDict []) = Ok densidade →
     py_get densidade "argumentos_totais" (VInt 0) = Ok x →
     py_num x = Some q → (0 <= q)%Q) →
  (0 <= score (_validate_forensic_metrics metrics_data full))%Q.
Proof.
  intros Hargs.
  enough (forensic_sound (_validate_forensic_metrics metrics_data full)) as [Hs _] by done.
  unfold _validate_forensic_metrics, run_validator.
  apply (keeps_try forensic_sound); [|intros e; apply sound_add_critical|].
  2: { split; [done | intros x; discriminate]. }
  unfold forensic_metrics_body.
  apply keeps_bind_lift; intros densidade Hdens.
  destruct (truthy densidade); cbn [negb]; [|apply sound_add_critical].
  apply keeps_bind_lift; intros argumentos Harg.
  apply keeps_bind; [by apply sound_set_metric | intros _].
  apply keeps_bind_lift; intros few _.
  apply keeps_bind; [apply keeps_when, sound_add_critical | intros _].
  apply keeps_bind_lift; intros cialdini _.
  apply keeps_bind_lift; intros counts _.
  apply keeps_bind_lift; intros cialdini_ativados Hativados.
  apply keeps_bind; [by apply sound_set_metric | intros _].
  apply keeps_bind; [apply keeps_when, sound_add_critical | intros _].
  apply keeps_bind_lift; intros intensidade _.
  apply keeps_bind; [|intros _].
  { destruct (truthy intensidade); [|apply keeps_ret].
    apply keeps_bind_lift; intros items _.
    apply keeps_bind_lift; intros emocoes Hemocoes.
    apply count_intense_grows in Hemocoes.
    apply keeps_bind; [by apply sound_set_emotions | intros _].
    apply keeps_when, sound_add_warning. }
  apply keeps_bind_lift; intros a Ha.
  apply keeps_bind_state. intros s [Hscore Hs].
  rewrite run_bind, run_lift.
  destruct (py_truediv _ 4) as [e|] eqn:He; [|by split].
  apply (keeps_bind forensic_sound); [|intros; apply sound_set_valid|by split].
  apply sound_set_score.
  assert (0 <= a)%Q as Ha0.
  { unfold py_truediv in Ha. destruct (py_num argumentos) as [q|] eqn:Hq; [|done].
    injection Ha as <-. pose proof (Hargs _ _ _ Hdens Harg Hq).
    unfold Qdiv. change (/ inject_Z 20)%Q with (1 # 20)%Q. lra. }
  assert (0 <= e)%Q as He0.
  { destruct (dict_lookup "emocoes_intensas" (metrics s)) as [x|] eqn:Hx; simpl in He.
    - destruct (Hs x Hx) as (n & -> & Hn). injection He as <-.
      by apply Qdiv_nonneg.
    - injection He as <-. done. }
  apply count_activated_grows in Hativados.
  pose proof (ratio_bounds cialdini_ativados 6 Hativados ltac:(lia)) as [Hb _].
  assert (0 <= Qmin (a * 100) 100)%Q by (apply Q.min_glb; [lra | done]).
  assert (0 <= Qmin (e * 100) 100)%Q by (apply Q.min_glb; [lra | done]).
  change (inject_Z 6) with 6%Q in Hb.
  generalize dependent (Qmin (a * 100) 100). generalize dependent (Qmin (e * 100) 100).
  intros. match goal with |- context [Qmin ?x 100] => generalize dependent (Qmin x 100) end.
  intros. qlin.
Qed.

End Bounds.

(** C2 — the score of the forensic validator is not clamped from below: a
    negative [argumentos_totais] gives a negative score (here -25/3). *)
Theorem forensic_score_below_zero :
  (score (@_validate_forensic_metrics Samples.plain_floats Samples.negative_arguments VNone)
   < 0)%Q.
Proof. reflexivity. Qed.

(** *** The auto-fixer and the caller's record *)

(** C3 — [auto_fix_common_errors] copies the record one level deep only:
    the list of drivers it pads is the caller's own list.  On a record with
    an empty list of drivers the call succeeds and leaves three fillers in
    the caller's record. *)
Theorem auto_fix_pads_the_original :
  let '(h, record) := Samples.stored Samples.no_drivers in
  let '(h', outcome) := runM (@auto_fix_common_errors Samples.fixed_clock record) h in
  view 4 h record = Some Samples.no_drivers
  ∧ (∃ out, outcome = Ok out ∧ dict_lookup "auto_fix_successful" out = Some (HBool true))
  ∧ view 4 h' record = Some Samples.padded_drivers.
Proof. vm_compute. split; [reflexivity |]. split; [eexists; split; reflexivity | reflexivity]. Qed.

(** C4 — when a fix raises after another one was applied, the failure
    result hands back the caller's record with the first fix in it: here the
    list of drivers is padded before [len(None)] raises in the second fix. *)
Theorem auto_fix_failure_keeps_earlier_fix :
  let '(h, record) := Samples.stored Samples.no_drivers_null_provis in
  let '(h', outcome) := runM (@auto_fix_common_errors Samples.fixed_clock record) h in
  view 4 h record = Some Samples.no_drivers_null_provis
  ∧ (∃ out, outcome = Ok out
            ∧ dict_lookup "auto_fix_successful" out = Some (HBool false)
            ∧ dict_lookup "original_data" out = Some record)
  ∧ view 4 h' record = Some Samples.padded_drivers_null_provis.
Proof.
  vm_compute. split; [reflexivity |].
  split; [eexists; split; [reflexivity | split; reflexivity] | reflexivity].
Qed.

(** C10 (as stated) fails for an empty mapping of triggers that is present:
    the defaults are written into the mapping the record holds, and the
    fixed record contains the six trigger values. *)
Lemma empty_triggers_are_filled :
  let '(h, record) := Samples.stored Samples.empty_triggers in
  let '(h', outcome) := runM (@auto_fix_common_errors Samples.fixed_clock record) h in
  (∃ l, h_path h record cialdini_path = Some (HRef l) ∧ h !! l = Some (ODict []))
  ∧ ∃ out fixes fixed_data,
      outcome = Ok out
      ∧ dict_lookup "fixes_applied" out = Some fixes
      ∧ dict_lookup "fixed_data" out = Some fixed_data
      ∧ fix_recorded h' fixes "cialdini_triggers_basic"
      ∧ trigger_values h' fixed_data = basic_cialdini
      ∧ trigger_values h' fixed_data ≠ [].
Proof.
  vm_compute. split; [eexists; split; reflexivity |].
  do 3 eexists. split; [reflexivity |]. split; [reflexivity |]. split; [reflexivity |].
  split; [|split; [reflexivity | discriminate]].
  do 2 eexists. split; [reflexivity |]. split; [reflexivity |]. apply list_elem_of_here.
Qed.

(** *** Running the store operations *)

Lemma fresh_unused (h : heap) : h !! fresh (dom h) = None.
Proof. apply not_elem_of_dom, is_fresh. Qed.

Lemma run_reading {A} (f : heap → result A) (h : heap) : runM (reading f) h = (h, f h).
Proof. reflexivity. Qed.

Lemma run_alloc (o : obj) (h : heap) :
  runM (alloc o) h = (<[fresh (dom h) := o]> h, Ok (HRef (fresh (dom h)))).
Proof. reflexivity. Qed.

Lemma run_h_in (k : string) (l : loc) (d : list (string * hval)) (h : heap) :
  h !! l = Some (ODict d) → runM (h_in k (HRef l)) h = (h, Ok (dict_has k d)).
Proof. intros Hl. unfold h_in, deref. rewrite run_reading, Hl. done. Qed.

Lemma run_h_getitem (k : string) (l : loc) (d : list (string * hval)) (x : hval) (h : heap) :
  h !! l = Some (ODict d) → dict_lookup k d = Some x →
  runM (h_getitem (HRef l) k) h = (h, Ok x).
Proof. intros Hl Hk. unfold h_getitem, deref. rewrite run_reading, Hl. simpl. by rewrite Hk. Qed.

Lemma run_h_is_dict (l : loc) (d : list (string * hval)) (h : heap) :
  h !! l = Some (ODict d) → runM (h_is_dict (HRef l)) h = (h, Ok true).
Proof. intros Hl. unfold h_is_dict, deref. rewrite run_reading, Hl. done. Qed.

Lemma run_h_get (k : string) (l : loc) (d : list (string * hval)) (dflt : hval) (h : heap) :
  h !! l = Some (ODict d) →
  runM (h_get (HRef l) k dflt) h = (h, Ok (default dflt (dict_lookup k d))).
Proof. intros Hl. unfold h_get, deref. rewrite run_reading, Hl. done. Qed.

Lemma run_h_values (l : loc) (d : list (string * hval)) (h : heap) :
  h !! l = Some (ODict d) → runM (h_values (HRef l)) h = (h, Ok (map snd d)).
Proof. intros Hl. unfold h_values, deref. rewrite run_reading, Hl. done. Qed.

Lemma run_h_len_list (l : loc) (xs : list hval) (h : heap) :
  h !! l = Some (OList xs) → runM (h_len (HRef l)) h = (h, Ok (Z.of_nat (length xs))).
Proof. intros Hl. unfold h_len, deref. rewrite run_reading, Hl. done. Qed.

Lemma run_h_append (l : loc) (xs : list hval) (x : hval) (h : heap) :
  h !! l = Some (OList xs) →
  runM (h_append (HRef l) x) h = (<[l := OList (xs ++ [x])]> h, Ok tt).
Proof. intros Hl. unfold h_append, updating. simpl. by rewrite Hl. Qed.

Lemma run_h_update (l : loc) (d entries : list (string * hval)) (h : heap) :
  h !! l = Some (ODict d) →
  runM (h_update (HRef l) entries) h
  = (<[l := ODict (fold_left (fun d' kv => dict_set kv.1 kv.2 d') entries d)]> h, Ok tt).
Proof. intros Hl. unfold h_update, updating. simpl. by rewrite Hl. Qed.

Lemma run_h_setitem (l : loc) (d : list (string * hval)) (k : string) (x : hval) (h : heap) :
  h !! l = Some (ODict d) →
  runM (h_setitem (HRef l) k x) h = (<[l := ODict (dict_set k x d)]> h, Ok tt).
Proof. intros Hl. unfold h_setitem. simpl. by rewrite Hl. Qed.

(** *** What the padding fixes respect *)

Section Stable.
Context (P : heap → Prop) (HP : stable P).

Lemma keeps_reading {A} (f : heap → result A) : keeps P (reading f).
Proof. by intros h. Qed.

Lemma keeps_alloc (o : obj) : keeps P (alloc o).
Proof. intros h Hh. rewrite run_alloc. apply (stable_alloc P HP); [apply fresh_unused | done]. Qed.

Lemma keeps_h_append (v x : hval) : keeps P (h_append v x).
Proof.
  intros h Hh. unfold h_append, updating. simpl.
  destruct v; try done. destruct (h !! l) as [[xs|d]|] eqn:Hl; simpl; try done.
  by apply (stable_append P HP).
Qed.

Lemma keeps_h_setitem (v : hval) (k : string) (x : hval) :
  k = "arsenal_provis_completo" ∨ k = "metadata" → keeps P (h_setitem v k x).
Proof.
  intros Hk h Hh. unfold h_setitem. simpl.
  destruct v; try done. destruct (h !! l) as [[xs|d]|] eqn:Hl; simpl; try done.
  by apply (stable_setitem P HP).
Qed.

Lemma keeps_pad_loop (fuel : nat) (lst : hval) (item : Z → obj) (minimum : Z) :
  keeps P (pad_loop fuel lst item minimum).
Proof.
  induction fuel as [|fuel IH]; simpl; [apply keeps_ret|].
  apply keeps_bind; [apply keeps_reading | intros n].
  destruct (n <? minimum); [|apply keeps_ret].
  apply keeps_bind; [apply keeps_alloc | intros x].
  apply keeps_bind; [apply keeps_h_append | intros _; apply IH].
Qed.

Ltac stable_step :=
  first
    [ apply keeps_ret | apply keeps_reading | apply keeps_alloc
    | apply keeps_h_append | apply keeps_h_setitem; auto
    | apply keeps_pad_loop | apply keeps_when
    | apply keeps_bind; [|intros ?]
    | match goal with
      | |- keeps _ (if ?b then _ else _) => destruct b
      end ].

Lemma keeps_fix_drivers `{Clock} (fixed_data fixes_applied : hval) :
  keeps P (fix_drivers fixed_data fixes_applied).
Proof. unfold fix_drivers, pad, h_in, h_getitem, h_is_dict, h_len. repeat stable_step. Qed.

Lemma keeps_fix_provis `{Clock} (fixed_data fixes_applied : hval) :
  keeps P (fix_provis fixed_data fixes_applied).
Proof.
  unfold fix_provis, pad, h_in, h_getitem, h_is_dict, h_len, h_get. repeat stable_step.
Qed.

Lemma keeps_fix_metadata `{Clock} (fixed_data fixes_applied : hval) :
  keeps P (fix_metadata fixed_data fixes_applied).
Proof. unfold fix_metadata, h_in. repeat stable_step. Qed.

End Stable.

(** *** Properties of the store that are stable *)

Lemma stable_and (P Q : heap → Prop) :
  stable P → stable Q → stable (fun h => P h ∧ Q h).
Proof.
  intros [Pa Pp Ps] [Qa Qp Qs]. split.
  - intros h l o Hl [HP HQ]. split; eauto.
  - intros h l xs x Hl [HP HQ]. split; eauto.
  - intros h l d k x Hl Hk [HP HQ]. split; eauto.
Qed.

Lemma stable_has_field (a : loc) (k : string) (v : option hval) :
  k ≠ "arsenal_provis_completo" → k ≠ "metadata" → stable (has_field a k v).
Proof.
  intros Hk1 Hk2. split.
  - intros h l o Hl (d & Ha & Hd). exists d. split; [|done].
    rewrite lookup_insert_ne; [done | congruence].
  - intros h l xs x Hl (d & Ha & Hd). exists d. split; [|done].
    rewrite lookup_insert_ne; [done | congruence].
  - intros h l d' k' x Hl Hk' (d & Ha & Hd).
    destruct (decide (l = a)) as [->|Hne].
    + rewrite Ha in Hl. injection Hl as <-.
      exists (dict_set k' x d). split; [by rewrite lookup_insert_eq|].
      rewrite dict_lookup_set_ne; [done | destruct Hk'; congruence].
    + exists d. split; [|done]. by rewrite lookup_insert_ne.
Qed.

Lemma stable_is_list_at (a : loc) : stable (is_list_at a).
Proof.
  split.
  - intros h l o Hl (xs & Ha). exists xs. rewrite lookup_insert_ne; [done | congruence].
  - intros h l xs x Hl (ys & Ha). destruct (decide (l = a)) as [->|Hne].
    + eexists. by rewrite lookup_insert_eq.
    + exists ys. by rewrite lookup_insert_ne.
  - intros h l d k x Hl _ (xs & Ha). exists xs.
    rewrite lookup_insert_ne; [done | congruence].
Qed.

Lemma stable_fix_recorded (a : loc) (name : string) :
  stable (fun h => fix_recorded h (HRef a) name).
Proof.
  split.
  - intros h l o Hl (a' & xs & [= <-] & Ha & Hin). exists a, xs.
    rewrite lookup_insert_ne; [done | congruence].
  - intros h l xs x Hl (a' & ys & [= <-] & Ha & Hin). destruct (decide (l = a)) as [->|Hne].
    + rewrite Ha in Hl. injection Hl as <-.
      exists a, (ys ++ [x]). rewrite lookup_insert_eq.
      split; [done|]. split; [done|]. apply elem_of_app. by left.
    + exists a, ys. by rewrite lookup_insert_ne.
  - intros h l d k x Hl _ (a' & xs & [= <-] & Ha & Hin). exists a, xs.
    rewrite lookup_insert_ne; [done | congruence].
Qed.

(** The chain of dictionaries behind [triggers_missing]. *)
Lemma triggers_missing_chain (f dl : loc) (h : heap) :
  triggers_missing (HRef f) dl h
  ↔ ∃ m, triggers_chain f m dl h.
Proof.
  unfold triggers_missing, triggers_chain, has_field. simpl. split.
  - intros [Hpath (dens & Hdl & Hdens)].
    destruct (h !! f) as [[|fd]|] eqn:Hf; try done.
    destruct (dict_lookup "metricas_forenses_detalhadas" fd) as [[| | | | |m]|] eqn:Hm; try done.
    destruct (h !! m) as [[|md]|] eqn:Hmd; try done.
    destruct (dict_lookup "densidade_persuasiva" md) as [x|] eqn:Hx; try done.
    injection Hpath as ->. eauto 10.
  - intros (m & (fd & Hf & Hm) & (md & Hmd & Hx) & (dd & Hdl & Hdd)).
    rewrite Hf, Hm, Hmd, Hx. eauto.
Qed.

Lemma fresh_ne (h : heap) (a : loc) (o : obj) : h !! a = Some o → fresh (dom h) ≠ a.
Proof. intros Ha Heq. rewrite <- Heq, fresh_unused in Ha. done. Qed.

Lemma has_field_insert_ne (a l : loc) (k : string) (v : option hval) (o : obj) (h : heap) :
  l ≠ a → has_field a k v h → has_field a k v (<[l := o]> h).
Proof. intros Hne (d & Ha & Hd). exists d. by rewrite lookup_insert_ne. Qed.

Lemma has_field_allocated (a : loc) (k : string) (v : option hval) (h : heap) :
  has_field a k v h → ∃ o, h !! a = Some o.
Proof. intros (d & Ha & _). eauto. Qed.

(** *** The third fix on a record without the key [gatilhos_cialdini] *)

Section DetachedTriggers.
Context `{Clock}.

Lemma stable_chain (f m dl : loc) : stable (triggers_chain f m dl).
Proof. repeat apply stable_and; by apply stable_has_field. Qed.

Lemma chain_insert_ne (f m dl l : loc) (o : obj) (h : heap) :
  l ≠ f → l ≠ m → l ≠ dl → triggers_chain f m dl h → triggers_chain f m dl (<[l := o]> h).
Proof. intros ??? (?&?&?). repeat split; by apply has_field_insert_ne. Qed.

Lemma fix_cialdini_detached (f m dl fa : loc) (h : heap) :
  triggers_chain f m dl h → is_list_at fa h →
  ∃ h', runM (fix_cialdini (HRef f) (HRef fa)) h = (h', Ok tt)
        ∧ triggers_chain f m dl h'
        ∧ fix_recorded h' (HRef fa) "cialdini_triggers_basic".
Proof.
  intros Hchain (xs & Hfa).
  pose proof Hchain as ((fd & Hf & Hk1) & (md & Hm & Hk2) & (dd & Hdl & Hk3)).
  unfold fix_cialdini.
  rewrite run_bind, (run_h_in _ f fd h Hf). unfold dict_has. rewrite Hk1. cbn [when].
  rewrite run_bind, (run_h_getitem _ f fd (HRef m) h Hf Hk1).
  rewrite run_bind, (run_h_is_dict m md h Hm). cbn [when].
  rewrite run_bind, run_alloc.
  set (e1 := fresh (dom h)). set (h1 := <[e1 := ODict []]> h).
  assert (e1 ≠ f ∧ e1 ≠ m ∧ e1 ≠ dl ∧ e1 ≠ fa) as (?&?&?&?)
    by (repeat split; eapply fresh_ne; eauto).
  assert (Hm1 : h1 !! m = Some (ODict md)) by (subst h1; by rewrite lookup_insert_ne).
  assert (Hdl1 : h1 !! dl = Some (ODict dd)) by (subst h1; by rewrite lookup_insert_ne).
  assert (Hf1 : h1 !! f = Some (ODict fd)) by (subst h1; by rewrite lookup_insert_ne).
  assert (Hfa1 : h1 !! fa = Some (OList xs)) by (subst h1; by rewrite lookup_insert_ne).
  rewrite run_bind, (run_h_get _ m md _ h1 Hm1), Hk2. cbn [default].
  rewrite run_bind, run_alloc.
  set (e2 := fresh (dom h1)). set (h2 := <[e2 := ODict []]> h1).
  assert (e2 ≠ f ∧ e2 ≠ m ∧ e2 ≠ dl ∧ e2 ≠ fa) as (?&?&?&?)
    by (repeat split; eapply fresh_ne; eauto).
  assert (Hdl2 : h2 !! dl = Some (ODict dd)) by (subst h2; by rewrite lookup_insert_ne).
  assert (He2 : h2 !! e2 = Some (ODict [])) by (subst h2; by rewrite lookup_insert_eq).
  rewrite run_bind, (run_h_get _ dl dd _ h2 Hdl2), Hk3. cbn [default].
  rewrite run_bind, (run_h_values e2 [] h2 He2). cbn [map forallb when].
  rewrite run_bind, (run_h_update e2 [] basic_cialdini h2 He2).
  set (h3 := <[e2 := _]> h2).
  assert (Hfa3 : h3 !! fa = Some (OList xs)).
  { subst h3 h2. by rewrite !lookup_insert_ne. }
  rewrite (run_h_append fa xs _ h3 Hfa3).
  eexists. split; [reflexivity|]. split.
  - apply (stable_append _ (stable_chain f m dl) _ _ _ _ Hfa3).
    subst h3 h2 h1. by repeat apply chain_insert_ne.
  - exists fa, (xs ++ [HStr "cialdini_triggers_basic"]).
    rewrite lookup_insert_eq. split; [done|]. split; [done|].
    apply elem_of_app. right. apply list_elem_of_here.
Qed.

End DetachedTriggers.

Lemma run_h_copy (r : loc) (o : obj) (h : heap) :
  h !! r = Some o →
  runM (h_copy (HRef r)) h = (<[fresh (dom h) := o]> h, Ok (HRef (fresh (dom h)))).
Proof. intros Hr. unfold h_copy, deref. rewrite run_bind. simpl. by rewrite Hr. Qed.

Lemma triggers_missing_no_values (record : hval) (dl : loc) (h : heap) :
  triggers_missing record dl h →
  h_path h record cialdini_path = None ∧ trigger_values h record = [].
Proof.
  intros [Hpath (dens & Hdl & Hdens)].
  assert (h_path h record cialdini_path = None) as Hnone; [|by unfold trigger_values; rewrite Hnone].
  unfold cialdini_path. simpl in *.
  destruct record as [| | | | |f]; try done.
  destruct (h !! f) as [[|fd]|]; try done.
  destruct (dict_lookup "metricas_forenses_detalhadas" fd) as [[| | | | |m]|]; try done.
  destruct (h !! m) as [[|md]|]; try done.
  destruct (dict_lookup "densidade_persuasiva" md) as [x|]; try done.
  injection Hpath as ->. by rewrite Hdl, Hdens.
Qed.

(** C10 (as amended) — when the [densidade_persuasiva] dictionary of the
    record has no key [gatilhos_cialdini] and the auto-fix succeeds, the
    list of fixes holds [cialdini_triggers_basic] while the fixed record
    still has no such key, hence no trigger value: the defaults went into a
    dictionary that belongs to nothing. *)
Theorem missing_triggers_stay_missing `{Clock} (h : heap) (record : hval) (dl : loc) :
  triggers_missing record dl h →
  ∀ h' out,
    runM (auto_fix_common_errors record) h = (h', Ok out) →
    dict_lookup "auto_fix_successful" out = Some (HBool true) →
    ∃ fixes fixed_data,
      dict_lookup "fixes_applied" out = Some fixes
      ∧ dict_lookup "fixed_data" out = Some fixed_data
      ∧ fix_recorded h' fixes "cialdini_triggers_basic"
      ∧ triggers_missing fixed_data dl h'
      ∧ trigger_values h' fixed_data = [].
Proof.
  intros Hmissing h' out Hrun Hsuccess.
  destruct record as [| | | | |r]; try by destruct Hmissing.
  apply triggers_missing_chain in Hmissing
    as (m & (rd & Hr & Hk1) & Hmd & Hdd).
  unfold auto_fix_common_errors in Hrun.
  rewrite run_bind, (run_h_copy r _ h Hr) in Hrun.
  set (f := fresh (dom h)) in *. set (h1 := <[f := ODict rd]> h) in *.
  rewrite run_bind, run_alloc in Hrun.
  set (fa := fresh (dom h1)) in *. set (h2 := <[fa := OList []]> h1) in *.
  destruct (has_field_allocated _ _ _ _ Hmd) as [om Hom].
  destruct (has_field_allocated _ _ _ _ Hdd) as [od Hod].
  assert (f ≠ m ∧ f ≠ dl) as [? ?] by (split; eapply fresh_ne; eauto).
  assert (Hf1 : h1 !! f = Some (ODict rd)) by (subst h1; by rewrite lookup_insert_eq).
  assert (fa ≠ f) by (eapply fresh_ne; eauto).
  assert (fa ≠ m ∧ fa ≠ dl) as [? ?].
  { split; eapply fresh_ne; subst h1; rewrite lookup_insert_ne; eauto. }
  pose proof (stable_chain f m dl) as Hstable.
  assert (Hchain : triggers_chain f m dl h2).
  { subst h2 h1. split; [|split].
    - exists rd. split; [|done]. rewrite lookup_insert_ne by done. by rewrite lookup_insert_eq.
    - by do 2 (apply has_field_insert_ne; [done|]).
    - by do 2 (apply has_field_insert_ne; [done|]). }
  assert (Hlist : is_list_at fa h2) by (exists []; subst h2; by rewrite lookup_insert_eq).
  pose proof (stable_and _ _ Hstable (stable_is_list_at fa)) as Hboth.
  rewrite run_try in Hrun. unfold apply_fixes in Hrun.
  rewrite run_bind in Hrun.
  pose proof (keeps_fix_drivers _ Hboth (HRef f) (HRef fa) h2 (conj Hchain Hlist)) as Hk3.
  destruct (runM (fix_drivers (HRef f) (HRef fa)) h2) as [h3 [[]|e]];
    [|by injection Hrun as <- <-].
  rewrite run_bind in Hrun.
  pose proof (keeps_fix_provis _ Hboth (HRef f) (HRef fa) h3 Hk3) as Hk4.
  destruct (runM (fix_provis (HRef f) (HRef fa)) h3) as [h4 [[]|e]];
    [|by injection Hrun as <- <-].
  simpl in Hk4. destruct Hk4 as [Hchain4 Hlist4].
  destruct (fix_cialdini_detached f m dl fa h4 Hchain4 Hlist4)
    as (h5 & Hrun5 & Hchain5 & Hfix5).
  rewrite run_bind, Hrun5 in Hrun.
  pose proof (stable_and _ _ Hstable (stable_fix_recorded fa "cialdini_triggers_basic"))
    as Hfinal.
  rewrite run_bind in Hrun.
  pose proof (keeps_fix_metadata _ Hfinal (HRef f) (HRef fa) h5 (conj Hchain5 Hfix5)) as Hk6.
  destruct (runM (fix_metadata (HRef f) (HRef fa)) h5) as [h6 [[]|e]];
    [|by injection Hrun as <- <-].
  simpl in Hk6. destruct Hk6 as [Hchain6 Hfix6].
  pose proof Hfix6 as (fa' & xs & [= <-] & Hfa6 & _).
  rewrite run_bind, (run_h_len_list fa xs h6 Hfa6) in Hrun.
  injection Hrun as <- <-.
  assert (triggers_missing (HRef f) dl h6) as Hend
    by (apply triggers_missing_chain; eauto).
  exists (HRef fa), (HRef f). repeat split; try done.
  - apply Hend.
  - apply Hend.
  - by apply triggers_missing_no_values in Hend as [_ ?].
Qed.

Lemma missing_triggers_stay_missing_witness :
  let h := (Samples.stored Samples.missing_triggers).1 in
  let record := (Samples.stored Samples.missing_triggers).2 in
  let run := runM (@auto_fix_common_errors Samples.fixed_clock record) h in
  triggers_missing record 1%positive h
  ∧ ∃ out, run.2 = Ok out
      ∧ ∃ fixes fixed_data,
          dict_lookup "fixes_applied" out = Some fixes
          ∧ dict_lookup "fixed_data" out = Some fixed_data
          ∧ fix_recorded run.1 fixes "cialdini_triggers_basic"
          ∧ triggers_missing fixed_data 1%positive run.1
          ∧ trigger_values run.1 fixed_data = [].
Proof.
  intros h record run.
  assert (Hmissing : triggers_missing record 1%positive h).
  { split; [reflexivity |]. eexists. split; reflexivity. }
  split; [exact Hmissing |].
  eexists. split; [vm_compute; reflexivity |].
  apply (@missing_triggers_stay_missing Samples.fixed_clock h record 1%positive Hmissing run.1).
  - vm_compute. reflexivity.
  - reflexivity.
Defined.

(** *** The padding loop ends within its fuel *)

Lemma h_len_nonneg (lst : hval) (h : heap) (n : Z) :
  (runM (h_len lst) h).2 = Ok n → 0 <= n.
Proof.
  unfold h_len, deref. rewrite run_reading. simpl.
  destruct lst as [| | | |s|l]; try done.
  - intros [= <-]. induction s as [|c s IH]; simpl; [lia | destruct (is_continuation c); lia].
  - destruct (h !! l) as [[]|]; simpl; intros [= <-]; lia.
Qed.

Lemma h_len_after_append (lst x : hval) (o : obj) (h h' : heap) (n : Z) :
  (runM (h_len lst) h).2 = Ok n →
  runM (h_append lst x) (<[fresh (dom h) := o]> h) = (h', Ok tt) →
  (runM (h_len lst) h').2 = Ok (n + 1).
Proof.
  unfold h_len, h_append, updating, deref. rewrite !run_reading. simpl.
  destruct lst as [| | | |s|l]; try done.
  destruct (h !! l) as [ol|] eqn:Hl; simpl; [|done].
  rewrite lookup_insert_ne by (by eapply fresh_ne).
  rewrite Hl. destruct ol as [xs|d]; simpl; [|done].
  intros [= <-] [= <-]. rewrite lookup_insert_eq. simpl.
  rewrite length_app. simpl. f_equal. lia.
Qed.

Lemma pad_loop_fuel (fuel1 fuel2 : nat) (lst : hval) (item : Z → obj) (minimum : Z)
    (h : heap) :
  (padding_left lst minimum h < fuel1)%nat →
  (padding_left lst minimum h < fuel2)%nat →
  runM (pad_loop fuel1 lst item minimum) h = runM (pad_loop fuel2 lst item minimum) h.
Proof.
  revert fuel2 h. induction fuel1 as [|fuel1 IH]; intros fuel2 h H1 H2; [lia|].
  destruct fuel2 as [|fuel2]; [lia|].
  cbn [pad_loop]. rewrite !run_bind.
  unfold padding_left in H1, H2.
  destruct (runM (h_len lst) h) as [h0 [n|e]] eqn:Hlen; [|done].
  assert (h0 = h) as -> by (unfold h_len in Hlen; rewrite run_reading in Hlen; congruence).
  simpl in H1, H2.
  destruct (Z.ltb_spec n minimum) as [Hlt|]; [|done].
  rewrite !run_bind, run_alloc, !run_bind.
  destruct (runM (h_append lst _) _) as [h' [[]|e]] eqn:Happ; [|done].
  pose proof (h_len_after_append lst _ _ h h' n ltac:(by rewrite Hlen) Happ) as Hlen'.
  apply IH; unfold padding_left; rewrite Hlen'; lia.
Qed.

(** Whatever the store, the loop does not need more tests than [pad] allows:
    more fuel gives the same result. *)
Lemma pad_fuel_enough (fuel : nat) (lst : hval) (item : Z → obj) (minimum : Z) (h : heap) :
  (Z.to_nat minimum < fuel)%nat →
  runM (pad_loop fuel lst item minimum) h = runM (pad lst item minimum) h.
Proof.
  intros Hfuel.
  assert (padding_left lst minimum h <= Z.to_nat minimum)%nat as Hleft.
  { unfold padding_left. destruct (runM (h_len lst) h).2 as [n|] eqn:Hn; [|lia].
    apply h_len_nonneg in Hn. lia. }
  unfold pad. apply pad_loop_fuel; lia.
Qed.

(** ** Further properties of the validation engine *)

(** X1 — whatever the sub-record, a mapping or not, well typed or not, the
    score of the mental-drivers validator lies between 0 and 100. *)
Theorem mental_drivers_score_bounded `{FloatRepr} (drivers_data full : value) :
  (0 <= score (_validate_mental_drivers drivers_data full) <= 100)%Q.
Proof. apply mental_drivers_in_range. Qed.

(** X2 — whatever the sub-record, a list, a mapping or anything else, the
    score of the visual-proofs validator lies between 0 and 100. *)
Theorem visual_proofs_score_bounded `{FloatRepr} (proofs_data full : value) :
  (0 <= score (_validate_visual_proofs proofs_data full) <= 100)%Q.
Proof. apply visual_proofs_in_range. Qed.

(** X3 — whatever the sub-record, the score of the anti-objection validator
    lies between 0 and 100. *)
Theorem anti_objection_score_bounded `{FloatRepr} (anti_obj_data full : value) :
  (0 <= score (_validate_anti_objection anti_obj_data full) <= 100)%Q.
Proof. apply anti_objection_in_range. Qed.

(** X4 — whatever the sub-record, the score of the avatar validator lies
    between 0 and 100. *)
Theorem avatar_score_bounded `{FloatRepr} (avatar_data full : value) :
  (0 <= score (_validate_avatar avatar_data full) <= 100)%Q.
Proof. apply avatar_in_range. Qed.

(** X5 — for every sub-record whose [argumentos_totais] is no
    floating-point number (it may be absent, or of any other type), the
    score of the forensic validator is at most 100: each of its three
    sub-scores is capped by [min(..., 100)].  A float is left out because
    a NaN passes through [min] and every comparison. *)
Theorem forensic_score_capped `{FloatRepr} (metrics_data full : value) :
  arguments_not_float metrics_data →
  (score (_validate_forensic_metrics metrics_data full) <= 100)%Q.
Proof. intros _. apply forensic_at_most_100. Qed.

Lemma forensic_score_capped_witness :
  arguments_not_float Samples.fifteen_arguments
  ∧ (score (@_validate_forensic_metrics Samples.plain_floats Samples.fifteen_arguments VNone)
     <= 100)%Q.
Proof.
  assert (Hint : arguments_not_float Samples.fifteen_arguments)
    by (intros densidade x [= <-] [= <-]; reflexivity).
  split; [exact Hint |].
  apply (@forensic_score_capped Samples.plain_floats Samples.fifteen_arguments VNone Hint).
Defined.

(** X6 — the score of the forensic validator is not negative as soon as the
    number [argumentos_totais] it reads is not negative. *)
Theorem forensic_score_nonneg `{FloatRepr} (metrics_data full : value) :
  (∀ densidade x q,
     py_get metrics_data "densidade_persuasiva" (VDict []) = Ok densidade →
     py_get densidade "argumentos_totais" (VInt 0) = Ok x →
     py_num x = Some q → (0 <= q)%Q) →
  (0 <= score (_validate_forensic_metrics metrics_data full))%Q.
Proof. apply forensic_nonneg. Qed.

Lemma forensic_score_nonneg_witness :
  (0 <= score (@_validate_forensic_metrics Samples.plain_floats
                 (VDict [("densidade_persuasiva",
                          VDict [("argumentos_totais", VInt 15)])]) VNone))%Q.
Proof.
  apply (@forensic_score_nonneg Samples.plain_floats
           (VDict [("densidade_persuasiva", VDict [("argumentos_totais", VInt 15)])]) VNone).
  intros densidade x q [= <-] [= <-] [= <-]. discriminate.
Defined.

(** X7 — on a record that is a mapping, the critical issues of the result
    are exactly those of its component validations, in the order of the
    validators: nothing is lost and nothing is added. *)
Theorem result_issues_are_component_issues `{FloatRepr} `{Clock}
    (analysis_data : list (string * value)) (r : ValidationResult) :
  validate_complete_analysis (VDict analysis_data) = Ok r →
  all_critical_issues r
  = flat_map (fun kv => critical_issues kv.2) (component_validations r).
Proof. apply critical_issues_of_components. Qed.

Lemma result_issues_are_component_issues_witness :
  ∃ r, @validate_complete_analysis Samples.plain_floats Samples.fixed_clock (VDict []) = Ok r
       ∧ all_critical_issues r
         = flat_map (fun kv => critical_issues kv.2) (component_validations r).
Proof.
  eexists. split; [vm_compute; reflexivity |].
  apply (@result_issues_are_component_issues Samples.plain_floats Samples.fixed_clock []).
  vm_compute. reflexivity.
Defined.

(** *** The flag [valid] *)

Section Finishes.
Context {St : Type} (P Q : St → Prop).

Lemma finishes_keeps {A} (m : M St A) :
  (∀ s, P s → Q s) → keeps P m → finishes P Q m.
Proof.
  intros HPQ Hm s Hs. specialize (Hm s Hs).
  destruct (runM m s) as [s' [a|e]]; simpl in *; auto.
Qed.

Lemma finishes_bind {A B} (m : M St A) (f : A → M St B) :
  keeps P m → (∀ a, finishes P Q (f a)) → finishes P Q (m ≫= f).
Proof.
  intros Hm Hf s Hs. rewrite run_bind. specialize (Hm s Hs).
  destruct (runM m s) as [s' [a|e]]; simpl in *; [by apply Hf | done].
Qed.

Lemma finishes_bind_lift {A B} (r : result A) (f : A → M St B) :
  (∀ a, r = Ok a → finishes P Q (f a)) → finishes P Q (lift r ≫= f).
Proof.
  intros Hf s Hs. rewrite run_bind, run_lift.
  destruct r as [a|e]; [by apply Hf | done].
Qed.

End Finishes.

Lemma invalid_add_critical (msg : string) : keeps not_yet_valid (add_critical msg).
Proof. by apply keeps_modify. Qed.

Lemma invalid_add_warning (msg : string) : keeps not_yet_valid (add_warning msg).
Proof. by apply keeps_modify. Qed.

Lemma invalid_set_metric (k : string) (x : value) : keeps not_yet_valid (set_metric k x).
Proof. by apply keeps_modify. Qed.

Lemma invalid_is_earned (threshold : Q) (v : ComponentValidation) :
  (0 < threshold)%Q → not_yet_valid v → valid_is_earned threshold v.
Proof.
  intros Ht [Hv Hs]. unfold valid_is_earned. rewrite Hv, Hs. split; [done|].
  intros [_ Hle]. apply Qle_not_lt in Hle. done.
Qed.

Lemma finishes_set_valid (threshold q : Q) :
  finishes not_yet_valid (valid_is_earned threshold) (set_score q;; set_valid threshold).
Proof.
  intros s _. unfold valid_is_earned. simpl. rewrite andb_true_iff, Qle_bool_iff, Nat.eqb_eq.
  destruct (critical_issues s); simpl; intuition congruence.
Qed.

Lemma run_validator_valid (body : M ComponentValidation unit) (label : string)
    (threshold : Q) :
  (0 < threshold)%Q →
  finishes not_yet_valid (valid_is_earned threshold) body →
  valid_is_earned threshold (run_validator body label).
Proof.
  intros Ht Hbody. unfold run_validator. rewrite run_try.
  specialize (Hbody new_validation (conj eq_refl (Qeq_refl 0))).
  destruct (runM body new_validation) as [s' [a|e]]; simpl; [done|].
  apply invalid_is_earned; [done|]. by apply invalid_add_critical.
Qed.

(** One step in the proof that a validator body leaves [valid] unset until
    its last statement. *)
Ltac invalid_step :=
  lazymatch goal with
  | |- keeps _ (lift _ ≫= _) => apply keeps_bind_lift; intros ? ?
  | |- keeps _ (_ ≫= _) => apply keeps_bind; [|intros ?]
  | |- keeps _ (if ?b then _ else _) => destruct b eqn:?
  | |- keeps _ (when _ _) => apply keeps_when
  | |- keeps _ (add_critical _) => apply invalid_add_critical
  | |- keeps _ (add_warning _) => apply invalid_add_warning
  | |- keeps _ (set_metric _ _) => apply invalid_set_metric
  | |- keeps _ (mret _) => apply keeps_ret
  | |- keeps _ (lift _) => apply keeps_lift
  | |- keeps _ get_state => apply keeps_get_state
  end.

Ltac finish_step :=
  lazymatch goal with
  | |- finishes _ _ (set_score _ ≫= _) => apply finishes_set_valid
  | |- finishes _ _ (lift _ ≫= _) => apply finishes_bind_lift; intros ? ?
  | |- finishes _ _ (_ ≫= _) =>
      apply finishes_bind; [solve [repeat invalid_step] | intros ?]
  | |- finishes _ _ (if ?b then _ else _) => destruct b eqn:?
  | |- finishes _ _ _ =>
      apply finishes_keeps;
      [intros ?; by apply invalid_is_earned | solve [repeat invalid_step]]
  end.

Section ValidFlag.
Context `{FloatRepr}.

Lemma mental_drivers_valid (d full : value) :
  valid_is_earned 60 (_validate_mental_drivers d full).
Proof. apply run_validator_valid; [done|]. unfold mental_drivers_body. cbv zeta. repeat finish_step. Qed.

Lemma visual_proofs_valid (d full : value) :
  valid_is_earned 70 (_validate_visual_proofs d full).
Proof. apply run_validator_valid; [done|]. unfold visual_proofs_body. cbv zeta. repeat finish_step. Qed.

Lemma anti_objection_valid (d full : value) :
  valid_is_earned 70 (_validate_anti_objection d full).
Proof. apply run_validator_valid; [done|]. unfold anti_objection_body. cbv zeta. repeat finish_step. Qed.

Lemma avatar_valid (d full : value) :
  valid_is_earned 70 (_validate_avatar d full).
Proof. apply run_validator_valid; [done|]. unfold avatar_body. cbv zeta. repeat finish_step. Qed.

Lemma forensic_metrics_valid (d full : value) :
  valid_is_earned 60 (_validate_forensic_metrics d full).
Proof. apply run_validator_valid; [done|]. unfold forensic_metrics_body. cbv zeta. repeat finish_step. Qed.

End ValidFlag.


Lemma before_char_app (c : ascii) (s t : string) :
  contains (String c "") s = false → before_char c (s +:+ String c t) = s.
Proof.
  induction s as [|d s IH].
  - intros _. rewrite append_nil. simpl. by rewrite Ascii.eqb_refl.
  - rewrite append_cons. simpl. destruct (Ascii.eqb c d); simpl; [done|].
    intros Hs. by rewrite IH.
Qed.

Lemma emotion_value_before_slash `{FloatRepr} (s t : string) :
  contains "/" s = false →
  emotion_value (VStr (s +:+ "/" +:+ t)) = int_of_str s.
Proof.
  intros Hs. unfold emotion_value. cbn [py_str].
  change ("/" +:+ t) with (String "/" t).
  assert (contains "/" (s +:+ String "/" t) = true) as ->
    by (apply contains_app; by exists s, t).
  by rewrite (before_char_app "/" s t Hs).
Qed.

(** *** The aggregator on a record that is a mapping *)

Lemma validate_component_total (analysis_data : list (string * value)) (name : string)
    (f : value → value → ComponentValidation) (agg : Aggregation) :
  dict_lookup name (component_results agg) = None →
  let cv := f (field_or (VDict analysis_data) name (VDict [])) (VDict analysis_data) in
  runM (validate_component (VDict analysis_data) (name, fun d a => Ok (f d a))) agg
  = (mkAgg (component_results agg ++ [(name, cv)])
           (collected_issues agg ++ critical_issues cv)
           (collected_warnings agg ++ warnings cv)
           (total_score agg + score cv * _get_component_weight name)%Q
           (max_score agg + 100 * _get_component_weight name)%Q,
     Ok tt).
Proof.
  intros Hfresh cv. unfold validate_component, try_exceptM, record_component. simpl.
  rewrite (dict_set_fresh name _ _ Hfresh).
  change (f (default (VDict []) (dict_lookup name analysis_data)) (VDict analysis_data))
    with cv. clearbody cv.
  by destruct (critical_issues cv), (warnings cv); rewrite ?app_nil_r.
Qed.

Lemma Qltb_false (x y : Q) : Qltb x y = false ↔ (y <= x)%Q.
Proof. unfold Qltb. rewrite negb_false_iff. apply Qle_bool_iff. Qed.

Lemma generate_recommendations_nil (r : ValidationResult) :
  _generate_recommendations r = []
  ↔ (80 <= quality_score r)%Q ∧ all_critical_issues r = []
    ∧ scientific_compliance r = true
    ∧ Forall (fun kv => (70 <= score kv.2)%Q) (component_validations r).
Proof.
  unfold _generate_recommendations.
  rewrite !app_nil, <- Qltb_false.
  assert (flat_map (fun '(component, validation) =>
                      if Qltb (score validation) 70
                      then ["Melhore a qualidade do componente " +:+ component] else [])
                   (component_validations r) = []
          ↔ Forall (fun kv => (70 <= score kv.2)%Q) (component_validations r)) as ->.
  { induction (component_validations r) as [|[k cv] l IH]; simpl.
    - split; [constructor | done].
    - rewrite app_nil, IH, Forall_cons, <- Qltb_false. simpl.
      destruct (Qltb (score cv) 70); intuition congruence. }
  destruct (Qltb (quality_score r) 80), (all_critical_issues r),
    (scientific_compliance r); simpl; intuition congruence.
Qed.

Lemma validate_with_result `{FloatRepr} `{Clock} (rules : list (string * validator))
    (analysis_data : value) (r : ValidationResult) :
  validate_with rules analysis_data = Ok r →
  let agg := (runM (validate_components analysis_data rules) new_aggregation).1 in
  ∃ compliance,
    _check_scientific_compliance analysis_data = Ok compliance
    ∧ scientific_compliance r = compliance
    ∧ component_validations r = component_results agg
    ∧ all_critical_issues r = collected_issues agg
    ∧ all_warnings r = collected_warnings agg
    ∧ recommendations r = _generate_recommendations r
    ∧ quality_score r
      = (if Qltb 0 (max_score agg) then total_score agg / max_score agg * 100 else 0)%Q
    ∧ overall_valid r
      = Qle_bool 80 (quality_score r) && (length (collected_issues agg) =? 0)%nat.
Proof.
  unfold validate_with.
  pose proof (validate_components_ok analysis_data rules new_aggregation) as Hloop.
  destruct (runM (validate_components analysis_data rules) new_aggregation) as [agg looped].
  simpl in Hloop. subst looped. simpl.
  destruct (_check_scientific_compliance analysis_data) as [compliance|e]; simpl; [|done].
  intros [= <-]. by exists compliance.
Qed.

Lemma no_recommendation_cases `{FloatRepr} `{Clock} (rules : list (string * validator))
    (analysis_data : value) (r : ValidationResult) :
  validate_with rules analysis_data = Ok r →
  recommendations r = []
  ↔ overall_valid r = true ∧ scientific_compliance r = true
    ∧ Forall (fun kv => (70 <= score kv.2)%Q) (component_validations r).
Proof.
  intros Hr. destruct (validate_with_result rules analysis_data r Hr)
    as (compliance & _ & _ & _ & Hissues & _ & Hrecs & _ & Hvalid).
  rewrite Hvalid, andb_true_iff, Qle_bool_iff, Nat.eqb_eq, length_zero_iff_nil.
  rewrite Hrecs, generate_recommendations_nil, Hissues. tauto.
Qed.

Lemma not_a_mapping_raises `{FloatRepr} `{Clock} (rules : list (string * validator))
    (analysis_data : value) :
  is_dict analysis_data = false →
  validate_with rules analysis_data = no_attribute analysis_data "get".
Proof.
  intros Hd. pose proof (validate_with_cases rules analysis_data) as Hcases.
  destruct (validate_with rules analysis_data) as [r|e] eqn:Hr.
  - apply validate_with_result in Hr as (compliance & Hc & _).
    by destruct analysis_data.
  - destruct analysis_data; try discriminate; by injection Hcases as <-.
Qed.

Section FiveValidators.
Variables (f1 f2 f3 f4 f5 : value → value → ComponentValidation).
Variable (analysis_data : list (string * value)).

(** The loop of the aggregator over five validators that do not raise. *)
Lemma five_components_run :
  let record := VDict analysis_data in
  let part name := field_or record name (VDict []) in
  let agg :=
    (runM (validate_components record
             [("drivers_mentais", fun d a => Ok (f1 d a));
              ("provas_visuais", fun d a => Ok (f2 d a));
              ("sistema_anti_objecao", fun d a => Ok (f3 d a));
              ("avatar_ultra_detalhado", fun d a => Ok (f4 d a));
              ("metricas_forenses", fun d a => Ok (f5 d a))])
          new_aggregation).1 in
  component_results agg
  = [("drivers_mentais", f1 (part "drivers_mentais") record);
     ("provas_visuais", f2 (part "provas_visuais") record);
     ("sistema_anti_objecao", f3 (part "sistema_anti_objecao") record);
     ("avatar_ultra_detalhado", f4 (part "avatar_ultra_detalhado") record);
     ("metricas_forenses", f5 (part "metricas_forenses") record)]
  ∧ ((if Qltb 0 (max_score agg) then total_score agg / max_score agg * 100 else 0)
     == (1 # 4) * score (f1 (part "drivers_mentais") record)
        + (1 # 5) * score (f2 (part "provas_visuais") record)
        + (1 # 5) * score (f3 (part "sistema_anti_objecao") record)
        + (1 # 5) * score (f4 (part "avatar_ultra_detalhado") record)
        + (3 # 20) * score (f5 (part "metricas_forenses") record))%Q.
Proof.
  cbn zeta. split; [reflexivity|].
  set (agg := (runM _ new_aggregation).1).
  set (c1 := f1 _ _). set (c2 := f2 _ _). set (c3 := f3 _ _). set (c4 := f4 _ _).
  set (c5 := f5 _ _).
  assert (max_score agg = (0 + 100 * (1 # 4) + 100 * (1 # 5) + 100 * (1 # 5)
                           + 100 * (1 # 5) + 100 * (3 # 20))%Q) as -> by reflexivity.
  assert (total_score agg = (0 + score c1 * (1 # 4) + score c2 * (1 # 5) + score c3 * (1 # 5)
                             + score c4 * (1 # 5) + score c5 * (3 # 20))%Q) as ->
    by reflexivity.
  match goal with |- context [Qltb 0 ?m] => change (Qltb 0 m) with true end.
  cbn iota. field.
Qed.

End FiveValidators.

Section Complete.
Context `{FloatRepr} `{Clock}.

Lemma validate_complete_analysis_components (analysis_data : list (string * value))
    (r : ValidationResult) :
  validate_complete_analysis (VDict analysis_data) = Ok r →
  let record := VDict analysis_data in
  let part name := field_or record name (VDict []) in
  let drivers := _validate_mental_drivers (part "drivers_mentais") record in
  let provis := _validate_visual_proofs (part "provas_visuais") record in
  let anti := _validate_anti_objection (part "sistema_anti_objecao") record in
  let avatar := _validate_avatar (part "avatar_ultra_detalhado") record in
  let forensic := _validate_forensic_metrics (part "metricas_forenses") record in
  component_validations r
  = [("drivers_mentais", drivers); ("provas_visuais", provis);
     ("sistema_anti_objecao", anti); ("avatar_ultra_detalhado", avatar);
     ("metricas_forenses", forensic)]
  ∧ (quality_score r
     == (1 # 4) * score drivers + (1 # 5) * score provis + (1 # 5) * score anti
        + (1 # 5) * score avatar + (3 # 20) * score forensic)%Q.
Proof.
  intros Hr. cbn zeta.
  apply validate_with_result in Hr as (compliance & _ & _ & Hcomps & _ & _ & _ & Hq & _).
  rewrite Hcomps, Hq.
  pose proof (five_components_run _validate_mental_drivers _validate_visual_proofs
                _validate_anti_objection _validate_avatar _validate_forensic_metrics
                analysis_data) as Hfive.
  cbv zeta in Hfive. unfold validation_rules. exact Hfive.
Qed.

End Complete.

Lemma compliance_readable (analysis_data : list (string * value)) :
  (∀ v, dict_lookup "pesquisa_web_massiva" analysis_data = Some v →
        truthy v = true → is_dict v = true) →
  (∀ v, dict_lookup "metadata" analysis_data = Some v → is_dict v = true) →
  ∃ compliance, _check_scientific_compliance (VDict analysis_data) = Ok compliance.
Proof.
  intros Hp Hm. unfold _check_scientific_compliance. simpl.
  assert (∃ no_sources,
    (if negb (truthy (default (VDict []) (dict_lookup "pesquisa_web_massiva" analysis_data)))
     then mret true
     else py_get (default (VDict []) (dict_lookup "pesquisa_web_massiva" analysis_data))
            "search_results" VNone
          ≫= λ search_results : value, mret (negb (truthy search_results)))
    = Ok no_sources) as [no_sources ->].
  { destruct (dict_lookup "pesquisa_web_massiva" analysis_data) as [pesquisa|];
      simpl; [|by eexists].
    specialize (Hp pesquisa eq_refl).
    destruct (truthy pesquisa); simpl; [|by eexists].
    destruct pesquisa; try (by discriminate (Hp eq_refl)). by eexists. }
  simpl. destruct no_sources; [by eexists|].
  destruct (dict_lookup "metadata" analysis_data) as [metadata|]; simpl; [|by eexists].
  specialize (Hm metadata eq_refl). destruct metadata; try discriminate. by eexists.
Qed.

Section CompleteAnalysis.
Context `{FloatRepr} `{Clock}.

Lemma quality_score_capped (analysis_data : value) (r : ValidationResult) :
  validate_complete_analysis analysis_data = Ok r → (quality_score r <= 100)%Q.
Proof.
  intros Hr. destruct (is_dict analysis_data) eqn:Hd.
  - destruct analysis_data as [| | | | | |d]; try discriminate.
    apply validate_complete_analysis_components in Hr as [_ ->].
    pose proof (mental_drivers_in_range
                  (field_or (VDict d) "drivers_mentais" (VDict [])) (VDict d)) as [_ H1].
    pose proof (visual_proofs_in_range
                  (field_or (VDict d) "provas_visuais" (VDict [])) (VDict d)) as [_ H2].
    pose proof (anti_objection_in_range
                  (field_or (VDict d) "sistema_anti_objecao" (VDict [])) (VDict d)) as [_ H3].
    pose proof (avatar_in_range
                  (field_or (VDict d) "avatar_ultra_detalhado" (VDict [])) (VDict d)) as [_ H4].
    pose proof (forensic_at_most_100
                  (field_or (VDict d) "metricas_forenses" (VDict [])) (VDict d)) as H5.
    unfold on_score in *. lra.
  - unfold validate_complete_analysis in Hr.
    rewrite not_a_mapping_raises in Hr by done. discriminate.
Qed.

Lemma validate_readable_record (analysis_data : list (string * value)) :
  (∀ v, dict_lookup "pesquisa_web_massiva" analysis_data = Some v →
        truthy v = true → is_dict v = true) →
  (∀ v, dict_lookup "metadata" analysis_data = Some v → is_dict v = true) →
  ∃ r, validate_complete_analysis (VDict analysis_data) = Ok r.
Proof.
  intros Hp Hm. destruct (compliance_readable analysis_data Hp Hm) as [compliance Hc].
  pose proof (validate_with_cases validation_rules (VDict analysis_data)) as Hcases.
  unfold validate_complete_analysis.
  destruct (validate_with validation_rules (VDict analysis_data)) as [r|e]; [by exists r|].
  congruence.
Qed.

End CompleteAnalysis.

(** *** Data sources *)

Lemma check_source_counts (x : value) (s : SourceValidation) :
  let s' := (runM (check_source x) s).1 in
  real_data_percentage s' = real_data_percentage s
  ∧ total_sources s' = total_sources s
  ∧ source_quality s' = source_quality s
  ∧ has_fallback_content s' = has_fallback_content s
  ∧ verified_sources s <= verified_sources s' <= verified_sources s + 1
  ∧ (is_dict x = false → ∃ e, runM (check_source x) s = (s, Raise e)).
Proof.
  cbn zeta. unfold check_source. rewrite run_bind, run_lift.
  destruct (py_get x "url" (VStr "")) as [url|e] eqn:Hurl; cbn beta iota.
  - rewrite run_bind, run_lift.
    destruct (any_domain_in verified_domains url) as [[]|e]; simpl;
      (repeat split; try lia; by destruct x).
  - simpl. repeat split; try lia. intros _. by exists e.
Qed.

Lemma check_sources_counts (results : list value) (s : SourceValidation) :
  let s' := (runM (check_sources results) s).1 in
  real_data_percentage s' = real_data_percentage s
  ∧ total_sources s' = total_sources s
  ∧ source_quality s' = source_quality s
  ∧ has_fallback_content s' = has_fallback_content s
  ∧ verified_sources s <= verified_sources s'
    <= verified_sources s + Z.of_nat (length results).
Proof.
  revert s. induction results as [|x results IH]; intros s; cbn zeta.
  - simpl. repeat split; lia.
  - change (check_sources (x :: results)) with (check_source x;; check_sources results).
    rewrite run_bind.
    pose proof (check_source_counts x s) as (Hp & Ht & Hq & Hf & Hv & _).
    destruct (runM (check_source x) s) as [s1 [[]|e]]; simpl in *.
    + specialize (IH s1) as (Hp' & Ht' & Hq' & Hf' & Hv').
      rewrite Hp', Ht', Hq', Hf'. repeat split; try done; lia.
    + repeat split; try done; lia.
Qed.

(** Search results that are no mappings are not counted. *)
Lemma check_sources_skip (results : list value) (s : SourceValidation) :
  Forall (fun x => is_dict x = false) results →
  (runM (check_sources results) s).1 = s.
Proof.
  intros [|x l Hx _]; [done|].
  change (check_sources (x :: l)) with (check_source x;; check_sources l).
  rewrite run_bind.
  destruct (check_source_counts x s) as (_ & _ & _ & _ & _ & Hraise).
  destruct (Hraise Hx) as [e ->]. done.
Qed.

(** A search result that is no mapping stops the count. *)
Lemma check_sources_raise (results : list value) (x : value) (s : SourceValidation) :
  In x results → is_dict x = false →
  ∃ e, (runM (check_sources results) s).2 = Raise e.
Proof.
  intros Hin Hx. revert s. induction results as [|y results IH]; intros s; [done|].
  change (check_sources (y :: results)) with (check_source y;; check_sources results).
  rewrite run_bind.
  destruct Hin as [->|Hin].
  - destruct (check_source_counts x s) as (_ & _ & _ & _ & _ & Hraise).
    destruct (Hraise Hx) as [e ->]. by exists e.
  - destruct (runM (check_source y) s) as [s1 [[]|e]]; [by apply IH | by exists e].
Qed.

Section Sources.
Context `{FloatRepr}.

(** What [validate_data_sources] returns, whatever the record. *)
Lemma validate_data_sources_cases (analysis_data : value) :
  let v := validate_data_sources analysis_data in
  0 <= verified_sources v <= total_sources v
  ∧ ((source_quality v = "unknown" ∧ real_data_percentage v = 0%Q
      ∧ has_fallback_content v = false)
     ∨ (real_data_percentage v
        = (if 0 <? total_sources v
           then inject_Z (verified_sources v) / inject_Z (total_sources v) * 100
           else 0)%Q
        ∧ (source_quality v = "excellent" ∧ (80 <= real_data_percentage v)%Q
           ∨ source_quality v = "good"
             ∧ (60 <= real_data_percentage v)%Q ∧ (real_data_percentage v < 80)%Q
           ∨ source_quality v = "fair"
             ∧ (40 <= real_data_percentage v)%Q ∧ (real_data_percentage v < 60)%Q
           ∨ source_quality v = "poor" ∧ (real_data_percentage v < 40)%Q))).
Proof.
  assert (Hgrade : ∀ (p : Q) (n m : Z) (b : bool),
    0 <= n <= m →
    p = (if 0 <? m then inject_Z n / inject_Z m * 100 else 0)%Q →
    let v := (runM
      (modify (fun v : SourceValidation =>
         mkSources (real_data_percentage v) (verified_sources v) (total_sources v)
           (if Qle_bool 80 (real_data_percentage v) then "excellent"
            else if Qle_bool 60 (real_data_percentage v) then "good"
            else if Qle_bool 40 (real_data_percentage v) then "fair"
            else "poor")
           (has_fallback_content v)))
      (mkSources p n m "unknown" b)).1 in
    0 <= verified_sources v <= total_sources v
    ∧ ((source_quality v = "unknown" ∧ real_data_percentage v = 0%Q
        ∧ has_fallback_content v = false)
       ∨ (real_data_percentage v
          = (if 0 <? total_sources v
             then inject_Z (verified_sources v) / inject_Z (total_sources v) * 100
             else 0)%Q
          ∧ (source_quality v = "excellent" ∧ (80 <= real_data_percentage v)%Q
             ∨ source_quality v = "good"
               ∧ (60 <= real_data_percentage v)%Q ∧ (real_data_percentage v < 80)%Q
             ∨ source_quality v = "fair"
               ∧ (40 <= real_data_percentage v)%Q ∧ (real_data_percentage v < 60)%Q
             ∨ source_quality v = "poor" ∧ (real_data_percentage v < 40)%Q)))).
  { intros p n m b Hnm Hp. simpl. split; [done|]. right. split; [done|].
    destruct (Qle_bool 80 p) eqn:H80; [left; split; [done | by apply Qle_bool_iff]|].
    destruct (Qle_bool 60 p) eqn:H60;
      [right; left; repeat split; [by apply Qle_bool_iff|]|].
    { apply Qnot_le_lt. intros Hle. apply Qle_bool_iff in Hle. congruence. }
    destruct (Qle_bool 40 p) eqn:H40;
      [right; right; left; repeat split; [by apply Qle_bool_iff|]|].
    { apply Qnot_le_lt. intros Hle. apply Qle_bool_iff in Hle. congruence. }
    right; right; right. split; [done|].
    apply Qnot_le_lt. intros Hle. apply Qle_bool_iff in Hle. congruence. }
  cbn zeta. unfold validate_data_sources, data_sources_body. rewrite run_try.
  rewrite run_bind, run_lift.
  destruct (py_get analysis_data "pesquisa_web_massiva" (VDict [])) as [pesquisa|e];
    [|simpl; split; [lia | by left]].
  cbn beta iota. rewrite run_bind.
  destruct (truthy pesquisa).
  2:{ rewrite run_ret. cbn beta iota. rewrite run_bind, run_modify. cbn beta iota.
      cbn [real_data_percentage verified_sources total_sources source_quality
           has_fallback_content new_sources].
      apply (Hgrade 0%Q 0 0); [lia | done]. }
  rewrite run_bind, run_lift.
  destruct (py_get pesquisa "search_results" (VList [])) as [search_results|e];
    [|simpl; split; [lia | by left]].
  cbn beta iota. rewrite run_bind, run_lift.
  destruct (py_len search_results) as [total|e] eqn:Hlen;
    [|simpl; split; [lia | by left]].
  cbn beta iota. rewrite run_bind, run_modify. cbn beta iota.
  cbn [real_data_percentage verified_sources total_sources source_quality
       has_fallback_content new_sources].
  rewrite run_bind, run_lift.
  pose proof (py_len_nonneg _ _ Hlen) as Htotal.
  destruct (py_iter search_results) as [results|e] eqn:Hiter;
    [|simpl; split; [lia | by left]].
  cbn beta iota. rewrite run_bind.
  set (s0 := mkSources 0 0 total "unknown" false).
  pose proof (check_sources_counts results s0) as (Hp & Ht & Hq & Hf & Hv).
  assert (verified_sources (runM (check_sources results) s0).1 <= total) as Hle.
  { destruct (py_iter_cases _ _ _ Hlen Hiter) as [-> | [_ Hskip]]; [simpl in Hv; lia|].
    rewrite check_sources_skip by done. simpl. lia. }
  destruct (runM (check_sources results) s0) as [[p n m q b] [[]|e]];
    simpl in Hp, Ht, Hq, Hf, Hv, Hle; subst p m q b.
  2:{ simpl. split; [lia | by left]. }
  cbn beta iota. rewrite run_bind. cbn [runM get_state]. cbn beta iota.
  cbn [total_sources]. 
  destruct (0 <? total) eqn:Hpos; cbn [when].
  - rewrite run_modify. cbn beta iota. rewrite run_bind, run_modify. cbn beta iota.
    cbn [real_data_percentage verified_sources total_sources source_quality
         has_fallback_content].
    apply Hgrade; [lia | by rewrite Hpos].
  - rewrite run_ret. cbn beta iota. rewrite run_bind, run_modify. cbn beta iota.
    cbn [real_data_percentage verified_sources total_sources source_quality
         has_fallback_content].
    apply Hgrade; [lia | by rewrite Hpos].
Qed.

End Sources.

Section SourcesSummary.
Context `{FloatRepr}.

Lemma data_sources_bounds (analysis_data : value) :
  let v := validate_data_sources analysis_data in
  0 <= verified_sources v <= total_sources v
  ∧ (0 <= real_data_percentage v <= 100)%Q.
Proof.
  cbn zeta. destruct (validate_data_sources_cases analysis_data) as [Hv Hcases].
  split; [done|].
  destruct Hcases as [(_ & -> & _) | [-> _]]; [done|].
  destruct (Z.ltb_spec 0 (total_sources (validate_data_sources analysis_data))); [|done].
  pose proof (Qdiv_unit _ _ Hv) as Hq.
  set (q := (inject_Z _ / inject_Z _)%Q) in *. lra.
Qed.

Lemma data_sources_without_search (analysis_data : list (string * value)) :
  truthy (field_or (VDict analysis_data) "pesquisa_web_massiva" (VDict [])) = false →
  let v := validate_data_sources (VDict analysis_data) in
  total_sources v = 0 ∧ verified_sources v = 0
  ∧ real_data_percentage v = 0%Q ∧ source_quality v = "poor".
Proof.
  unfold field_or. cbn [py_get]. intros Hfalsy. cbn zeta.
  unfold validate_data_sources, data_sources_body. rewrite run_try.
  rewrite run_bind, run_lift. cbn [py_get]. cbn beta iota.
  rewrite Hfalsy. done.
Qed.

Lemma data_sources_malformed (analysis_data pesquisa : list (string * value))
    (results : list value) (x : value) :
  dict_lookup "pesquisa_web_massiva" analysis_data = Some (VDict pesquisa) →
  dict_lookup "search_results" pesquisa = Some (VList results) →
  In x results → is_dict x = false →
  let v := validate_data_sources (VDict analysis_data) in
  source_quality v = "unknown" ∧ real_data_percentage v = 0%Q
  ∧ has_fallback_content v = false
  ∧ total_sources v = Z.of_nat (length results).
Proof.
  intros Hpesquisa Hresults Hin Hx. cbn zeta.
  unfold validate_data_sources, data_sources_body. rewrite run_try.
  rewrite run_bind, run_lift. cbn [py_get]. rewrite Hpesquisa. cbn [default id].
  cbn beta iota.
  assert (truthy (VDict pesquisa) = true) as -> by (by destruct pesquisa).
  rewrite run_bind, run_bind, run_lift. cbn [py_get]. rewrite Hresults. cbn [default id].
  cbn beta iota. rewrite run_bind, run_lift. cbn [py_len]. cbn beta iota.
  rewrite run_bind, run_modify. cbn beta iota.
  rewrite run_bind, run_lift. cbn [py_iter]. cbn beta iota.
  rewrite run_bind.
  set (s0 := mkSources _ _ _ _ _).
  destruct (check_sources_raise results x s0 Hin Hx) as [e He].
  pose proof (check_sources_counts results s0) as (Hp & Ht & Hq & Hf & _).
  destruct (runM (check_sources results) s0) as [s1 r]. simpl in He. subst r.
  simpl in *. by rewrite Hp, Ht, Hq, Hf.
Qed.

End SourcesSummary.

(** *** Further properties of the validators *)

(** X8 — each of the five validators sets [valid] exactly when it has found
    no critical issue and the score reaches the validator's pass mark (60
    for the mental drivers and the forensic metrics, 70 for the others),
    also when its body returned early or raised. *)
Theorem valid_component_is_sound `{FloatRepr} (component_name : string)
    (check : validator) (component_data analysis_data : value)
    (cv : ComponentValidation) :
  In (component_name, check) validation_rules →
  check component_data analysis_data = Ok cv →
  valid cv = true
  ↔ critical_issues cv = [] ∧ (pass_mark component_name <= score cv)%Q.
Proof.
  intros Hin Hcv.
  simpl in Hin. destruct Hin as [Hr|[Hr|[Hr|[Hr|[Hr|[]]]]]];
    injection Hr as <- <-; injection Hcv as <-.
  - apply mental_drivers_valid.
  - apply visual_proofs_valid.
  - apply anti_objection_valid.
  - apply avatar_valid.
  - apply forensic_metrics_valid.
Qed.

Lemma valid_component_is_sound_witness :
  let cv := @_validate_anti_objection Samples.plain_floats Samples.covered_objections VNone in
  valid cv = true
  ∧ (valid cv = true
     ↔ critical_issues cv = [] ∧ (pass_mark "sistema_anti_objecao" <= score cv)%Q).
Proof.
  split; [vm_compute; reflexivity |].
  apply (@valid_component_is_sound Samples.plain_floats "sistema_anti_objecao"
           (fun d a => Ok (@_validate_anti_objection Samples.plain_floats d a))
           Samples.covered_objections VNone).
  - simpl. auto.
  - reflexivity.
Defined.

(** X9 — a sub-record that is not a mapping never makes a validator raise:
    the mental-drivers, anti-objection, avatar and forensic validators
    return an invalid validation with score 0 whose only critical issue
    reports that the value has no attribute [get]; the visual-proofs
    validator, which also accepts a list, reports that no PROVI was found. *)
Theorem wrong_type_component_is_rejected `{FloatRepr} (component_data full : value) :
  is_dict component_data = false →
  let no_get := "'" +:+ type_name component_data +:+ "' object has no attribute 'get'" in
  _validate_mental_drivers component_data full
  = mkValidation false 0 ["Erro na validação de drivers: " +:+ no_get] [] []
  ∧ _validate_anti_objection component_data full
    = mkValidation false 0 ["Erro na validação anti-objeção: " +:+ no_get] [] []
  ∧ _validate_avatar component_data full
    = mkValidation false 0 ["Erro na validação do avatar: " +:+ no_get] [] []
  ∧ _validate_forensic_metrics component_data full
    = mkValidation false 0 ["Erro na validação de métricas: " +:+ no_get] [] []
  ∧ (is_list component_data = false →
     _validate_visual_proofs component_data full
     = mkValidation false 0 ["Nenhuma PROVI encontrada"] [] [("provis_count", VInt 0)]).
Proof.
  intros Hd. by destruct component_data.
Qed.

Lemma wrong_type_component_is_rejected_witness :
  _validate_avatar (VStr "avatar") VNone
  = mkValidation false 0
      ["Erro na validação do avatar: 'str' object has no attribute 'get'"] [] [].
Proof.
  apply (@wrong_type_component_is_rejected Samples.plain_floats (VStr "avatar") VNone).
  reflexivity.
Defined.

(** X10 — an emotional intensity written as a string with a slash is read
    as the integer before the first slash; what follows the slash, the
    denominator, is ignored. *)
Theorem emotion_denominator_ignored `{FloatRepr} (s t : string) :
  contains "/" s = false →
  emotion_value (VStr (s +:+ "/" +:+ t)) = int_of_str s.
Proof. apply emotion_value_before_slash. Qed.

Lemma emotion_denominator_ignored_witness :
  @emotion_value Samples.plain_floats (VStr "8/100") = Ok 8.
Proof.
  apply (@emotion_denominator_ignored Samples.plain_floats "8" "100"). reflexivity.
Defined.

(** *** Further properties of the aggregator *)

(** X11 — on a record that is a mapping, the result holds the validations
    of the five components, each computed by its validator from the
    sub-record under its key (or from an empty mapping), and the quality
    score is their weighted sum with the weights 0.25, 0.20, 0.20, 0.20
    and 0.15. *)
Theorem quality_score_is_weighted_sum `{FloatRepr} `{Clock}
    (analysis_data : list (string * value)) (r : ValidationResult) :
  validate_complete_analysis (VDict analysis_data) = Ok r →
  let record := VDict analysis_data in
  let part name := field_or record name (VDict []) in
  let drivers := _validate_mental_drivers (part "drivers_mentais") record in
  let provis := _validate_visual_proofs (part "provas_visuais") record in
  let anti := _validate_anti_objection (part "sistema_anti_objecao") record in
  let avatar := _validate_avatar (part "avatar_ultra_detalhado") record in
  let forensic := _validate_forensic_metrics (part "metricas_forenses") record in
  component_validations r
  = [("drivers_mentais", drivers); ("provas_visuais", provis);
     ("sistema_anti_objecao", anti); ("avatar_ultra_detalhado", avatar);
     ("metricas_forenses", forensic)]
  ∧ (quality_score r
     == (1 # 4) * score drivers + (1 # 5) * score provis + (1 # 5) * score anti
        + (1 # 5) * score avatar + (3 # 20) * score forensic)%Q.
Proof. apply validate_complete_analysis_components. Qed.

Lemma quality_score_is_weighted_sum_witness :
  ∃ r, @validate_complete_analysis Samples.plain_floats Samples.fixed_clock
         (VDict [("sistema_anti_objecao", Samples.covered_objections)]) = Ok r
       ∧ (quality_score r == 35 # 2)%Q.
Proof.
  eexists. split; [vm_compute; reflexivity |].
  match goal with
  | |- (quality_score ?r == _)%Q =>
      destruct (@quality_score_is_weighted_sum Samples.plain_floats Samples.fixed_clock
                  [("sistema_anti_objecao", Samples.covered_objections)] r
                  ltac:(vm_compute; reflexivity)) as [_ Hq]
  end.
  rewrite Hq. vm_compute. reflexivity.
Defined.

(** X12 — whenever [validate_complete_analysis] returns a result on a
    record whose forensic metrics hold no floating-point
    [argumentos_totais], the quality score of the result is at most 100. *)
Theorem quality_score_at_most_100 `{FloatRepr} `{Clock} (analysis_data : value)
    (r : ValidationResult) :
  validate_complete_analysis analysis_data = Ok r →
  arguments_not_float (field_or analysis_data "metricas_forenses" (VDict [])) →
  (quality_score r <= 100)%Q.
Proof. intros Hr _. by apply (quality_score_capped analysis_data). Qed.

Lemma quality_score_at_most_100_witness :
  ∃ r, @validate_complete_analysis Samples.plain_floats Samples.fixed_clock
         (VDict [("metricas_forenses", Samples.fifteen_arguments)]) = Ok r
       ∧ (quality_score r <= 100)%Q.
Proof.
  eexists. split; [vm_compute; reflexivity |].
  apply (@quality_score_at_most_100 Samples.plain_floats Samples.fixed_clock
           (VDict [("metricas_forenses", Samples.fifteen_arguments)])).
  - vm_compute. reflexivity.
  - intros densidade x [= <-] [= <-]. reflexivity.
Defined.

(** X13 — on a record whose forensic metrics hold no floating-point
    [argumentos_totais], the result carries no recommendation exactly when
    the analysis is valid overall, complies scientifically and every
    component scores at least 70; so a result that is not valid always
    recommends something. *)
Theorem no_recommendation_iff `{FloatRepr} `{Clock} (analysis_data : value)
    (r : ValidationResult) :
  validate_complete_analysis analysis_data = Ok r →
  arguments_not_float (field_or analysis_data "metricas_forenses" (VDict [])) →
  recommendations r = []
  ↔ overall_valid r = true ∧ scientific_compliance r = true
    ∧ Forall (fun kv => (70 <= score kv.2)%Q) (component_validations r).
Proof. intros Hr _. by apply (no_recommendation_cases validation_rules analysis_data). Qed.

Lemma no_recommendation_iff_witness :
  ∃ r, @validate_complete_analysis Samples.plain_floats Samples.fixed_clock
         (VDict [("metricas_forenses", Samples.fifteen_arguments)]) = Ok r
       ∧ overall_valid r = false ∧ recommendations r ≠ [].
Proof.
  eexists. split; [vm_compute; reflexivity |]. split; [reflexivity |].
  intros Hnil.
  apply (@no_recommendation_iff Samples.plain_floats Samples.fixed_clock
           (VDict [("metricas_forenses", Samples.fifteen_arguments)])) in Hnil
    as [Hvalid _]; [discriminate Hvalid | |].
  - vm_compute. reflexivity.
  - intros densidade x [= <-] [= <-]. reflexivity.
Defined.

(** X14 — a record that is not a mapping is not validated:
    [validate_complete_analysis] raises the [AttributeError] of the
    compliance check, which is outside the [try] of the loop. *)
Theorem record_not_a_mapping_raises `{FloatRepr} `{Clock} (analysis_data : value) :
  is_dict analysis_data = false →
  validate_complete_analysis analysis_data = no_attribute analysis_data "get".
Proof. apply not_a_mapping_raises. Qed.

Lemma record_not_a_mapping_raises_witness :
  @validate_complete_analysis Samples.plain_floats Samples.fixed_clock (VList [])
  = Raise (AttributeError "'list' object has no attribute 'get'").
Proof.
  apply (@record_not_a_mapping_raises Samples.plain_floats Samples.fixed_clock (VList [])).
  reflexivity.
Defined.

(** X15 — [validate_complete_analysis] returns a result for every mapping
    whose [pesquisa_web_massiva] is a mapping, falsy or absent and whose
    [metadata] is a mapping or absent, whatever the five component
    sub-records hold. *)
Theorem readable_record_is_validated `{FloatRepr} `{Clock}
    (analysis_data : list (string * value)) :
  (∀ v, dict_lookup "pesquisa_web_massiva" analysis_data = Some v →
        truthy v = true → is_dict v = true) →
  (∀ v, dict_lookup "metadata" analysis_data = Some v → is_dict v = true) →
  ∃ r, validate_complete_analysis (VDict analysis_data) = Ok r.
Proof. apply validate_readable_record. Qed.

Lemma readable_record_is_validated_witness :
  ∃ r, @validate_complete_analysis Samples.plain_floats Samples.fixed_clock
         (VDict [("drivers_mentais", VInt 3); ("metadata", VDict [])]) = Ok r.
Proof.
  apply (@readable_record_is_validated Samples.plain_floats Samples.fixed_clock
           [("drivers_mentais", VInt 3); ("metadata", VDict [])]).
  - intros v Hv. discriminate Hv.
  - intros v [= <-]. reflexivity.
Defined.

(** *** Properties of the check of the data sources *)

(** X16 — for every record, [validate_data_sources] reports counts with
    [0 <= verified_sources <= total_sources] and a [real_data_percentage]
    between 0 and 100. *)
Theorem data_sources_bounded `{FloatRepr} (analysis_data : value) :
  let v := validate_data_sources analysis_data in
  0 <= verified_sources v <= total_sources v
  ∧ (0 <= real_data_percentage v <= 100)%Q.
Proof. apply data_sources_bounds. Qed.

(** X17 — the grade [validate_data_sources] reports agrees with the
    percentage it reports: either the check was interrupted by an
    exception, and the grade is still ["unknown"] with percentage 0 and the
    fallback flag unset, or the percentage is the share of verified sources
    (0 when there are no sources) and the grade is ["excellent"] from 80,
    ["good"] from 60, ["fair"] from 40 and ["poor"] below. *)
Theorem source_quality_matches_percentage `{FloatRepr} (analysis_data : value) :
  let v := validate_data_sources analysis_data in
  (source_quality v = "unknown" ∧ real_data_percentage v = 0%Q
   ∧ has_fallback_content v = false)
  ∨ (real_data_percentage v
     = (if 0 <? total_sources v
        then inject_Z (verified_sources v) / inject_Z (total_sources v) * 100
        else 0)%Q
     ∧ (source_quality v = "excellent" ∧ (80 <= real_data_percentage v)%Q
        ∨ source_quality v = "good"
          ∧ (60 <= real_data_percentage v)%Q ∧ (real_data_percentage v < 80)%Q
        ∨ source_quality v = "fair"
          ∧ (40 <= real_data_percentage v)%Q ∧ (real_data_percentage v < 60)%Q
        ∨ source_quality v = "poor" ∧ (real_data_percentage v < 40)%Q)).
Proof. apply validate_data_sources_cases. Qed.

(** X18 — a record (a mapping) without search data, its
    [pesquisa_web_massiva] absent or falsy, is graded ["poor"], not
    ["unknown"]: no source is counted and the percentage is 0. *)
Theorem no_search_data_is_poor `{FloatRepr} (analysis_data : list (string * value)) :
  truthy (field_or (VDict analysis_data) "pesquisa_web_massiva" (VDict [])) = false →
  let v := validate_data_sources (VDict analysis_data) in
  total_sources v = 0 ∧ verified_sources v = 0
  ∧ real_data_percentage v = 0%Q ∧ source_quality v = "poor".
Proof. apply data_sources_without_search. Qed.

Lemma no_search_data_is_poor_witness :
  source_quality (@validate_data_sources Samples.plain_floats
                    (VDict [("drivers_mentais", VDict [])])) = "poor".
Proof.
  apply (@no_search_data_is_poor Samples.plain_floats [("drivers_mentais", VDict [])]).
  reflexivity.
Defined.

(** X19 — one search result that is not a mapping discards the grading of
    all of them: the exception it raises leaves the grade ["unknown"], the
    percentage 0 and the fallback flag unset, while [total_sources] already
    counts every result. *)
Theorem malformed_result_discards_grading `{FloatRepr}
    (analysis_data pesquisa : list (string * value)) (results : list value) (x : value) :
  dict_lookup "pesquisa_web_massiva" analysis_data = Some (VDict pesquisa) →
  dict_lookup "search_results" pesquisa = Some (VList results) →
  In x results → is_dict x = false →
  let v := validate_data_sources (VDict analysis_data) in
  source_quality v = "unknown" ∧ real_data_percentage v = 0%Q
  ∧ has_fallback_content v = false
  ∧ total_sources v = Z.of_nat (length results).
Proof. apply data_sources_malformed. Qed.

Lemma malformed_result_discards_grading_witness :
  let v := @validate_data_sources Samples.plain_floats Samples.one_bad_result in
  source_quality v = "unknown" ∧ real_data_percentage v = 0%Q
  ∧ has_fallback_content v = false ∧ total_sources v = 2.
Proof.
  apply (@malformed_result_discards_grading Samples.plain_floats
           [("pesquisa_web_massiva",
             VDict [("search_results",
                     VList [VDict [("url", VStr "https://g1.globo.com/economia")];
                            VStr "https://exame.com"])])]
           [("search_results",
             VList [VDict [("url", VStr "https://g1.globo.com/economia")];
                    VStr "https://exame.com"])]
           [VDict [("url", VStr "https://g1.globo.com/economia")]; VStr "https://exame.com"]
           (VStr "https://exame.com")).
  - reflexivity.
  - reflexivity.
  - simpl. auto.
  - reflexivity.
Defined.

(** *** Further lemmas on the recovery system *)

Lemma span_word_app (w r : string) :
  span_word w = (w, "") → span_word (w +:+ String "'" r) = (w, String "'" r).
Proof.
  induction w as [|c w IH]; [done|].
  rewrite append_cons. simpl. destruct (is_word c); [|done].
  destruct (span_word w) as [a b] eqn:Hw. intros [= -> ->]. by rewrite IH.
Qed.

Lemma strip_prefix_app (p s : string) : strip_prefix p (p +:+ s) = Some s.
Proof.
  induction p as [|a p IH]; [done|].
  rewrite append_cons. simpl. by rewrite Ascii.eqb_refl.
Qed.

Lemma match_no_attribute_message (w m rest : string) :
  span_word w = (w, "") → w ≠ "" → span_word m = (m, "") → m ≠ "" →
  match_no_attribute
    ("'" +:+ w +:+ "' object has no attribute '" +:+ m +:+ "'" +:+ rest)
  = Some (w, m).
Proof.
  intros Hw Hw0 Hm Hm0.
  change ("'" +:+ w +:+ "' object has no attribute '" +:+ m +:+ "'" +:+ rest)
    with (String "'" (w +:+ String "'" (" object has no attribute '" +:+ m +:+ "'" +:+ rest))).
  unfold match_no_attribute.
  rewrite (span_word_app w _ Hw).
  destruct (String.eqb_spec w "") as [|_]; [done|].
  change (String "'" (" object has no attribute '" +:+ m +:+ "'" +:+ rest))
    with ("' object has no attribute '" +:+ (m +:+ String "'" rest)).
  rewrite strip_prefix_app, (span_word_app m _ Hm).
  by destruct (String.eqb_spec m "").
Qed.

Lemma search_no_attribute_message (w m rest : string) :
  span_word w = (w, "") → w ≠ "" → span_word m = (m, "") → m ≠ "" →
  search_no_attribute
    ("'" +:+ w +:+ "' object has no attribute '" +:+ m +:+ "'" +:+ rest)
  = Some (w, m).
Proof.
  intros Hw Hw0 Hm Hm0.
  pose proof (match_no_attribute_message w m rest Hw Hw0 Hm Hm0) as Hmatch.
  remember ("'" +:+ w +:+ "' object has no attribute '" +:+ m +:+ "'" +:+ rest) as s eqn:Hs.
  clear Hs. destruct s; cbn [search_no_attribute]; by rewrite Hmatch.
Qed.

Section RecoveryFacts.
Context `{FloatRepr} `{Clock} `{Collaborators}.

Lemma classifier_names_known (error_str error_type : string) (component_name : value)
    (name : string) :
  _identify_recovery_strategy error_str error_type component_name = Ok (Some name) →
  ∃ recover, strategy_named name = Ok recover.
Proof.
  unfold _identify_recovery_strategy.
  destruct (contains "'AIManager' object has no attribute" error_str);
    [intros [= <-]; by eexists|].
  destruct (contains "object has no attribute" error_str); [intros [= <-]; by eexists|].
  destruct (contains "list indices must be integers" error_str);
    [intros [= <-]; by eexists|].
  destruct (contains "takes" error_str && contains "positional arguments" error_str);
    [intros [= <-]; by eexists|].
  destruct (if truthy component_name
            then any_in ["driver"; "visual"; "anti_objection"] component_name
            else mret false) as [[]|e]; simpl; [intros [= <-]; by eexists| |done].
  destruct (contains "validation" (lower error_str) || contains "invalid" (lower error_str));
    [intros [= <-]; by eexists | done].
Qed.


Lemma data_structure_recovered (error : exception) (context component_name : value) :
  ∃ normalized,
    _recover_data_structure error context component_name
    = Ok (VDict
        [("recovery_successful", VBool true);
         ("method", VStr "data_structure_normalization");
         ("original_context", context);
         ("normalized_context", VDict normalized);
         ("recommendation", VStr "Use contexto normalizado para continuar análise")])
    ∧ _normalize_data_structure (VDict normalized) = Ok (VDict normalized)
    ∧ (is_dict context = true → context = VDict normalized).
Proof. destruct context; by eexists. Qed.

Lemma ai_manager_success (error : exception) (context component_name outcome : value) :
  _recover_ai_manager error context component_name = Ok outcome →
  py_get outcome "recovery_successful" VNone = Ok (VBool true) →
  ∃ providers provider prompt response,
    get_provider_status = Ok (VDict providers)
    ∧ find_available providers = VStr provider
    ∧ generate_analysis prompt 500 = Ok response
    ∧ truthy response = true
    ∧ py_get outcome "method" VNone = Ok (VStr "ai_manager_reset").
Proof.
  unfold _recover_ai_manager, try_except.
  destruct import_ai_manager as [[]|e]; simpl; [|intros [= <-]; done].
  destruct reset_provider_errors as [[]|e]; simpl; [|intros [= <-]; done].
  destruct get_provider_status as [status|e]; simpl; [|intros [= <-]; done].
  destruct status as [| | | | | |providers]; simpl; try (intros [= <-]; done).
  assert (Hfallback : ∀ r : result value,
    r = (fallback_content ← _generate_ai_fallback_content context;
         mret (VDict
           [("recovery_successful", VBool false);
            ("method", VStr "ai_manager_fallback");
            ("fallback_content", fallback_content);
            ("recommendation", VStr "Configure APIs de IA para funcionalidade completa")])) →
    match r with
    | Ok a => Ok a
    | Raise _ => Ok (_emergency_recovery error context component_name)
    end = Ok outcome →
    py_get outcome "recovery_successful" VNone = Ok (VBool true) → False).
  { intros r ->. destruct (_generate_ai_fallback_content context); simpl;
      intros [= <-]; done. }
  destruct (find_available providers) as [| | | |provider| |] eqn:Hfind; simpl;
    try (by intros Ho Hs; destruct (Hfallback _ eq_refl Ho Hs));
    try (destruct b; simpl; try (by intros Ho Hs; destruct (Hfallback _ eq_refl Ho Hs))).
  all: try (exfalso; clear -Hfind; induction providers as [|[k v] l IH]; simpl in Hfind;
            [done | destruct (py_eq_str v "available"); [done | auto]]).
  destruct (negb (String.eqb provider "")) eqn:Hne; simpl;
    [|by intros Ho Hs; destruct (Hfallback _ eq_refl Ho Hs)].
  destruct (py_get context "segmento" (VStr "negócios")) as [segmento|e]; simpl;
    [|intros [= <-]; done].
  destruct (generate_analysis _ 500) as [response|e] eqn:Hgen; simpl;
    [|intros [= <-]; done].
  destruct (truthy response) eqn:Htruthy; simpl;
    [|by intros Ho Hs; destruct (Hfallback _ eq_refl Ho Hs)].
  destruct (py_slice_to 200 response) as [preview|e]; simpl; [|intros [= <-]; done].
  intros [= <-] _. by repeat eexists.
Qed.

End RecoveryFacts.

(** *** The fallback data of the recovery under the validators *)

Section FallbackData.
Context `{FloatRepr}.

Lemma basic_drivers_rejected (context : list (string * value)) (full : value) :
  ∃ data, _generate_basic_drivers (VDict context) = Ok data
          ∧ critical_issues (_validate_mental_drivers data full)
            = ["Drivers insuficientes: 3 < 5 mínimo"]
          ∧ valid (_validate_mental_drivers data full) = false.
Proof.
  unfold _generate_basic_drivers. cbn [py_get mbind result_bind mret result_ret].
  set (seg := py_str _). clearbody seg.
  eexists. split; [reflexivity|].
  assert (Hissues : critical_issues (_validate_mental_drivers
            (VDict
               [("drivers_customizados",
                 VList
                   [VDict [("nome", VStr ("Urgência " +:+ seg));
                           ("gatilho_central", VStr ("Tempo limitado para dominar " +:+ seg));
                           ("definicao_visceral",
                            VStr ("Cada dia sem otimizar " +:+ seg
                                  +:+ " é oportunidade perdida"));
                           ("recovery_mode", VBool true)];
                    VDict [("nome", VStr ("Autoridade " +:+ seg));
                           ("gatilho_central", VStr ("Expertise comprovada em " +:+ seg));
                           ("definicao_visceral",
                            VStr ("Ser reconhecido como autoridade em " +:+ seg));
                           ("recovery_mode", VBool true)];
                    VDict [("nome", VStr "Método vs Sorte");
                           ("gatilho_central", VStr "Diferença entre método e tentativa");
                           ("definicao_visceral",
                            VStr ("Parar de tentar e começar a aplicar método em " +:+ seg));
                           ("recovery_mode", VBool true)]]);
                ("recovery_applied", VBool true);
                ("original_count_target", VInt 19);
                ("recovered_count", VInt 3)]) full)
          = ["Drivers insuficientes: 3 < 5 mínimo"]) by (vm_compute; reflexivity).
  split; [exact Hissues|].
  match goal with |- valid ?cv = false => destruct (valid cv) eqn:Hvalid; [|done] end.
  apply mental_drivers_valid in Hvalid as [Hnil _]. rewrite Hissues in Hnil. discriminate.
Qed.

Lemma basic_visual_proofs_rejected (context : list (string * value)) (full : value) :
  ∃ data, _generate_basic_visual_proofs (VDict context) = Ok data
          ∧ critical_issues (_validate_visual_proofs data full) = []
          ∧ (score (_validate_visual_proofs data full) == 140 # 3)%Q
          ∧ valid (_validate_visual_proofs data full) = false.
Proof.
  unfold _generate_basic_visual_proofs. cbn [py_get mbind result_bind mret result_ret].
  set (seg := py_str _). clearbody seg.
  eexists. split; [reflexivity|]. by vm_compute.
Qed.

Lemma basic_anti_objection_rejected (context : list (string * value)) (full : value) :
  ∃ data, _generate_basic_anti_objection (VDict context) = Ok data
          ∧ critical_issues (_validate_anti_objection data full)
            = ["Scripts personalizados ausentes"]
          ∧ valid (_validate_anti_objection data full) = false.
Proof.
  unfold _generate_basic_anti_objection. cbn [py_get mbind result_bind mret result_ret].
  set (seg := py_str _). clearbody seg.
  eexists. split; [reflexivity|]. by vm_compute.
Qed.

End FallbackData.

(** *** The auto-fixer on what it cannot copy, and the padding *)

Lemma auto_fix_no_copy `{Clock} (analysis_data : hval) (h : heap) :
  (∀ l, analysis_data ≠ HRef l) →
  runM (auto_fix_common_errors analysis_data) h
  = (h, h_no_attribute h analysis_data "copy").
Proof. intros Hv. destruct analysis_data; try done. by destruct (Hv l). Qed.

Lemma pad_loop_pads (fuel : nat) (l : loc) (item : Z → obj) (minimum : Z) (h : heap)
    (xs : list hval) :
  h !! l = Some (OList xs) →
  (Z.to_nat (minimum - Z.of_nat (length xs)) < fuel)%nat →
  ∃ h' ys,
    runM (pad_loop fuel (HRef l) item minimum) h = (h', Ok tt)
    ∧ h' !! l = Some (OList (xs ++ ys))
    ∧ Z.of_nat (length (xs ++ ys)) = Z.max (Z.of_nat (length xs)) minimum
    ∧ Forall (fun y => ∃ l' n, y = HRef l' ∧ h !! l' = None ∧ h' !! l' = Some (item n)) ys
    ∧ (∀ l' o, l' ≠ l → h !! l' = Some o → h' !! l' = Some o).
Proof.
  revert h xs. induction fuel as [|fuel IH]; intros h xs Hl Hfuel; [lia|].
  cbn [pad_loop]. rewrite run_bind.
  unfold h_len at 1. rewrite run_reading. unfold deref. rewrite Hl.
  cbn [mbind result_bind mret result_ret].
  destruct (Z.ltb_spec (Z.of_nat (length xs)) minimum) as [Hlt|Hge].
  - rewrite run_bind, run_alloc, run_bind.
    set (n := Z.of_nat (length xs)) in *.
    set (l1 := fresh (dom h)).
    assert (Hfresh : h !! l1 = None) by apply fresh_unused.
    assert (Hne : l1 ≠ l) by (intros ->; congruence).
    unfold h_append, updating. cbn [runM].
    rewrite lookup_insert_ne by done. rewrite Hl.
    destruct (IH (<[l := OList (xs ++ [HRef l1])]> (<[l1 := item n]> h)) (xs ++ [HRef l1]))
      as (h' & ys & Hrun & Hl' & Hlen & Hys & Hkeep).
    + by rewrite lookup_insert_eq.
    + rewrite length_app. simpl. lia.
    + exists h', (HRef l1 :: ys). rewrite Hrun.
      rewrite <- app_assoc in Hl', Hlen. simpl in Hl', Hlen.
      split; [done|]. split; [done|]. split.
      { rewrite Hlen. rewrite length_app. simpl. lia. }
      split.
      * constructor.
        { exists l1, n. split; [done|]. split; [done|].
          apply Hkeep; [done|]. rewrite lookup_insert_ne by done.
          by rewrite lookup_insert_eq. }
        eapply Forall_impl; [exact Hys|]. intros y (l' & k & -> & Hnone & Hsome).
        exists l', k. split; [done|]. split; [|done].
        destruct (decide (l' = l)) as [->|Hl'l]; [by rewrite lookup_insert_eq in Hnone|].
        rewrite lookup_insert_ne in Hnone by done.
        destruct (decide (l' = l1)) as [->|Hl'l1]; [by rewrite lookup_insert_eq in Hnone|].
        by rewrite lookup_insert_ne in Hnone.
      * intros l' o Hl'l Ho. apply Hkeep; [done|].
        rewrite lookup_insert_ne by done.
        rewrite lookup_insert_ne; [done|]. intros <-. congruence.
  - exists h, []. rewrite run_ret, app_nil_r.
    split; [done|]. split; [done|]. split; [lia|]. split; [constructor | auto].
Qed.

Lemma pad_pads (l : loc) (item : Z → obj) (minimum : Z) (h : heap) (xs : list hval) :
  h !! l = Some (OList xs) →
  ∃ h' ys,
    runM (pad (HRef l) item minimum) h = (h', Ok tt)
    ∧ h' !! l = Some (OList (xs ++ ys))
    ∧ Z.of_nat (length (xs ++ ys)) = Z.max (Z.of_nat (length xs)) minimum
    ∧ Forall (fun y => ∃ l' n, y = HRef l' ∧ h !! l' = None ∧ h' !! l' = Some (item n)) ys
    ∧ (∀ l' o, l' ≠ l → h !! l' = Some o → h' !! l' = Some o).
Proof. intros Hl. unfold pad. apply pad_loop_pads; [done | lia]. Qed.

(** ** Further properties of the error recovery system *)

(** X20 — every strategy name the classifier returns has a handler in the
    table of strategies: the lookup in [recover_from_error] cannot raise a
    [KeyError]. *)
Theorem classified_errors_have_handlers `{FloatRepr} `{Clock} `{Collaborators}
    (error_str error_type : string) (component_name : value) (name : string) :
  _identify_recovery_strategy error_str error_type component_name = Ok (Some name) →
  ∃ recover, strategy_named name = Ok recover.
Proof. apply classifier_names_known. Qed.

Lemma classified_errors_have_handlers_witness :
  ∃ recover,
    @strategy_named Samples.plain_floats Samples.fixed_clock Samples.quiet_collaborators
      "validation_failure" = Ok recover.
Proof.
  apply (@classified_errors_have_handlers Samples.plain_floats Samples.fixed_clock
           Samples.quiet_collaborators "invalid input" "ValueError" VNone).
  reflexivity.
Defined.

(** X21 — the pattern of [_recover_missing_method] reads the object and the
    method out of a message ['W' object has no attribute 'M'] that starts
    the error text, for all non-empty words [W] and [M] of ASCII letters,
    digits and underscores, whatever follows the closing quote. *)
Theorem no_attribute_message_is_parsed (w m rest : string) :
  span_word w = (w, "") → w ≠ "" → span_word m = (m, "") → m ≠ "" →
  search_no_attribute
    ("'" +:+ w +:+ "' object has no attribute '" +:+ m +:+ "'" +:+ rest)
  = Some (w, m).
Proof. apply search_no_attribute_message. Qed.

Lemma no_attribute_message_is_parsed_witness :
  search_no_attribute
    ("'" +:+ "GeminiClient" +:+ "' object has no attribute '" +:+ "chat" +:+ "'" +:+ "")
  = Some ("GeminiClient", "chat").
Proof.
  apply (no_attribute_message_is_parsed "GeminiClient" "chat" "").
  - reflexivity.
  - discriminate.
  - reflexivity.
  - discriminate.
Defined.

(** X22 — [_recover_ai_manager] reports [recovery_successful] only on the
    reset path: the provider status is a mapping with a provider whose
    status is ['available'], and the test generation returned something
    truthy. *)
Theorem ai_manager_success_needs_provider `{FloatRepr} `{Clock} `{Collaborators}
    (error : exception) (context component_name outcome : value) :
  _recover_ai_manager error context component_name = Ok outcome →
  py_get outcome "recovery_successful" VNone = Ok (VBool true) →
  ∃ providers provider prompt response,
    get_provider_status = Ok (VDict providers)
    ∧ find_available providers = VStr provider
    ∧ generate_analysis prompt 500 = Ok response
    ∧ truthy response = true
    ∧ py_get outcome "method" VNone = Ok (VStr "ai_manager_reset").
Proof. apply ai_manager_success. Qed.

Lemma ai_manager_success_needs_provider_witness :
  ∃ outcome,
    @_recover_ai_manager Samples.plain_floats Samples.fixed_clock Samples.quiet_collaborators
      (Exc "AttributeError" "'AIManager' object has no attribute 'foo'")
      (VDict [("segmento", VStr "saude")]) VNone = Ok outcome
    ∧ ∃ providers provider prompt response,
        @get_provider_status Samples.quiet_collaborators = Ok (VDict providers)
        ∧ find_available providers = VStr provider
        ∧ @generate_analysis Samples.quiet_collaborators prompt 500 = Ok response
        ∧ truthy response = true
        ∧ py_get outcome "method" VNone = Ok (VStr "ai_manager_reset").
Proof.
  eexists. split; [vm_compute; reflexivity |].
  apply (@ai_manager_success_needs_provider Samples.plain_floats Samples.fixed_clock
           Samples.quiet_collaborators
           (Exc "AttributeError" "'AIManager' object has no attribute 'foo'")
           (VDict [("segmento", VStr "saude")]) VNone).
  - vm_compute. reflexivity.
  - vm_compute. reflexivity.
Defined.



(** X24 — [_recover_data_structure] never falls back to the emergency
    recovery: for every context it succeeds with a normalized context that
    is a mapping, that normalizing again leaves as it is, and that is the
    context itself when the context is a mapping. *)
Theorem data_structure_always_recovered `{FloatRepr} `{Clock}
    (error : exception) (context component_name : value) :
  ∃ normalized,
    _recover_data_structure error context component_name
    = Ok (VDict
        [("recovery_successful", VBool true);
         ("method", VStr "data_structure_normalization");
         ("original_context", context);
         ("normalized_context", VDict normalized);
         ("recommendation", VStr "Use contexto normalizado para continuar análise")])
    ∧ _normalize_data_structure (VDict normalized) = Ok (VDict normalized)
    ∧ (is_dict context = true → context = VDict normalized).
Proof. apply data_structure_recovered. Qed.

(** X25 — the fallback data the recovery generates for a failed component
    never passes the validator of that component: the three basic drivers
    are too few, the two basic PROVIs score 140/3, below 70, and the basic
    anti-objection system has no scripts. *)
Theorem fallback_data_is_rejected `{FloatRepr} (context : list (string * value))
    (full : value) :
  (∃ data, _generate_basic_drivers (VDict context) = Ok data
           ∧ critical_issues (_validate_mental_drivers data full)
             = ["Drivers insuficientes: 3 < 5 mínimo"]
           ∧ valid (_validate_mental_drivers data full) = false)
  ∧ (∃ data, _generate_basic_visual_proofs (VDict context) = Ok data
             ∧ critical_issues (_validate_visual_proofs data full) = []
             ∧ (score (_validate_visual_proofs data full) == 140 # 3)%Q
             ∧ valid (_validate_visual_proofs data full) = false)
  ∧ (∃ data, _generate_basic_anti_objection (VDict context) = Ok data
             ∧ critical_issues (_validate_anti_objection data full)
               = ["Scripts personalizados ausentes"]
             ∧ valid (_validate_anti_objection data full) = false).
Proof.
  split; [apply basic_drivers_rejected|].
  split; [apply basic_visual_proofs_rejected | apply basic_anti_objection_rejected].
Qed.

(** X26 — a record that has no method [copy] (a string, a number, [None])
    makes [auto_fix_common_errors] raise: the copy is taken before the
    [try], so the [AttributeError] escapes and the store is untouched. *)
Theorem auto_fix_raises_without_copy `{Clock} (analysis_data : hval) (h : heap) :
  (∀ l, analysis_data ≠ HRef l) →
  runM (auto_fix_common_errors analysis_data) h
  = (h, h_no_attribute h analysis_data "copy").
Proof. apply auto_fix_no_copy. Qed.

Lemma auto_fix_raises_without_copy_witness :
  runM (@auto_fix_common_errors Samples.fixed_clock (HStr "analysis")) ∅
  = (∅, Raise (AttributeError "'str' object has no attribute 'copy'")).
Proof.
  apply (@auto_fix_raises_without_copy Samples.fixed_clock (HStr "analysis") ∅).
  intros l. discriminate.
Defined.

(** X27 — the padding loop of the fixes 1 and 2 ends normally on every
    list: afterwards the list holds its former items followed by
    references to newly allocated basic items, its length is the larger of
    its former length and the minimum, and every other object of the store
    is as it was. *)
Theorem padding_reaches_minimum (l : loc) (item : Z → obj) (minimum : Z) (h : heap)
    (xs : list hval) :
  h !! l = Some (OList xs) →
  ∃ h' ys,
    runM (pad (HRef l) item minimum) h = (h', Ok tt)
    ∧ h' !! l = Some (OList (xs ++ ys))
    ∧ Z.of_nat (length (xs ++ ys)) = Z.max (Z.of_nat (length xs)) minimum
    ∧ Forall (fun y => ∃ l' n, y = HRef l' ∧ h !! l' = None ∧ h' !! l' = Some (item n)) ys
    ∧ (∀ l' o, l' ≠ l → h !! l' = Some o → h' !! l' = Some o).
Proof. apply pad_pads. Qed.

Lemma padding_reaches_minimum_witness :
  let h : heap := {[1%positive := OList [HStr "driver"]]} in
  ∃ h' ys,
    runM (pad (HRef 1%positive) basic_driver 3) h = (h', Ok tt)
    ∧ h' !! 1%positive = Some (OList ([HStr "driver"] ++ ys))
    ∧ Z.of_nat (length ([HStr "driver"] ++ ys)) = Z.max (Z.of_nat (length [HStr "driver"])) 3
    ∧ Forall (fun y => ∃ l' n, y = HRef l' ∧ h !! l' = None
                               ∧ h' !! l' = Some (basic_driver n)) ys
    ∧ (∀ l' o, l' ≠ 1%positive → h !! l' = Some o → h' !! l' = Some o).
Proof.
  apply (padding_reaches_minimum 1%positive basic_driver 3
           {[1%positive := OList [HStr "driver"]]} [HStr "driver"]).
  reflexivity.
Defined.
